(** * Feedback Analyzer: a shallow embedding of the worker and its helpers

    Embedded sources:
    - [src/domain/feedback.ts]  canonical schema, [feedbackToRow], [rowToFeedback],
                                [upsertFeedback]
    - [src/ai/normalize.ts]     [normalizeFeedback], [validateFeedback]
    - [src/ai/search.ts]        [queryAiSearch], [generateDigest],
                                [summarizeForDiscord]
    - [src/storage/r2.ts]       [getFeedbackR2Key], [storeFeedbackInR2],
                                [getFeedbackFromR2], [listFeedbackForDate]
    - [src/discord/types.ts]    interaction responses, [getStringOption],
                                [editOriginalResponse]
    - [src/index.ts]            [handleDiscordInteraction], [handleAskCommand],
                                [handleDigestCommand], [handleIngest], [handleAsk]

    JavaScript strings are sequences of UTF-16 code units, so that [length],
    [substring] and [slice] count what the runtime counts.  JavaScript numbers
    are IEEE doubles; their decimal conversions are taken through the
    interface [JSNumber].  Integer counts coming out of SQL [COUNT( * )] are
    naturals. *)

From Stdlib Require Import Ascii String.
From Stdlib Require Import List NArith ZArith Bool Lia Arith.
From Stdlib Require DecimalN DecimalFacts DecimalPos.
Import ListNotations.

Set Implicit Arguments.
Set Warnings "-register-all,-abstract-large-number,-notation-for-abbreviation".

(* ================================================================== *)
(** ** Strings *)
(* ================================================================== *)

(** A UTF-16 code unit. *)
Notation char16 := N (only parsing).

(** A JavaScript string. *)
Notation jsstring := (list N) (only parsing).

(** An ASCII literal as a JavaScript string. *)
Definition lit (s : string) : jsstring :=
  List.map N_of_ascii (list_ascii_of_string s).

Definition jsstring_eqb (a b : jsstring) : bool :=
  if list_eq_dec N.eq_dec a b then true else false.

(** [s.startsWith(p)] *)
Fixpoint startsWith (s p : jsstring) : bool :=
  match p, s with
  | [], _ => true
  | _ :: _, [] => false
  | x :: p', y :: s' => N.eqb y x && startsWith s' p'
  end.

(** [s.endsWith(p)] *)
Definition endsWith (s p : jsstring) : bool :=
  startsWith (rev s) (rev p).

(** [s.slice(n)] for a non-negative [n]. *)
Definition slice_from (n : nat) (s : jsstring) : jsstring := skipn n s.

(** [s.slice(0, -k)]: the end index is [max (length - k) 0]. *)
Definition slice_drop_last (k : nat) (s : jsstring) : jsstring :=
  firstn (length s - k) s.

(** [s.substring(0, n)] for a non-negative [n]. *)
Definition substring0 (n : nat) (s : jsstring) : jsstring := firstn n s.

(** WhiteSpace and LineTerminator code points removed by [String.prototype.trim]. *)
Definition is_js_whitespace (c : char16) : bool :=
  (((9 <=? c) && (c <=? 13)) || (c =? 32) || (c =? 160) || (c =? 5760)
  || ((8192 <=? c) && (c <=? 8202)) || (c =? 8232) || (c =? 8233)
  || (c =? 8239) || (c =? 8287) || (c =? 12288) || (c =? 65279))%N.

Fixpoint trimStart (s : jsstring) : jsstring :=
  match s with
  | [] => []
  | c :: r => if is_js_whitespace c then trimStart r else s
  end.

Definition trimEnd (s : jsstring) : jsstring := rev (trimStart (rev s)).

(** [s.trim()] *)
Definition trim (s : jsstring) : jsstring := trimEnd (trimStart s).

(** [s.split(sep)[0]] for a one-unit separator: the text before its first
    occurrence, the whole string when it does not occur. *)
Fixpoint split_head (sep : char16) (s : jsstring) : jsstring :=
  match s with
  | [] => []
  | c :: r => if (c =? sep)%N then [] else c :: split_head sep r
  end.

(** [parts.join(sep)] *)
Fixpoint join (sep : jsstring) (parts : list jsstring) : jsstring :=
  match parts with
  | [] => []
  | [p] => p
  | p :: rest => p ++ sep ++ join sep rest
  end.

(** Decimal rendering of a natural number (an integer-valued Number below
    1e21 prints as its plain decimal digits). *)
Fixpoint uint_units (d : Decimal.uint) : jsstring :=
  match d with
  | Decimal.Nil => []
  | Decimal.D0 d => 48 :: uint_units d
  | Decimal.D1 d => 49 :: uint_units d
  | Decimal.D2 d => 50 :: uint_units d
  | Decimal.D3 d => 51 :: uint_units d
  | Decimal.D4 d => 52 :: uint_units d
  | Decimal.D5 d => 53 :: uint_units d
  | Decimal.D6 d => 54 :: uint_units d
  | Decimal.D7 d => 55 :: uint_units d
  | Decimal.D8 d => 56 :: uint_units d
  | Decimal.D9 d => 57 :: uint_units d
  end%N.

Definition N_toString (n : N) : jsstring := uint_units (N.to_uint n).

(** The literals of the program. *)
Definition FENCE : jsstring := Eval vm_compute in lit "```".
Definition FENCE_JSON : jsstring := Eval vm_compute in lit "```json".
Definition ELLIPSIS : jsstring := Eval vm_compute in lit "...".

(* ================================================================== *)
(** ** Numbers *)
(* ================================================================== *)

(** What the program observes of a JavaScript Number.  [+0] and [-0] are one
    value here: truthiness, [String], [typeof] and [JSON.stringify] do not
    tell them apart. *)
Class JSNumber (number : Type) := {
  (** [+0], [-0] or [NaN]: the falsy numbers *)
  num_falsy : number -> bool;
  (** neither [NaN] nor an infinity *)
  num_finite : number -> bool;
  (** [Number::toString], radix 10 *)
  num_toString : number -> jsstring;
  (** the Number denoted by the text of a JSON number literal *)
  num_ofLiteral : jsstring -> number
}.

(* ------------------------------------------------------------------ *)
(** *** The grammar of number literals *)

Definition is_digit (c : char16) : bool := ((48 <=? c) && (c <=? 57))%N.

Fixpoint take_digits (s : jsstring) : jsstring * jsstring :=
  match s with
  | [] => ([], [])
  | c :: r =>
      if is_digit c then let (ds, rest) := take_digits r in (c :: ds, rest)
      else ([], s)
  end.

(** The integer part of a number literal: [0] or a non-zero digit followed by
    digits. *)
Definition scan_int (s : jsstring) : option (jsstring * jsstring) :=
  match s with
  | [] => None
  | d :: r =>
      if (d =? 48)%N then Some ([d], r)
      else if is_digit d then let (ds, rest) := take_digits r in Some (d :: ds, rest)
      else None
  end.

(** An optional fraction: a dot followed by at least one digit. *)
Definition scan_frac (s : jsstring) : option (jsstring * jsstring) :=
  match s with
  | c :: r =>
      if (c =? 46)%N then
        match take_digits r with
        | ([], _) => None
        | (ds, rest) => Some (c :: ds, rest)
        end
      else Some ([], s)
  | [] => Some ([], s)
  end.

(** An optional exponent: [e] or [E], an optional sign, at least one digit. *)
Definition scan_exp (s : jsstring) : option (jsstring * jsstring) :=
  match s with
  | c :: r =>
      if ((c =? 101) || (c =? 69))%N then
        let (sg, r1) :=
          match r with
          | x :: r' => if ((x =? 43) || (x =? 45))%N then ([x], r') else ([], r)
          | [] => ([], r)
          end in
        match take_digits r1 with
        | ([], _) => None
        | (ds, rest) => Some (c :: sg ++ ds, rest)
        end
      else Some ([], s)
  | [] => Some ([], s)
  end.

(** The text of a JSON number literal at the head of the input. *)
Definition scan_number (s : jsstring) : option (jsstring * jsstring) :=
  let (sg, s1) :=
    match s with
    | c :: r => if (c =? 45)%N then ([c], r) else ([], s)
    | [] => ([], s)
    end in
  match scan_int s1 with
  | None => None
  | Some (i, s2) =>
      match scan_frac s2 with
      | None => None
      | Some (f, s3) =>
          match scan_exp s3 with
          | None => None
          | Some (e, s4) => Some (sg ++ i ++ f ++ e, s4)
          end
      end
  end.

(* ------------------------------------------------------------------ *)
(** *** Exact decimals, an instance of the interface *)

(** A number as the exact decimal its literal denotes, [mantissa] times ten
    to the [exponent] with a sign, or one of the three values that are not
    finite.  A decimal at or beyond the rounding limit of the doubles is an
    infinity, as in the runtime; rounding inside the range is not modelled.
    A decimal prints as the digits of the mantissa, followed by the exponent
    when that is not zero. *)
Inductive decimal :=
| Dec (negative : bool) (mantissa : N) (exponent : Z)
| Infinite (negative : bool)
| NotANumber.

Fixpoint units_uint (ds : jsstring) : Decimal.uint :=
  match ds with
  | [] => Decimal.Nil
  | c :: r =>
      let d := units_uint r in
      (if c =? 48 then Decimal.D0 d else if c =? 49 then Decimal.D1 d
       else if c =? 50 then Decimal.D2 d else if c =? 51 then Decimal.D3 d
       else if c =? 52 then Decimal.D4 d else if c =? 53 then Decimal.D5 d
       else if c =? 54 then Decimal.D6 d else if c =? 55 then Decimal.D7 d
       else if c =? 56 then Decimal.D8 d else Decimal.D9 d)%N
  end.

Definition digits_value (ds : jsstring) : N := N.of_uint (units_uint ds).

Definition Z_text (z : Z) : jsstring :=
  (if (z <? 0)%Z then [45%N] else []) ++ N_toString (Z.abs_N z).

Definition decimal_toString (x : decimal) : jsstring :=
  match x with
  | Dec negative m e =>
      (if negative then [45%N] else []) ++ N_toString m
      ++ (if (e =? 0)%Z then [] else 101%N :: Z_text e)
  | Infinite false => lit "Infinity"
  | Infinite true => lit "-Infinity"
  | NotANumber => lit "NaN"
  end.

(** The value of the exponent part of a literal, empty or [e], a sign,
    digits. *)
Definition exponent_value (e : jsstring) : Z :=
  match e with
  | [] => 0%Z
  | _ :: r =>
      match r with
      | s :: ds =>
          if (s =? 45)%N then (- Z.of_N (digits_value ds))%Z
          else if (s =? 43)%N then Z.of_N (digits_value ds)
          else Z.of_N (digits_value r)
      | [] => 0%Z
      end
  end.

(** The least magnitude that rounds to an infinity: half an ulp above the
    largest double. *)
Definition DOUBLE_LIMIT : Z := (2 ^ 1024 - 2 ^ 970)%Z.

Definition overflows (m : N) (e : Z) : bool :=
  if (0 <=? e)%Z then (DOUBLE_LIMIT <=? Z.of_N m * 10 ^ e)%Z
  else (DOUBLE_LIMIT * 10 ^ (- e) <=? Z.of_N m)%Z.

(** The number a mantissa and an exponent denote. *)
Definition decimal_of (negative : bool) (m : N) (e : Z) : decimal :=
  if overflows m e then Infinite negative else Dec negative m e.

Definition decimal_ofLiteral (text : jsstring) : decimal :=
  let (negative, t1) :=
    match text with
    | c :: r => if (c =? 45)%N then (true, r) else (false, text)
    | [] => (false, text)
    end in
  match scan_int t1 with
  | None => NotANumber
  | Some (i, t2) =>
      match scan_frac t2 with
      | None => NotANumber
      | Some (f, t3) =>
          match scan_exp t3 with
          | None => NotANumber
          | Some (e, _) =>
              decimal_of negative (digits_value (i ++ tl f))
                (exponent_value e - Z.of_nat (length (tl f)))
          end
      end
  end.

#[export] Instance DecimalNumber : JSNumber decimal := {
  num_falsy x :=
    match x with
    | Dec _ m _ => (m =? 0)%N
    | Infinite _ => false
    | NotANumber => true
    end;
  num_finite x := match x with Dec _ m e => negb (overflows m e) | _ => false end;
  num_toString := decimal_toString;
  num_ofLiteral := decimal_ofLiteral
}.

(** What may follow the digits of a literal: no digit. *)
Definition no_digit_ahead (rest : jsstring) : bool :=
  match rest with
  | [] => true
  | c :: _ => negb (is_digit c)
  end.

(** Errors thrown by the program and by the built-ins it calls. *)
Inductive js_error :=
| TypeError
| SyntaxError
| UnexpectedFormat.

Inductive result (A : Type) :=
| Ok (a : A)
| Throw (e : js_error).

Arguments Ok {A} a.
Arguments Throw {A} e.

Definition bind {A B} (r : result A) (k : A -> result B) : result B :=
  match r with
  | Ok a => k a
  | Throw e => Throw e
  end.

Notation "x <- r ;; k" := (bind r (fun x => k))
  (at level 61, r at next level, right associativity).

Section Model.

Context {number : Type} {NUM : JSNumber number}.

(* ================================================================== *)
(** ** JSON values *)
(* ================================================================== *)

(** The values [JSON.parse] can return.  An object is its list of own
    properties in creation order, keys distinct.  (The runtime lists
    integer-like keys first; nothing here enumerates such keys.) *)
Inductive json :=
| JNull
| JBool (b : bool)
| JNum (n : number)
| JStr (s : jsstring)
| JArr (items : list json)
| JObj (props : list (jsstring * json)).

(** A JavaScript value read from a property: [None] is [undefined]. *)
Definition jsval := option json.

Fixpoint obj_get (k : jsstring) (props : list (jsstring * json)) : jsval :=
  match props with
  | [] => None
  | (k', v) :: rest => if jsstring_eqb k' k then Some v else obj_get k rest
  end.

(** [CreateDataProperty]: overwrite in place, else append. *)
Fixpoint obj_set (k : jsstring) (v : json) (props : list (jsstring * json))
  : list (jsstring * json) :=
  match props with
  | [] => [(k, v)]
  | (k', v') :: rest =>
      if jsstring_eqb k' k then (k', v) :: rest else (k', v') :: obj_set k v rest
  end.

(** [data.name] on a non-null value, for the property names this program
    reads (none of them lives on a built-in prototype): only an object has
    them. *)
Definition prop (data : json) (name : jsstring) : jsval :=
  match data with
  | JObj props => obj_get name props
  | _ => None
  end.

(** ToBoolean *)
Definition truthy (v : jsval) : bool :=
  match v with
  | None => false
  | Some JNull => false
  | Some (JBool b) => b
  | Some (JNum n) => negb (num_falsy n)
  | Some (JStr s) => match s with [] => false | _ => true end
  | Some (JArr _) => true
  | Some (JObj _) => true
  end.

(** [a || b] *)
Definition js_or (a b : jsval) : jsval := if truthy a then a else b.

(** [String(v)] for a parsed value.  An object whose own [toString] is not
    callable (every parsed property is data) has no primitive value: the
    inherited [valueOf] returns the object itself and ToPrimitive throws. *)
Fixpoint js_String (v : json) : result jsstring :=
  match v with
  | JNull => Ok (lit "null")
  | JBool true => Ok (lit "true")
  | JBool false => Ok (lit "false")
  | JNum n => Ok (num_toString n)
  | JStr s => Ok s
  | JArr items =>
      parts <- (fix each (l : list json) : result (list jsstring) :=
                  match l with
                  | [] => Ok []
                  | x :: r =>
                      a <- match x with JNull => Ok [] | _ => js_String x end ;;
                      b <- each r ;;
                      Ok (a :: b)
                  end) items ;;
      Ok (join [44%N] parts)
  | JObj props =>
      match obj_get (lit "toString") props with
      | Some _ => Throw TypeError
      | None => Ok (lit "[object Object]")
      end
  end.

(* ------------------------------------------------------------------ *)
(** *** [JSON.parse] *)

Definition is_json_ws (c : char16) : bool :=
  ((c =? 9) || (c =? 10) || (c =? 13) || (c =? 32))%N.

Fixpoint skip_ws (s : jsstring) : jsstring :=
  match s with
  | [] => []
  | c :: r => if is_json_ws c then skip_ws r else s
  end.

Definition hex_val (c : char16) : option N :=
  (if (48 <=? c) && (c <=? 57) then Some (c - 48)
   else if (97 <=? c) && (c <=? 102) then Some (c - 87)
   else if (65 <=? c) && (c <=? 70) then Some (c - 55)
   else None)%N.

Definition hex4 (a b c d : char16) : option char16 :=
  match hex_val a, hex_val b, hex_val c, hex_val d with
  | Some x, Some y, Some z, Some w => Some (((x * 16 + y) * 16 + z) * 16 + w)%N
  | _, _, _, _ => None
  end.

(** The unit denoted by a one-letter escape. *)
Definition unescape (e : char16) : option char16 :=
  (if e =? 34 then Some 34 else if e =? 92 then Some 92
   else if e =? 47 then Some 47 else if e =? 98 then Some 8
   else if e =? 102 then Some 12 else if e =? 110 then Some 10
   else if e =? 114 then Some 13 else if e =? 116 then Some 9
   else None)%N.

Definition cons_fst {A B} (a : A) (r : option (list A * B)) : option (list A * B) :=
  match r with
  | Some (l, b) => Some (a :: l, b)
  | None => None
  end.

(** The characters of a string literal after its opening quote, up to and
    including the closing quote; returns the string and the remaining input. *)
Fixpoint parse_string_body (s : jsstring) : option (jsstring * jsstring) :=
  match s with
  | [] => None
  | c :: r =>
      if (c =? 34)%N then Some ([], r)
      else if (c =? 92)%N then
        match r with
        | [] => None
        | e :: r1 =>
            if (e =? 117)%N then
              match r1 with
              | h1 :: h2 :: h3 :: h4 :: r2 =>
                  match hex4 h1 h2 h3 h4 with
                  | Some u => cons_fst u (parse_string_body r2)
                  | None => None
                  end
              | _ => None
              end
            else
              match unescape e with
              | Some u => cons_fst u (parse_string_body r1)
              | None => None
              end
        end
      else if (c <? 32)%N then None
      else cons_fst c (parse_string_body r)
  end.

Definition LIT_TRUE : jsstring := Eval vm_compute in lit "true".
Definition LIT_FALSE : jsstring := Eval vm_compute in lit "false".
Definition LIT_NULL : jsstring := Eval vm_compute in lit "null".

(** One JSON value at the head of the input, after optional white space.
    The fuel bounds the number of nested and successive values. *)
Fixpoint parse_value (fuel : nat) (s : jsstring) : option (json * jsstring) :=
  match fuel with
  | O => None
  | S fuel' =>
      match skip_ws s with
      | [] => None
      | c :: r =>
          if (c =? 34)%N then
            match parse_string_body r with
            | Some (str, rest) => Some (JStr str, rest)
            | None => None
            end
          else if (c =? 91)%N then
            match skip_ws r with
            | c' :: r' =>
                if (c' =? 93)%N then Some (JArr [], r')
                else parse_elements fuel' r []
            | [] => None
            end
          else if (c =? 123)%N then
            match skip_ws r with
            | c' :: r' =>
                if (c' =? 125)%N then Some (JObj [], r')
                else parse_members fuel' r []
            | [] => None
            end
          else if startsWith (c :: r) LIT_TRUE then Some (JBool true, skipn 4 (c :: r))
          else if startsWith (c :: r) LIT_FALSE then Some (JBool false, skipn 5 (c :: r))
          else if startsWith (c :: r) LIT_NULL then Some (JNull, skipn 4 (c :: r))
          else
            match scan_number (c :: r) with
            | Some (text, rest) => Some (JNum (num_ofLiteral text), rest)
            | None => None
            end
      end
  end

with parse_elements (fuel : nat) (s : jsstring) (acc : list json)
  : option (json * jsstring) :=
  match fuel with
  | O => None
  | S fuel' =>
      match parse_value fuel' s with
      | None => None
      | Some (v, r) =>
          match skip_ws r with
          | c :: r' =>
              if (c =? 44)%N then parse_elements fuel' r' (acc ++ [v])
              else if (c =? 93)%N then Some (JArr (acc ++ [v]), r')
              else None
          | [] => None
          end
      end
  end

with parse_members (fuel : nat) (s : jsstring) (acc : list (jsstring * json))
  : option (json * jsstring) :=
  match fuel with
  | O => None
  | S fuel' =>
      match skip_ws s with
      | q :: r0 =>
          if (q =? 34)%N then
            match parse_string_body r0 with
            | None => None
            | Some (k, r1) =>
                match skip_ws r1 with
                | c :: r2 =>
                    if (c =? 58)%N then
                      match parse_value fuel' r2 with
                      | None => None
                      | Some (v, r3) =>
                          match skip_ws r3 with
                          | d :: r4 =>
                              if (d =? 44)%N then parse_members fuel' r4 (obj_set k v acc)
                              else if (d =? 125)%N then Some (JObj (obj_set k v acc), r4)
                              else None
                          | [] => None
                          end
                      end
                    else None
                | [] => None
                end
            end
          else None
      | [] => None
      end
  end.

(** [JSON.parse(text)]: [None] is the thrown [SyntaxError].  A value, then only
    white space.  The length of the text is fuel enough: more fuel never
    changes the result ([JSON_parse_any_fuel]). *)
Definition JSON_parse (text : jsstring) : option json :=
  match parse_value (S (length text)) text with
  | Some (v, rest) =>
      match skip_ws rest with
      | [] => Some v
      | _ :: _ => None
      end
  | None => None
  end.

(* ------------------------------------------------------------------ *)
(** *** [JSON.stringify] *)

Definition hex_digit (n : N) : char16 :=
  (if n <? 10 then 48 + n else 87 + n)%N.

(** [\uXXXX], lower-case hexadecimal. *)
Definition unicode_escape (c : char16) : jsstring :=
  [92; 117; hex_digit ((c / 4096) mod 16); hex_digit ((c / 256) mod 16);
   hex_digit ((c / 16) mod 16); hex_digit (c mod 16)]%N.

Definition is_lead_surrogate (c : char16) : bool :=
  ((55296 <=? c) && (c <=? 56319))%N.

Definition is_trail_surrogate (c : char16) : bool :=
  ((56320 <=? c) && (c <=? 57343))%N.

(** QuoteJSONString, between the quotes: two-letter escapes, [\u] escapes for
    the other control characters and for lone surrogates, a surrogate pair and
    everything else as it is. *)
Fixpoint quote_body (s : jsstring) : jsstring :=
  match s with
  | [] => []
  | c :: r =>
      if (c =? 8)%N then 92 :: 98 :: quote_body r
      else if (c =? 9)%N then 92 :: 116 :: quote_body r
      else if (c =? 10)%N then 92 :: 110 :: quote_body r
      else if (c =? 12)%N then 92 :: 102 :: quote_body r
      else if (c =? 13)%N then 92 :: 114 :: quote_body r
      else if (c =? 34)%N then 92 :: 34 :: quote_body r
      else if (c =? 92)%N then 92 :: 92 :: quote_body r
      else if (c <? 32)%N then unicode_escape c ++ quote_body r
      else if is_lead_surrogate c then
        match r with
        | d :: r' =>
            if is_trail_surrogate d then c :: d :: quote_body r'
            else unicode_escape c ++ quote_body r
        | [] => unicode_escape c
        end
      else if is_trail_surrogate c then unicode_escape c ++ quote_body r
      else c :: quote_body r
  end%N.

Definition quote (s : jsstring) : jsstring := 34%N :: quote_body s ++ [34%N].

(** [JSON.stringify(v)] without indentation.  A number that is not finite is
    written [null]. *)
Fixpoint JSON_stringify (v : json) : jsstring :=
  match v with
  | JNull => LIT_NULL
  | JBool true => LIT_TRUE
  | JBool false => LIT_FALSE
  | JNum n => if num_finite n then num_toString n else LIT_NULL
  | JStr s => quote s
  | JArr items => 91%N :: join [44%N] (List.map JSON_stringify items) ++ [93%N]
  | JObj props =>
      123%N :: join [44%N]
        (List.map (fun kv => quote (fst kv) ++ 58%N :: JSON_stringify (snd kv)) props)
      ++ [125%N]
  end.

(* ================================================================== *)
(** ** The canonical schema ([src/domain/feedback.ts]) *)
(* ================================================================== *)

Record FeedbackConfidence := {
  c_product_area : option number;
  c_sentiment : option number;
  c_urgency : option number
}.

(** At run time the four closed-set fields are plain strings. *)
Record Feedback := {
  f_id : jsstring;
  f_created_at : jsstring;
  f_source : jsstring;
  f_source_url : option jsstring;
  f_product_area : jsstring;
  f_title : option jsstring;
  f_author : option jsstring;
  f_thread_id : option jsstring;
  f_body_text : jsstring;
  f_sentiment : jsstring;
  f_urgency : jsstring;
  f_tags : list jsstring;
  f_confidence : option FeedbackConfidence
}.

(** A row of the [feedback] table; [None] is SQL [NULL]. *)
Record FeedbackRow := {
  r_id : jsstring;
  r_created_at : jsstring;
  r_source : jsstring;
  r_source_url : option jsstring;
  r_product_area : jsstring;
  r_title : option jsstring;
  r_author : option jsstring;
  r_thread_id : option jsstring;
  r_body_text : jsstring;
  r_sentiment : jsstring;
  r_urgency : jsstring;
  r_tags_json : option jsstring;
  r_confidence_json : option jsstring;
  r_r2_key : jsstring
}.

(** What [rowToFeedback] returns: the type annotations are erased, so [tags]
    and [confidence] are whatever [JSON.parse] produced. *)
Record LoadedFeedback := {
  l_id : jsstring;
  l_created_at : jsstring;
  l_source : jsstring;
  l_source_url : option jsstring;
  l_product_area : jsstring;
  l_title : option jsstring;
  l_author : option jsstring;
  l_thread_id : option jsstring;
  l_body_text : jsstring;
  l_sentiment : jsstring;
  l_urgency : jsstring;
  l_tags : json;
  l_confidence : jsval;
  l_r2_key : jsstring
}.

(** The array of strings [feedback.tags] as a value. *)
Definition tags_value (tags : list jsstring) : json := JArr (List.map JStr tags).

Definition defined_prop (name : jsstring) (n : option number)
  : list (jsstring * json) :=
  match n with
  | Some x => [(name, JNum x)]
  | None => []
  end.

(** The object [feedback.confidence] as [JSON.stringify] sees it: a property
    whose value is [undefined] is left out. *)
Definition confidence_value (c : FeedbackConfidence) : json :=
  JObj (defined_prop (lit "product_area") (c_product_area c)
        ++ defined_prop (lit "sentiment") (c_sentiment c)
        ++ defined_prop (lit "urgency") (c_urgency c)).

Definition feedbackToRow (feedback : Feedback) (r2Key : jsstring) : FeedbackRow :=
  {| r_id := f_id feedback;
     r_created_at := f_created_at feedback;
     r_source := f_source feedback;
     r_source_url := f_source_url feedback;
     r_product_area := f_product_area feedback;
     r_title := f_title feedback;
     r_author := f_author feedback;
     r_thread_id := f_thread_id feedback;
     r_body_text := f_body_text feedback;
     r_sentiment := f_sentiment feedback;
     r_urgency := f_urgency feedback;
     r_tags_json :=
       if (0 <? length (f_tags feedback))%nat
       then Some (JSON_stringify (tags_value (f_tags feedback)))
       else None;
     r_confidence_json :=
       match f_confidence feedback with
       | Some c => Some (JSON_stringify (confidence_value c))
       | None => None
       end;
     r_r2_key := r2Key |}.

(** [column ? JSON.parse(column) : fallback]: [NULL] and the empty string are
    falsy. *)
Definition parse_column (column : option jsstring) (fallback : jsval)
  : result jsval :=
  match column with
  | None => Ok fallback
  | Some [] => Ok fallback
  | Some text =>
      match JSON_parse text with
      | Some v => Ok (Some v)
      | None => Throw SyntaxError
      end
  end.

Definition rowToFeedback (row : FeedbackRow) : result LoadedFeedback :=
  tags <- parse_column (r_tags_json row) (Some (JArr [])) ;;
  confidence <- parse_column (r_confidence_json row) None ;;
  Ok {| l_id := r_id row;
        l_created_at := r_created_at row;
        l_source := r_source row;
        l_source_url := r_source_url row;
        l_product_area := r_product_area row;
        l_title := r_title row;
        l_author := r_author row;
        l_thread_id := r_thread_id row;
        l_body_text := r_body_text row;
        l_sentiment := r_sentiment row;
        l_urgency := r_urgency row;
        l_tags := match tags with Some v => v | None => JArr [] end;
        l_confidence := confidence;
        l_r2_key := r_r2_key row |}.

(* ================================================================== *)
(** ** Object-store keys ([src/storage/r2.ts]) *)
(* ================================================================== *)

Definition KEY_PREFIX : jsstring := Eval vm_compute in lit "feedback/dt=".
Definition KEY_SOURCE : jsstring := Eval vm_compute in lit "/source=".
Definition KEY_SUFFIX : jsstring := Eval vm_compute in lit ".json".

(** [created_at.split('T')[0]] *)
Definition date_portion (created_at : jsstring) : jsstring :=
  split_head 84%N created_at.

Definition getFeedbackR2Key (feedback : Feedback) : jsstring :=
  let date := date_portion (f_created_at feedback) in
  KEY_PREFIX ++ date ++ KEY_SOURCE ++ f_source feedback ++ [47%N]
    ++ f_id feedback ++ KEY_SUFFIX.

(* ================================================================== *)
(** ** Canonicalization ([src/ai/normalize.ts]) *)
(* ================================================================== *)

Definition validSources : list jsstring :=
  Eval vm_compute in
    [lit "discord"; lit "github"; lit "support"; lit "twitter"; lit "email"].
Definition validProductAreas : list jsstring :=
  Eval vm_compute in
    [lit "auth"; lit "billing"; lit "workers"; lit "ai"; lit "workers-ai";
     lit "d1"; lit "r2"; lit "other"].
Definition validSentiments : list jsstring :=
  Eval vm_compute in [lit "positive"; lit "neutral"; lit "negative"].
Definition validUrgencies : list jsstring :=
  Eval vm_compute in [lit "low"; lit "medium"; lit "high"; lit "p1"].

Definition DEFAULT_SOURCE : jsstring := Eval vm_compute in lit "email".
Definition DEFAULT_PRODUCT_AREA : jsstring := Eval vm_compute in lit "other".
Definition DEFAULT_SENTIMENT : jsstring := Eval vm_compute in lit "neutral".
Definition DEFAULT_URGENCY : jsstring := Eval vm_compute in lit "medium".

(** [set.includes(v)] for an array of strings: only an equal string is found. *)
Definition includes (set : list jsstring) (v : jsval) : bool :=
  match v with
  | Some (JStr s) => existsb (jsstring_eqb s) set
  | _ => false
  end.

(** [set.includes(v) ? v : fallback] *)
Definition member_or (set : list jsstring) (fallback : jsstring) (v : jsval)
  : jsstring :=
  if includes set v
  then match v with Some (JStr s) => s | _ => fallback end
  else fallback.

(** [typeof v === 'string' ? v : undefined] *)
Definition string_or_undefined (v : jsval) : option jsstring :=
  match v with
  | Some (JStr s) => Some s
  | _ => None
  end.

(** [typeof v === 'number' ? v : undefined] *)
Definition number_or_undefined (v : jsval) : option number :=
  match v with
  | Some (JNum n) => Some n
  | _ => None
  end.

(** [String(v)] for a value that may be [undefined]. *)
Definition String_of (v : jsval) : result jsstring :=
  match v with
  | Some j => js_String j
  | None => Ok (lit "undefined")
  end.

Definition K_id := Eval vm_compute in lit "id".
Definition K_created_at := Eval vm_compute in lit "created_at".
Definition K_source := Eval vm_compute in lit "source".
Definition K_source_url := Eval vm_compute in lit "source_url".
Definition K_product_area := Eval vm_compute in lit "product_area".
Definition K_title := Eval vm_compute in lit "title".
Definition K_author := Eval vm_compute in lit "author".
Definition K_thread_id := Eval vm_compute in lit "thread_id".
Definition K_body_text := Eval vm_compute in lit "body_text".
Definition K_content := Eval vm_compute in lit "content".
Definition K_body := Eval vm_compute in lit "body".
Definition K_text := Eval vm_compute in lit "text".
Definition K_sentiment := Eval vm_compute in lit "sentiment".
Definition K_urgency := Eval vm_compute in lit "urgency".
Definition K_tags := Eval vm_compute in lit "tags".
Definition K_confidence := Eval vm_compute in lit "confidence".
Definition K_response := Eval vm_compute in lit "response".

(** The value [String] is applied to for [body_text]:
    [data.body_text || data.content || data.body || data.text || ''] *)
Definition body_candidate (data : json) : jsval :=
  js_or (js_or (js_or (js_or (prop data K_body_text) (prop data K_content))
                 (prop data K_body)) (prop data K_text)) (Some (JStr [])).

(** [validateFeedback(data)].  [uuid] is what [crypto.randomUUID()] would
    return and [now] what [new Date().toISOString()] would.  Reading a
    property of [null] throws. *)
Definition validateFeedback (uuid now : jsstring) (data : json) : result Feedback :=
  match data with
  | JNull => Throw TypeError
  | _ =>
      id <- String_of (js_or (prop data K_id) (Some (JStr uuid))) ;;
      created_at <- String_of (js_or (prop data K_created_at) (Some (JStr now))) ;;
      let source := member_or validSources DEFAULT_SOURCE (prop data K_source) in
      let product_area :=
        member_or validProductAreas DEFAULT_PRODUCT_AREA (prop data K_product_area) in
      let sentiment :=
        member_or validSentiments DEFAULT_SENTIMENT (prop data K_sentiment) in
      let urgency :=
        member_or validUrgencies DEFAULT_URGENCY (prop data K_urgency) in
      let tags :=
        match prop data K_tags with
        | Some (JArr items) =>
            flat_map (fun t => match t with JStr s => [s] | _ => [] end) items
        | _ => []
        end in
      body_text <- String_of (body_candidate data) ;;
      Ok {| f_id := id;
            f_created_at := created_at;
            f_source := source;
            f_source_url := string_or_undefined (prop data K_source_url);
            f_product_area := product_area;
            f_title := string_or_undefined (prop data K_title);
            f_author := string_or_undefined (prop data K_author);
            f_thread_id := string_or_undefined (prop data K_thread_id);
            f_body_text := body_text;
            f_sentiment := sentiment;
            f_urgency := urgency;
            f_tags := tags;
            f_confidence :=
              match prop data K_confidence with
              | Some ((JObj _ | JArr _) as c) =>
                  Some {| c_product_area := number_or_undefined (prop c K_product_area);
                          c_sentiment := number_or_undefined (prop c K_sentiment);
                          c_urgency := number_or_undefined (prop c K_urgency) |}
              | _ => None
              end |}
  end.

(** The fence handling of [normalizeFeedback], from [responseText.trim()] to
    the final [jsonStr.trim()]. *)
Definition strip_fence (responseText : jsstring) : jsstring :=
  let jsonStr := trim responseText in
  let jsonStr :=
    if startsWith jsonStr FENCE_JSON then slice_from 7 jsonStr
    else if startsWith jsonStr FENCE then slice_from 3 jsonStr
    else jsonStr in
  let jsonStr :=
    if endsWith jsonStr FENCE then slice_drop_last 3 jsonStr else jsonStr in
  trim jsonStr.

(** [normalizeFeedback], after the generation call resolved to [response].
    A [response] property that is not a string has no [trim] method. *)
Definition normalizeFeedback (uuid now : jsstring) (response : json)
  : result Feedback :=
  match response with
  | JObj props =>
      match obj_get K_response props with
      | None => Throw UnexpectedFormat
      | Some (JStr responseText) =>
          match JSON_parse (strip_fence responseText) with
          | None => Throw SyntaxError
          | Some parsed => validateFeedback uuid now parsed
          end
      | Some _ => Throw TypeError
      end
  | _ => Throw UnexpectedFormat
  end.

(* ================================================================== *)
(** ** Semantic search and rendering ([src/ai/search.ts]) *)
(* ================================================================== *)

Record Citation := {
  cit_text : jsstring;
  cit_source_url : option jsstring
}.

(** [SearchResult]; the [raw] field only echoes the service's reply and is
    left out. *)
Record SearchResult := {
  answer : jsstring;
  citations : list Citation
}.

Record AiSearchSource := {
  src_content : option jsstring;
  src_filename : option jsstring
}.

Record AiSearchData := {
  data_response : option jsstring;
  data_sources : option (list AiSearchSource)
}.

Record AiSearchResponse := {
  resp_response : option jsstring;
  resp_data : option AiSearchData
}.

Definition NL : char16 := 10%N.
Definition NO_RESULTS : jsstring := Eval vm_compute in lit "No results found.".
Definition SEARCH_UNAVAILABLE : jsstring :=
  Eval vm_compute in lit "Unable to search feedback at this time.".
Definition SOURCES_HEADER : jsstring :=
  Eval vm_compute in [NL; NL] ++ lit "**Sources:**".

(** [a ?? b] on optional strings *)
Definition nullish {A} (a : option A) (b : A) : A :=
  match a with
  | Some x => x
  | None => b
  end.

(** [queryAiSearch] once the service call settled: [Throw] is a rejected
    call, caught by the function's own [try]/[catch]; [Ok None] is a reply
    that is [null] or [undefined], which the optional chaining absorbs. *)
Definition queryAiSearch (outcome : result (option AiSearchResponse)) : SearchResult :=
  match outcome with
  | Ok res =>
      let data := match res with Some x => resp_data x | None => None end in
      let answer :=
        match (match res with Some x => resp_response x | None => None end) with
        | Some a => a
        | None =>
            nullish (match data with Some d => data_response d | None => None end)
              NO_RESULTS
        end in
      let sources :=
        nullish (match data with Some d => data_sources d | None => None end) [] in
      {| answer := answer;
         citations :=
           List.map (fun s =>
                  {| cit_text :=
                       nullish (option_map (substring0 200) (src_content s)) [];
                     cit_source_url := src_filename s |}) sources |}
  | Throw _ => {| answer := SEARCH_UNAVAILABLE; citations := [] |}
  end.

(** The [forEach] over the first citations: [i] is the index of the head. *)
Fixpoint source_lines (i : N) (cs : list Citation) : jsstring :=
  match cs with
  | [] => []
  | c :: rest =>
      (match cit_text c with
       | [] => []
       | _ :: _ =>
           NL :: N_toString (i + 1) ++ lit ". "
              ++ substring0 100 (cit_text c) ++ ELLIPSIS
       end) ++ source_lines (i + 1) rest
  end.

(** The common last step: [if (content.length > 1900) content =
    content.substring(0, 1897) + '...'] *)
Definition truncate_for_discord (content : jsstring) : jsstring :=
  if (1900 <? length content)%nat then substring0 1897 content ++ ELLIPSIS
  else content.

(** The content [summarizeForDiscord] builds before the truncation. *)
Definition summary_content (searchResult : SearchResult) : jsstring :=
  answer searchResult
  ++ (if (0 <? length (citations searchResult))%nat
      then SOURCES_HEADER ++ source_lines 0 (firstn 3 (citations searchResult))
      else []).

Definition summarizeForDiscord (searchResult : SearchResult) : jsstring :=
  truncate_for_discord (summary_content searchResult).

(* ================================================================== *)
(** ** Discord interactions ([src/discord/types.ts]) *)
(* ================================================================== *)

Definition PING : N := 1.
Definition APPLICATION_COMMAND : N := 2.
Definition PONG : N := 1.
Definition CHANNEL_MESSAGE_WITH_SOURCE : N := 4.
Definition DEFERRED_CHANNEL_MESSAGE_WITH_SOURCE : N := 5.
Definition EPHEMERAL : N := 64.

(** [value?: string | number | boolean] *)
Inductive OptionValue :=
| VString (s : jsstring)
| VNumber (n : number)
| VBoolean (b : bool).

(** Nested sub-options are not read by this program. *)
Record InteractionDataOption := {
  opt_name : jsstring;
  opt_type : N;
  opt_value : option OptionValue
}.

Record InteractionData := {
  idata_id : jsstring;
  idata_name : jsstring;
  idata_options : option (list InteractionDataOption)
}.

Record DiscordInteraction := {
  i_id : jsstring;
  i_type : N;
  i_application_id : jsstring;
  i_data : option InteractionData;
  i_token : jsstring
}.

Record InteractionResponseData := {
  ir_content : option jsstring;
  ir_flags : option N
}.

Record InteractionResponse := {
  ir_type : N;
  ir_data : option InteractionResponseData
}.

Definition createPongResponse : InteractionResponse :=
  {| ir_type := PONG; ir_data := None |}.

Definition createMessageResponse (content : jsstring) : InteractionResponse :=
  {| ir_type := CHANNEL_MESSAGE_WITH_SOURCE;
     ir_data := Some {| ir_content := Some content; ir_flags := None |} |}.

Definition createEphemeralResponse (content : jsstring) : InteractionResponse :=
  {| ir_type := CHANNEL_MESSAGE_WITH_SOURCE;
     ir_data := Some {| ir_content := Some content; ir_flags := Some EPHEMERAL |} |}.

Definition createDeferredResponse : InteractionResponse :=
  {| ir_type := DEFERRED_CHANNEL_MESSAGE_WITH_SOURCE; ir_data := None |}.

(** [String(option.value)] *)
Definition OptionValue_String (v : OptionValue) : jsstring :=
  match v with
  | VString s => s
  | VNumber n => num_toString n
  | VBoolean true => LIT_TRUE
  | VBoolean false => LIT_FALSE
  end.

(** [interaction.data?.options?.find((o) => o.name === name)] *)
Definition find_option (interaction : DiscordInteraction) (name : jsstring)
  : option InteractionDataOption :=
  match i_data interaction with
  | None => None
  | Some d =>
      match idata_options d with
      | None => None
      | Some opts => find (fun o => jsstring_eqb (opt_name o) name) opts
      end
  end.

Definition getStringOption (interaction : DiscordInteraction) (name : jsstring)
  : option jsstring :=
  match find_option interaction name with
  | Some o => option_map OptionValue_String (opt_value o)
  | None => None
  end.

(* ================================================================== *)
(** ** The worker ([src/index.ts]) *)
(* ================================================================== *)

Record DailyStat := {
  st_source : jsstring;
  st_product_area : jsstring;
  st_sentiment : jsstring;
  st_count : N
}.

Record UrgentItem := {
  u_body_text : jsstring;
  u_source_url : option jsstring
}.

(** The bindings of the worker, as the replies the external services give:
    the search service for a query and a maximal number of results, and the
    three relational reads of the digest. *)
Record Env := {
  ai_search : json -> N -> result (option AiSearchResponse);
  getDailyStats : jsstring -> result (list DailyStat);
  getFeedbackCount : jsstring -> result N;
  getHighUrgencySample : N -> result (list UrgentItem)
}.

Definition digestQuery (date : jsstring) : jsstring :=
  lit "Summarize the most important customer feedback for " ++ date
  ++ lit ". " ++ [NL] ++ lit "Emphasize any high urgency or p1 items. " ++ [NL]
  ++ lit "Group insights by product area when possible. " ++ [NL]
  ++ lit "Include representative examples and highlight common themes.".

Definition generateDigest (env : Env) (date : jsstring) : SearchResult :=
  queryAiSearch (ai_search env (JStr (digestQuery date)) 10).

(** The emoji of the digest, as surrogate pairs. *)
Definition BAR_CHART : jsstring := [55357; 56522]%N.
Definition THUMBS_UP : jsstring := [55357; 56397]%N.
Definition NEUTRAL_FACE : jsstring := [55357; 56848]%N.
Definition THUMBS_DOWN : jsstring := [55357; 56398]%N.
Definition RED_CIRCLE : jsstring := [55357; 56628]%N.
Definition BULLET : char16 := 8226%N.

Definition POSITIVE : jsstring := Eval vm_compute in lit "positive".
Definition NEGATIVE : jsstring := Eval vm_compute in lit "negative".

Definition digest_title (date : jsstring) : jsstring :=
  lit "**" ++ BAR_CHART ++ lit " Feedback Digest for " ++ date ++ lit "**"
  ++ [NL; NL].

Definition NO_FEEDBACK : jsstring :=
  Eval vm_compute in lit "No feedback recorded for this date.".

Record Counts := { pos : N; neu : N; neg : N }.

Definition add_count (c : Counts) (sentiment : jsstring) (n : N) : Counts :=
  if jsstring_eqb sentiment POSITIVE
  then {| pos := pos c + n; neu := neu c; neg := neg c |}
  else if jsstring_eqb sentiment NEGATIVE
  then {| pos := pos c; neu := neu c; neg := neg c + n |}
  else {| pos := pos c; neu := neu c + n; neg := neg c |}.

(** One turn of the grouping loop on [grouped], kept in insertion order (the
    sources are the words of the closed set). *)
Fixpoint group_stat (stat : DailyStat) (grouped : list (jsstring * Counts))
  : list (jsstring * Counts) :=
  match grouped with
  | [] =>
      [(st_source stat,
        add_count {| pos := 0; neu := 0; neg := 0 |} (st_sentiment stat) (st_count stat))]
  | (s, c) :: rest =>
      if jsstring_eqb s (st_source stat)
      then (s, add_count c (st_sentiment stat) (st_count stat)) :: rest
      else (s, c) :: group_stat stat rest
  end.

Definition group_stats (stats : list DailyStat) : list (jsstring * Counts) :=
  fold_left (fun grouped stat => group_stat stat grouped) stats [].

Definition breakdown_line (entry : jsstring * Counts) : jsstring :=
  BULLET :: lit " " ++ fst entry ++ lit ": "
    ++ THUMBS_UP ++ N_toString (pos (snd entry)) ++ lit " "
    ++ NEUTRAL_FACE ++ N_toString (neu (snd entry)) ++ lit " "
    ++ THUMBS_DOWN ++ N_toString (neg (snd entry)) ++ [NL].

Definition urgent_line (item : UrgentItem) : jsstring :=
  BULLET :: lit " " ++ [34%N] ++ substring0 100 (u_body_text item)
    ++ ELLIPSIS ++ [34%N; NL].

Definition breakdown_section (stats : list DailyStat) : jsstring :=
  if (0 <? length stats)%nat
  then lit "**Breakdown by source & sentiment:**" ++ [NL]
       ++ concat (List.map breakdown_line (group_stats stats)) ++ [NL]
  else [].

Definition key_themes_section (answer : jsstring) : jsstring :=
  lit "**Key Themes:**" ++ [NL] ++ substring0 800 answer.

Definition high_urgency_section (highUrgency : list UrgentItem) : jsstring :=
  if (0 <? length highUrgency)%nat
  then [NL; NL] ++ lit "**" ++ RED_CIRCLE ++ lit " High-Urgency Items:**" ++ [NL]
       ++ concat (List.map urgent_line highUrgency)
  else [].

(** The composition run when [totalCount > 0]. *)
Definition compose_report (totalCount : N) (stats : list DailyStat)
    (searchResult : SearchResult) (highUrgency : list UrgentItem) : jsstring :=
  lit "**Total feedback:** " ++ N_toString totalCount ++ [NL; NL]
  ++ breakdown_section stats
  ++ key_themes_section (answer searchResult)
  ++ high_urgency_section highUrgency.

(** [digestContent] before the truncation. *)
Definition digest_content (date : jsstring) (totalCount : N)
    (stats : list DailyStat) (searchResult : SearchResult)
    (highUrgency : list UrgentItem) : jsstring :=
  digest_title date
  ++ (if (0 <? totalCount)%N
      then compose_report totalCount stats searchResult highUrgency
      else NO_FEEDBACK).

(** The rendering handed to [editOriginalResponse] when nothing threw. *)
Definition digest_rendering (date : jsstring) (totalCount : N)
    (stats : list DailyStat) (searchResult : SearchResult)
    (highUrgency : list UrgentItem) : jsstring :=
  truncate_for_discord (digest_content date totalCount stats searchResult highUrgency).

Definition ASK_USAGE : jsstring :=
  Eval vm_compute in lit "Please provide a query using the `query` option.".
Definition ASK_ERROR : jsstring :=
  Eval vm_compute in
    lit "Sorry, I encountered an error while searching. Please try again.".
Definition DIGEST_ERROR : jsstring :=
  Eval vm_compute in
    lit "Sorry, I encountered an error generating the digest. Please try again.".
Definition MISSING_QUERY : jsstring :=
  Eval vm_compute in lit "Missing required field: query".
Definition K_query : jsstring := Eval vm_compute in lit "query".
Definition K_date : jsstring := Eval vm_compute in lit "date".

(** The continuation a handler hands to [ctx.waitUntil]. *)
Inductive BackgroundTask :=
| AskTask (application_id token query : jsstring)
| DigestTask (application_id token date : jsstring).

(** The execution context: the continuations registered so far, in order. *)
Definition ExecutionContext := list BackgroundTask.

(** One call of [editOriginalResponse]. *)
Record WebhookEdit := {
  edit_application_id : jsstring;
  edit_token : jsstring;
  edit_content : jsstring
}.

(** The [try] block of the digest continuation. *)
Definition digest_try (env : Env) (date : jsstring) : result jsstring :=
  let searchResult := generateDigest env date in
  stats <- getDailyStats env date ;;
  totalCount <- getFeedbackCount env date ;;
  highUrgency <- getHighUrgencySample env 3 ;;
  Ok (digest_rendering date totalCount stats searchResult highUrgency).

(** The [try] block of the ask continuation. *)
Definition ask_try (env : Env) (query : jsstring) : result jsstring :=
  let searchResult := queryAiSearch (ai_search env (JStr query) 5) in
  Ok (summarizeForDiscord searchResult).

(** Running a registered continuation: the one edit of the original
    response, with the result or with the fixed apology of the [catch].
    (The webhook call itself is taken to resolve.) *)
Definition run_task (env : Env) (task : BackgroundTask) : WebhookEdit :=
  match task with
  | AskTask app token query =>
      {| edit_application_id := app;
         edit_token := token;
         edit_content :=
           match ask_try env query with Ok c => c | Throw _ => ASK_ERROR end |}
  | DigestTask app token date =>
      {| edit_application_id := app;
         edit_token := token;
         edit_content :=
           match digest_try env date with Ok c => c | Throw _ => DIGEST_ERROR end |}
  end.

Inductive ResponseBody :=
| InteractionBody (r : InteractionResponse)
| ErrorBody (error : jsstring)
| AskBody (query : json) (answer : jsstring) (cites : list Citation).

Record Response := {
  status : N;
  body : ResponseBody
}.

(** [Response.json(body)] and [Response.json(body, { status })] *)
Definition Response_json (b : ResponseBody) : Response := {| status := 200; body := b |}.
Definition Response_json_status (b : ResponseBody) (s : N) : Response :=
  {| status := s; body := b |}.

(** [handleAskCommand]: the response and the execution context afterwards.
    [!query] holds for [undefined] and for the empty string. *)
Definition handleAskCommand (interaction : DiscordInteraction)
    (ctx : ExecutionContext) : Response * ExecutionContext :=
  match getStringOption interaction K_query with
  | None | Some [] =>
      (Response_json (InteractionBody (createEphemeralResponse ASK_USAGE)), ctx)
  | Some query =>
      (Response_json (InteractionBody createDeferredResponse),
       ctx ++ [AskTask (i_application_id interaction) (i_token interaction) query])
  end.

(** [handleDigestCommand]; [today] is [new Date().toISOString().split('T')[0]]. *)
Definition handleDigestCommand (interaction : DiscordInteraction)
    (today : jsstring) (ctx : ExecutionContext) : Response * ExecutionContext :=
  let date :=
    match getStringOption interaction K_date with
    | None | Some [] => today
    | Some dateOption => dateOption
    end in
  (Response_json (InteractionBody createDeferredResponse),
   ctx ++ [DigestTask (i_application_id interaction) (i_token interaction) date]).

(** [handleAsk] on the text of the request body.  [request.json()] rejects on
    text that is not JSON, and reading [query] of [null] throws. *)
Definition handleAsk (env : Env) (requestBody : jsstring) : result Response :=
  match JSON_parse requestBody with
  | None => Throw SyntaxError
  | Some JNull => Throw TypeError
  | Some b =>
      let query := prop b K_query in
      if negb (truthy query)
      then Ok (Response_json_status (ErrorBody MISSING_QUERY) 400)
      else
        match query with
        | Some q =>
            let searchResult := queryAiSearch (ai_search env q 5) in
            Ok (Response_json
                  (AskBody q (summarizeForDiscord searchResult)
                     (citations searchResult)))
        | None => Ok (Response_json_status (ErrorBody MISSING_QUERY) 400)
        end
  end.

(* ================================================================== *)
(** ** Stored objects ([src/storage/r2.ts]) *)
(* ================================================================== *)

(** The gap of [JSON.stringify(value, null, 2)]: two spaces. *)
Definition GAP : jsstring := [32; 32]%N.

(** [JSON.stringify(v, null, 2)] at the indentation [indent].  An array or
    object that is not empty puts each element on a line of its own, one gap
    deeper, and its closing bracket on a line at [indent]; a colon is
    followed by a space. *)
Fixpoint stringify_indented (indent : jsstring) (v : json) : jsstring :=
  match v with
  | JArr items =>
      match items with
      | [] => [91; 93]%N
      | _ :: _ =>
          91%N :: NL :: (indent ++ GAP)
            ++ join (44%N :: NL :: indent ++ GAP)
                 (List.map (stringify_indented (indent ++ GAP)) items)
            ++ NL :: indent ++ [93%N]
      end
  | JObj props =>
      match props with
      | [] => [123; 125]%N
      | _ :: _ =>
          123%N :: NL :: (indent ++ GAP)
            ++ join (44%N :: NL :: indent ++ GAP)
                 (List.map (fun kv =>
                              quote (fst kv) ++ 58%N :: 32%N
                                :: stringify_indented (indent ++ GAP) (snd kv)) props)
            ++ NL :: indent ++ [125%N]
      end
  | _ => JSON_stringify v
  end.

Definition defined_text (name : jsstring) (s : option jsstring)
  : list (jsstring * json) :=
  match s with
  | Some x => [(name, JStr x)]
  | None => []
  end.

(** A [Feedback] object as a value: its properties in the order in which
    [validateFeedback], the one place that builds such an object, writes
    them.  A property that is [undefined] is left out: it reads as
    [undefined] and [JSON.stringify] does not write it. *)
Definition feedback_value (feedback : Feedback) : json :=
  JObj ([(K_id, JStr (f_id feedback));
         (K_created_at, JStr (f_created_at feedback));
         (K_source, JStr (f_source feedback))]
        ++ defined_text K_source_url (f_source_url feedback)
        ++ [(K_product_area, JStr (f_product_area feedback))]
        ++ defined_text K_title (f_title feedback)
        ++ defined_text K_author (f_author feedback)
        ++ defined_text K_thread_id (f_thread_id feedback)
        ++ [(K_body_text, JStr (f_body_text feedback));
            (K_sentiment, JStr (f_sentiment feedback));
            (K_urgency, JStr (f_urgency feedback));
            (K_tags, tags_value (f_tags feedback))]
        ++ match f_confidence feedback with
           | Some c => [(K_confidence, confidence_value c)]
           | None => []
           end).

(** The arguments of one [bucket.put(key, body, options)]. *)
Record R2Put := {
  put_key : jsstring;
  put_body : jsstring;
  put_contentType : jsstring;
  put_customMetadata : list (jsstring * jsstring)
}.

(** A write the worker asks of one of its two stores: an object put into
    the bucket, or the [INSERT OR REPLACE] of a row. *)
Inductive Write :=
| BucketPut (p : R2Put)
| TableRun (row : FeedbackRow).

(** The services behind [handleIngest] and the storage helpers, as the
    replies they give: the text generation for a user prompt, the two values
    the validator may draw ([crypto.randomUUID()] and
    [new Date().toISOString()]), and the outcome of each store call. *)
Record Services := {
  ai_run : jsstring -> result json;
  randomUUID : jsstring;
  toISOString : jsstring;
  bucket_put : R2Put -> result unit;
  bucket_get : jsstring -> result (option jsstring);
  bucket_list : jsstring -> result (list jsstring);
  db_run : FeedbackRow -> result unit
}.

(** A computation that asks for writes: the writes asked for so far, in
    order, and the result.  A write that fails is the last one. *)
Definition Writing (A : Type) : Type := list Write * result A.

Definition perform (w : Write) (outcome : result unit) : Writing unit :=
  ([w], outcome).

Definition and_then {A B} (m : Writing A) (k : A -> Writing B) : Writing B :=
  match m with
  | (ws, Ok a) => let (ws', r) := k a in (ws ++ ws', r)
  | (ws, Throw e) => (ws, Throw e)
  end.

(** The put [storeFeedbackInR2] asks for. *)
Definition feedback_put (feedback : Feedback) : R2Put :=
  {| put_key := getFeedbackR2Key feedback;
     put_body := stringify_indented [] (feedback_value feedback);
     put_contentType := lit "application/json";
     put_customMetadata :=
       [(K_source, f_source feedback);
        (K_product_area, f_product_area feedback);
        (K_sentiment, f_sentiment feedback);
        (K_urgency, f_urgency feedback);
        (K_created_at, f_created_at feedback)] |}.

Definition storeFeedbackInR2 (env : Services) (feedback : Feedback)
  : Writing jsstring :=
  and_then (perform (BucketPut (feedback_put feedback))
              (bucket_put env (feedback_put feedback)))
    (fun _ => ([], Ok (getFeedbackR2Key feedback))).

(** [getFeedbackFromR2]: [null] when the bucket has no such object, else
    what [JSON.parse] makes of its text. *)
Definition getFeedbackFromR2 (env : Services) (key : jsstring) : result json :=
  object <- bucket_get env key ;;
  match object with
  | None => Ok JNull
  | Some text =>
      match JSON_parse text with
      | Some v => Ok v
      | None => Throw SyntaxError
      end
  end.

(** The prefix [listFeedbackForDate] lists: an empty [source] is falsy, as
    a missing one. *)
Definition listing_prefix (date : jsstring) (source : option jsstring) : jsstring :=
  match source with
  | None | Some [] => KEY_PREFIX ++ date ++ [47%N]
  | Some s => KEY_PREFIX ++ date ++ KEY_SOURCE ++ s ++ [47%N]
  end.

Definition listFeedbackForDate (env : Services) (date : jsstring)
    (source : option jsstring) : result (list jsstring) :=
  bucket_list env (listing_prefix date source).

(** [upsertFeedback]: the row is bound to the fourteen columns in the order
    of the column list. *)
Definition upsertFeedback (env : Services) (feedback : Feedback) (r2Key : jsstring)
  : Writing unit :=
  let row := feedbackToRow feedback r2Key in
  perform (TableRun row) (db_run env row).

(* ================================================================== *)
(** ** The other handlers ([src/index.ts]) *)
(* ================================================================== *)

Definition PROMPT_HEAD : jsstring :=
  lit "Normalize this raw feedback into the canonical JSON format:" ++ [NL; NL].

(** The user prompt of [normalizeFeedback]. *)
Definition userPrompt (rawInput : json) : jsstring :=
  PROMPT_HEAD ++ stringify_indented [] rawInput.

(** The body of the reply of [handleIngest]. *)
Record IngestReply := {
  ing_id : jsstring;
  ing_created_at : jsstring;
  ing_r2_key : jsstring;
  ing_source : jsstring;
  ing_product_area : jsstring;
  ing_sentiment : jsstring;
  ing_urgency : jsstring;
  ing_title : option jsstring;
  ing_tags : list jsstring
}.

(** [handleIngest] on the text of the request body: the writes it asked for
    and the reply (status 200) or the error it fails with. *)
Definition handleIngest (env : Services) (requestBody : jsstring)
  : Writing IngestReply :=
  match JSON_parse requestBody with
  | None => ([], Throw SyntaxError)
  | Some rawInput =>
      match (response <- ai_run env (userPrompt rawInput) ;;
             normalizeFeedback (randomUUID env) (toISOString env) response) with
      | Throw e => ([], Throw e)
      | Ok feedback =>
          and_then (storeFeedbackInR2 env feedback) (fun r2Key =>
          and_then (upsertFeedback env feedback r2Key) (fun _ =>
          ([], Ok {| ing_id := f_id feedback;
                     ing_created_at := f_created_at feedback;
                     ing_r2_key := r2Key;
                     ing_source := f_source feedback;
                     ing_product_area := f_product_area feedback;
                     ing_sentiment := f_sentiment feedback;
                     ing_urgency := f_urgency feedback;
                     ing_title := f_title feedback;
                     ing_tags := f_tags feedback |})))
      end
  end.

Definition BAD_REQUEST : jsstring := Eval vm_compute in lit "Bad Request".
Definition UNKNOWN_COMMAND : jsstring := Eval vm_compute in lit "Unknown command: ".
Definition UNSUPPORTED_TYPE : jsstring :=
  Eval vm_compute in lit "Unsupported interaction type".
Definition UNDEFINED : jsstring := Eval vm_compute in lit "undefined".
Definition ASK : jsstring := Eval vm_compute in lit "ask".
Definition DIGEST : jsstring := Eval vm_compute in lit "digest".
Definition K_data : jsstring := Eval vm_compute in lit "data".
Definition K_name : jsstring := Eval vm_compute in lit "name".
Definition K_type : jsstring := Eval vm_compute in lit "type".

(** A response of the interactions endpoint: [Response.json(...)], or the
    plain text of [new Response(text, { status })]. *)
Inductive WorkerResponse :=
| JsonResponse (r : Response)
| TextResponse (code : N) (text : jsstring).

(** The reply of the [default] branch: [Unknown command: ${commandName}]. *)
Definition unknown_command (shown : jsstring) : Response :=
  Response_json (InteractionBody (createEphemeralResponse (UNKNOWN_COMMAND ++ shown))).

(** [interaction.data?.name?.toLowerCase()] on the body as [request.json()]
    gives it: the cast to [DiscordInteraction] checks nothing, so the value
    is any parsed value.  Reading [data] of [null] throws.  A [name] that is
    neither absent nor [null] nor a string has no [toLowerCase] to call (a
    parsed property is never callable), and the call throws.  [toLowerCase]
    is [String.prototype.toLowerCase]. *)
Definition commandName (toLowerCase : jsstring -> jsstring) (interaction : json)
  : result (option jsstring) :=
  match interaction with
  | JNull => Throw TypeError
  | _ =>
      match prop interaction K_data with
      | None | Some JNull => Ok None
      | Some data =>
          match prop data K_name with
          | None | Some JNull => Ok None
          | Some (JStr name) => Ok (Some (toLowerCase name))
          | Some _ => Throw TypeError
          end
      end
  end.

(** [interaction.type === k] for an integer constant [k]; [equals x k] is
    [x === k] on a Number [x]. *)
Definition type_is (equals : number -> N -> bool) (interaction : json) (k : N) : bool :=
  match prop interaction K_type with
  | Some (JNum x) => equals x k
  | _ => false
  end.

(** What [handleDiscordInteraction] returns: a response of its own, or
    whatever [handleAskCommand] or [handleDigestCommand] returns for the
    interaction it hands over. *)
Inductive Dispatch :=
| Answer (r : WorkerResponse)
| ToAskCommand (interaction : json)
| ToDigestCommand (interaction : json).

(** [handleDiscordInteraction] on the text of the request body.  A body
    that is not JSON is answered with 400; the command name is computed
    before the type is looked at. *)
Definition handleDiscordInteraction (toLowerCase : jsstring -> jsstring)
    (equals : number -> N -> bool) (requestBody : jsstring) : result Dispatch :=
  match JSON_parse requestBody with
  | None => Ok (Answer (TextResponse 400 BAD_REQUEST))
  | Some interaction =>
      name <- commandName toLowerCase interaction ;;
      if type_is equals interaction PING
      then Ok (Answer (JsonResponse (Response_json (InteractionBody createPongResponse))))
      else if type_is equals interaction APPLICATION_COMMAND
      then
        match name with
        | Some command =>
            if jsstring_eqb command ASK then Ok (ToAskCommand interaction)
            else if jsstring_eqb command DIGEST then Ok (ToDigestCommand interaction)
            else Ok (Answer (JsonResponse (unknown_command command)))
        | None => Ok (Answer (JsonResponse (unknown_command UNDEFINED)))
        end
      else
        Ok (Answer
              (JsonResponse
                 (Response_json
                    (InteractionBody (createEphemeralResponse UNSUPPORTED_TYPE)))))
  end.

(* ------------------------------------------------------------------ *)
(** *** The continuations and the webhook *)

(** What the webhook does to one [PATCH]: [fetch] rejects, or it resolves
    with a response, of which [editOriginalResponse] reads [ok] and, when
    that is false, the text. *)
Inductive WebhookReply :=
| NoReply (e : js_error)
| Replied (ok : bool) (text : result jsstring).

(** [editOriginalResponse]: how the call settles.  The address and the body
    are built from texts, which cannot fail; a response that is not [ok] is
    logged and the call returns. *)
Definition editOriginalResponse (reply : WebhookReply) : result unit :=
  match reply with
  | NoReply e => Throw e
  | Replied true _ => Ok tt
  | Replied false text => _ <- text ;; Ok tt
  end.

(** The fixed message of the [catch] block of a continuation. *)
Definition apology (task : BackgroundTask) : WebhookEdit :=
  match task with
  | AskTask app token _ =>
      {| edit_application_id := app; edit_token := token; edit_content := ASK_ERROR |}
  | DigestTask app token _ =>
      {| edit_application_id := app; edit_token := token; edit_content := DIGEST_ERROR |}
  end.

(** A continuation in full: the edits it requests, in order, and how the
    promise handed to [ctx.waitUntil] settles.  [first] and [second] are
    what the webhook does to the first and to the second request.  The edit
    with the result is awaited inside the [try]: when it is rejected, the
    [catch] sends the apology as a second edit. *)
Definition run_continuation (env : Env) (task : BackgroundTask)
    (first second : WebhookReply) : list WebhookEdit * result unit :=
  let attempt :=
    match task with
    | AskTask _ _ query => ask_try env query
    | DigestTask _ _ date => digest_try env date
    end in
  let edit content :=
    match task with
    | AskTask app token _ | DigestTask app token _ =>
        {| edit_application_id := app; edit_token := token; edit_content := content |}
    end in
  match attempt with
  | Ok content =>
      match editOriginalResponse first with
      | Ok _ => ([edit content], Ok tt)
      | Throw _ => ([edit content; apology task], editOriginalResponse second)
      end
  | Throw _ => ([apology task], editOriginalResponse first)
  end.

(* ================================================================== *)
(** ** The vocabulary of the statements *)
(* ================================================================== *)

(** A calendar day [YYYY-MM-DD]. *)
Definition is_calendar_day (d : jsstring) : bool :=
  match d with
  | [y1; y2; y3; y4; h1; m1; m2; h2; d1; d2] =>
      forallb is_digit [y1; y2; y3; y4; m1; m2; d1; d2]
      && (h1 =? 45)%N && (h2 =? 45)%N
  | _ => false
  end.

(** The request body whose only member is [query], with the empty string
    as its value. *)
Definition EMPTY_QUERY_BODY : jsstring :=
  lit "{" ++ [34%N] ++ lit "query" ++ [34%N] ++ lit ": " ++ [34%N; 34%N] ++ lit "}".

(** The three values the validator hands to [String]. *)
Definition id_candidate (uuid : jsstring) (data : json) : jsval :=
  js_or (prop data K_id) (Some (JStr uuid)).

Definition created_at_candidate (now : jsstring) (data : json) : jsval :=
  js_or (prop data K_created_at) (Some (JStr now)).

(** [String(v)] returns. *)
Definition converts (v : jsval) : bool :=
  match String_of v with
  | Ok _ => true
  | Throw _ => false
  end.

(** Absent values and primitives. *)
Definition is_primitive (v : jsval) : bool :=
  match v with
  | Some (JArr _) | Some (JObj _) => false
  | _ => true
  end.

(** The candidate fields, in the order of the spec. *)
Definition body_fields (data : json) : list jsval :=
  [prop data (lit "body_text"); prop data (lit "content");
   prop data (lit "body"); prop data (lit "text")].

(** The rule in the words of the spec, first-non-empty-of the ordered list:
    the first text of the list that is not empty, the empty string when
    there is none. *)
Fixpoint first_non_empty_string (candidates : list (option jsstring)) : jsstring :=
  match candidates with
  | [] => []
  | Some (c :: s) :: _ => c :: s
  | _ :: rest => first_non_empty_string rest
  end.

(** The body text the spec's rule gives for a candidate: the first of its
    fields [body_text], [content], [body], [text] that holds a text that is
    not empty. *)
Definition spec_body_text (data : json) : jsstring :=
  first_non_empty_string (List.map string_or_undefined (body_fields data)).

(** Absent or a string. *)
Definition is_text (v : jsval) : bool :=
  match v with
  | None | Some (JStr _) => true
  | _ => false
  end.

(** Absent, a string, or a falsy value ([null], [false], a falsy number). *)
Definition text_or_falsy (v : jsval) : bool := is_text v || negb (truthy v).

(** No value of the list is truthy. *)
Definition none_truthy (values : list jsval) : bool :=
  forallb (fun v => negb (truthy v)) values.

(** A [name] the optional chain of the command name gets past: absent or
    [null], where the chain stops, or a string, which has [toLowerCase]. *)
Definition name_readable (v : jsval) : bool :=
  match v with
  | None | Some JNull | Some (JStr _) => true
  | _ => false
  end.

(** Only white space. *)
Definition all_ws (s : jsstring) : bool := forallb is_js_whitespace s.

(** No key occurs twice. *)
Fixpoint distinct (keys : list jsstring) : bool :=
  match keys with
  | [] => true
  | k :: rest => negb (existsb (jsstring_eqb k) rest) && distinct rest
  end.

(** The values [JSON.stringify] writes in full: every number finite, the
    keys of every object distinct. *)
Fixpoint json_wf (v : json) : bool :=
  match v with
  | JNum n => num_finite n
  | JArr items => forallb json_wf items
  | JObj props =>
      distinct (List.map fst props) && forallb (fun kv => json_wf (snd kv)) props
  | _ => true
  end.

(** Fuel that [parse_value] needs for the text of a value. *)
Fixpoint json_size (v : json) : nat :=
  match v with
  | JArr items => S (fold_right (fun x n => S (json_size x + n)) 0 items)
  | JObj props => S (fold_right (fun kv n => S (json_size (snd kv) + n)) 0 props)
  | _ => 1
  end.

(** What may follow a value inside a text: the end, a comma, or a closing
    bracket or brace. *)
Definition ends_value (rest : jsstring) : bool :=
  match rest with
  | [] => true
  | c :: _ => ((c =? 44) || (c =? 93) || (c =? 125))%N
  end.

(** The decimal conversions agree: for a finite number, [Number::toString]
    writes a literal of the JSON grammar, which [JSON.parse] reads in full
    and which denotes that number. *)
Class LawfulNumber := {
  toString_scans :
    forall (n : number) (rest : jsstring),
      num_finite n = true -> ends_value rest = true ->
      scan_number (num_toString n ++ rest) = Some (num_toString n, rest);
  toString_denotes :
    forall n : number, num_finite n = true -> num_ofLiteral (num_toString n) = n
}.

(** A parse that succeeds consumes input, and succeeds with the same result
    on any fuel that is at least the number of units it consumed. *)
Definition fuel_free {A} (parse : nat -> jsstring -> A -> option (json * jsstring))
    (fuel : nat) : Prop :=
  forall (s : jsstring) (a : A) (v : json) (r : jsstring),
    parse fuel s a = Some (v, r) ->
    length r < length s
    /\ forall fuel', length s - length r <= fuel' -> parse fuel' s a = Some (v, r).

(** The claim of the round trip for one value, as the induction carries it. *)
Definition reads_back (v : json) : Prop :=
  json_wf v = true ->
  forall (fuel : nat) (rest : jsstring),
    json_size v <= fuel -> ends_value rest = true ->
    parse_value fuel (JSON_stringify v ++ rest) = Some (v, rest).

(** No score, or a finite one. *)
Definition score_finite (score : option number) : bool :=
  match score with
  | Some n => num_finite n
  | None => true
  end.

(** The confidence scores of a record are finite numbers. *)
Definition scores_finite (feedback : Feedback) : bool :=
  match f_confidence feedback with
  | Some c =>
      score_finite (c_product_area c) && score_finite (c_sentiment c)
      && score_finite (c_urgency c)
  | None => true
  end.

(** No slash in the text. *)
Definition slash_free (s : jsstring) : bool :=
  forallb (fun c => negb (c =? 47)%N) s.

(** The value [JSON.stringify] writes for [v]: a number that is not finite
    is written as [null]. *)
Fixpoint as_written (v : json) : json :=
  match v with
  | JNum n => if num_finite n then JNum n else JNull
  | JArr items => JArr (List.map as_written items)
  | JObj props => JObj (List.map (fun kv => (fst kv, as_written (snd kv))) props)
  | _ => v
  end.

(** The keys of every object are distinct. *)
Fixpoint keys_distinct (v : json) : bool :=
  match v with
  | JArr items => forallb keys_distinct items
  | JObj props =>
      distinct (List.map fst props) && forallb (fun kv => keys_distinct (snd kv)) props
  | _ => true
  end.

(** What may follow a value in an indented text: what [ends_value] allows,
    or a line break. *)
Definition ends_line (rest : jsstring) : bool :=
  match rest with
  | [] => true
  | c :: _ => ((c =? 44) || (c =? 93) || (c =? 125) || (c =? 10))%N
  end.

(** Only spaces. *)
Definition all_spaces (s : jsstring) : bool := forallb (N.eqb 32) s.

(** What stops the scan of a number literal: no digit, dot or exponent
    letter ahead. *)
Definition stops_number (rest : jsstring) : bool :=
  match rest with
  | [] => true
  | c :: _ => negb (is_digit c || (c =? 46) || (c =? 101) || (c =? 69))%N
  end.

(** The claim of the round trip through an indented text for one value, as
    the induction carries it. *)
Definition reads_back_indented (v : json) : Prop :=
  json_wf v = true ->
  forall (indent : jsstring) (fuel : nat) (rest : jsstring),
    all_spaces indent = true ->
    json_size v <= fuel -> ends_line rest = true ->
    parse_value fuel (stringify_indented indent v ++ rest) = Some (v, rest).

(** A JSON column that [rowToFeedback] cannot read: a text that is not
    empty and is not JSON. *)
Definition unreadable (column : option jsstring) : bool :=
  match column with
  | Some (c :: t) =>
      match JSON_parse (c :: t) with
      | Some _ => false
      | None => true
      end
  | _ => false
  end.

(** A JSON column that is [NULL] or the empty text. *)
Definition blank (column : option jsstring) : bool :=
  match column with
  | Some (_ :: _) => false
  | _ => true
  end.

(** The record a request body of [POST /ingest] is normalized to, before
    anything is stored: the body parsed, the generation called on the prompt
    and its reply normalized. *)
Definition normalized (env : Services) (requestBody : jsstring) : result Feedback :=
  match JSON_parse requestBody with
  | None => Throw SyntaxError
  | Some rawInput =>
      response <- ai_run env (userPrompt rawInput) ;;
      normalizeFeedback (randomUUID env) (toISOString env) response
  end.

(** The reply of [handleIngest] for a record stored under a key. *)
Definition ingest_reply (feedback : Feedback) (r2Key : jsstring) : IngestReply :=
  {| ing_id := f_id feedback;
     ing_created_at := f_created_at feedback;
     ing_r2_key := r2Key;
     ing_source := f_source feedback;
     ing_product_area := f_product_area feedback;
     ing_sentiment := f_sentiment feedback;
     ing_urgency := f_urgency feedback;
     ing_title := f_title feedback;
     ing_tags := f_tags feedback |}.

(** The sum of the counts of the statistics rows that [keep] selects. *)
Definition tally (keep : DailyStat -> bool) (stats : list DailyStat) : N :=
  fold_right (fun st n => if keep st then (st_count st + n)%N else n) 0%N stats.

Definition from_source (source : jsstring) (st : DailyStat) : bool :=
  jsstring_eqb (st_source st) source.

Definition is_positive (st : DailyStat) : bool :=
  jsstring_eqb (st_sentiment st) POSITIVE.

Definition is_negative (st : DailyStat) : bool :=
  jsstring_eqb (st_sentiment st) NEGATIVE.

(** The counts the breakdown shows for a source, zero when it has no line. *)
Definition counts_of (source : jsstring) (grouped : list (jsstring * Counts)) : Counts :=
  match find (fun e => jsstring_eqb (fst e) source) grouped with
  | Some e => snd e
  | None => {| pos := 0; neu := 0; neg := 0 |}
  end.

(* ================================================================== *)
(** ** Facts about strings *)
(* ================================================================== *)

Lemma jsstring_eqb_eq (a b : jsstring) : jsstring_eqb a b = true <-> a = b.
Proof.
  unfold jsstring_eqb. destruct (list_eq_dec N.eq_dec a b); split; congruence.
Qed.

Lemma jsstring_eqb_refl (a : jsstring) : jsstring_eqb a a = true.
Proof. apply jsstring_eqb_eq. reflexivity. Qed.

Lemma startsWith_nil (s : jsstring) : startsWith s [] = true.
Proof. destruct s; reflexivity. Qed.

Lemma startsWith_app (p s : jsstring) : startsWith (p ++ s) p = true.
Proof.
  induction p as [|x p IH]; simpl.
  - destruct s; reflexivity.
  - rewrite N.eqb_refl. exact IH.
Qed.

Lemma startsWith_prefix (s p : jsstring) :
  startsWith s p = true -> exists r, s = p ++ r.
Proof.
  revert s. induction p as [|x p IH]; intros s H.
  - exists s. reflexivity.
  - destruct s as [|y s]; simpl in H; [discriminate|].
    apply andb_true_iff in H. destruct H as [Hxy H].
    apply N.eqb_eq in Hxy. subst y.
    destruct (IH _ H) as [r ->]. exists r. reflexivity.
Qed.

Lemma endsWith_app (s p : jsstring) : endsWith (s ++ p) p = true.
Proof. unfold endsWith. rewrite rev_app_distr. apply startsWith_app. Qed.

Lemma slice_drop_last_app (s p : jsstring) :
  slice_drop_last (length p) (s ++ p) = s.
Proof.
  unfold slice_drop_last. rewrite length_app.
  replace (length s + length p - length p)%nat with (length s + 0)%nat by lia.
  rewrite firstn_app_2. simpl. apply app_nil_r.
Qed.

Lemma split_head_stops (sep : char16) (a b : jsstring) :
  forallb (fun c => negb (c =? sep)%N) a = true ->
  split_head sep (a ++ sep :: b) = a.
Proof.
  induction a as [|c a IH]; simpl; intros H.
  - rewrite N.eqb_refl. reflexivity.
  - apply andb_true_iff in H. destruct H as [Hc H].
    apply negb_true_iff in Hc. rewrite Hc. f_equal. apply IH, H.
Qed.

Lemma truncate_for_discord_length (content : jsstring) :
  (length (truncate_for_discord content) <= 1900)%nat.
Proof.
  unfold truncate_for_discord, substring0.
  destruct (1900 <? length content)%nat eqn:E.
  - apply Nat.ltb_lt in E.
    rewrite length_app, length_firstn. change (length ELLIPSIS) with 3%nat. lia.
  - apply Nat.ltb_ge in E. exact E.
Qed.

Lemma truncate_for_discord_ellipsis (content : jsstring) :
  (1900 < length content)%nat ->
  truncate_for_discord content = substring0 1897 content ++ ELLIPSIS.
Proof.
  intros H. unfold truncate_for_discord.
  apply Nat.ltb_lt in H. rewrite H. reflexivity.
Qed.

Lemma truncate_for_discord_short (content : jsstring) :
  (length content <= 1900)%nat -> truncate_for_discord content = content.
Proof.
  intros H. unfold truncate_for_discord.
  apply Nat.ltb_ge in H. rewrite H. reflexivity.
Qed.

(* ================================================================== *)
(** ** Renderings stay under the platform ceiling *)
(* ================================================================== *)

(** Every content a continuation sends is a truncated rendering or one of
    the two fixed apologies. *)
Lemma run_task_content (env : Env) (task : BackgroundTask) :
  (exists content, edit_content (run_task env task) = truncate_for_discord content)
  \/ edit_content (run_task env task) = ASK_ERROR
  \/ edit_content (run_task env task) = DIGEST_ERROR.
Proof.
  destruct task as [app token query | app token date]; simpl.
  - left. eexists. unfold summarizeForDiscord. reflexivity.
  - unfold digest_try.
    destruct (getDailyStats env date) as [stats|e]; simpl; [|auto].
    destruct (getFeedbackCount env date) as [total|e]; simpl; [|auto].
    destruct (getHighUrgencySample env 3) as [hu|e]; simpl; [|auto].
    left. eexists. unfold digest_rendering. reflexivity.
Qed.

(** C8.  The rendering [summarizeForDiscord] returns and the digest
    rendering are at most 1900 code units long, hence under the 2000
    character ceiling of the platform, and so is every content a background
    continuation of [ask] or [digest] sends; whenever the built content was
    longer than 1900 it is cut to 1897 units followed by the marker [...],
    so a truncated rendering ends with the marker. *)
Theorem discord_rendering_within_ceiling :
  (forall searchResult : SearchResult,
      (length (summarizeForDiscord searchResult) <= 2000)%nat
      /\ ((1900 < length (summary_content searchResult))%nat ->
          endsWith (summarizeForDiscord searchResult) (lit "...") = true))
  /\ (forall date totalCount stats searchResult highUrgency,
      (length (digest_rendering date totalCount stats searchResult highUrgency)
       <= 2000)%nat
      /\ ((1900 < length (digest_content date totalCount stats searchResult
                            highUrgency))%nat ->
          endsWith (digest_rendering date totalCount stats searchResult highUrgency)
            (lit "...") = true))
  /\ (forall (env : Env) (task : BackgroundTask),
      (length (edit_content (run_task env task)) <= 2000)%nat).
Proof.
  split; [|split].
  - intros sr. split.
    + unfold summarizeForDiscord.
      pose proof (truncate_for_discord_length (summary_content sr)). lia.
    + intros H. unfold summarizeForDiscord.
      rewrite (truncate_for_discord_ellipsis _ H). apply endsWith_app.
  - intros date total stats sr hu. split.
    + unfold digest_rendering.
      pose proof (truncate_for_discord_length (digest_content date total stats sr hu)).
      lia.
    + intros H. unfold digest_rendering.
      rewrite (truncate_for_discord_ellipsis _ H). apply endsWith_app.
  - intros env task.
    destruct (run_task_content env task) as [[c ->] | [-> | ->]].
    + pose proof (truncate_for_discord_length c). lia.
    + apply Nat.leb_le. vm_compute. reflexivity.
    + apply Nat.leb_le. vm_compute. reflexivity.
Qed.

(* ================================================================== *)
(** ** The object-store key *)
(* ================================================================== *)

Lemma is_digit_not_T (c : char16) : is_digit c = true -> negb (c =? 84)%N = true.
Proof.
  unfold is_digit. intros H. apply andb_true_iff in H. destruct H as [_ H].
  apply N.leb_le in H. apply negb_true_iff, N.eqb_neq. lia.
Qed.

Lemma calendar_day_has_no_T (d : jsstring) :
  is_calendar_day d = true -> forallb (fun c => negb (c =? 84)%N) d = true.
Proof.
  unfold is_calendar_day.
  do 10 (destruct d as [|? d]; [discriminate|]).
  destruct d; [|discriminate].
  cbn [forallb]. intros H.
  repeat match goal with
         | H : _ && _ = true |- _ => apply andb_true_iff in H; destruct H
         end.
  repeat match goal with
         | H : is_digit _ = true |- _ => apply is_digit_not_T in H; rewrite H; clear H
         | H : (_ =? 45)%N = true |- _ => apply N.eqb_eq in H; subst
         end.
  reflexivity.
Qed.

Lemma split_head_parts (sep : char16) (s : jsstring) :
  forallb (fun c => negb (c =? sep)%N) (split_head sep s) = true
  /\ exists rest, s = split_head sep s ++ rest
                  /\ (rest = [] \/ exists after, rest = sep :: after).
Proof.
  induction s as [|c s [Hfree [rest [Hs Hrest]]]]; simpl.
  - split; [reflexivity|]. exists []. auto.
  - destruct (c =? sep)%N eqn:E.
    + split; [reflexivity|]. apply N.eqb_eq in E. subst c.
      exists (sep :: s). split; [reflexivity|]. right. exists s. reflexivity.
    + split; [simpl; rewrite E; exact Hfree|].
      exists rest. split; [simpl; f_equal; exact Hs|exact Hrest].
Qed.

Lemma split_head_whole (sep : char16) (a : jsstring) :
  forallb (fun c => negb (c =? sep)%N) a = true -> split_head sep a = a.
Proof.
  induction a as [|c a IH]; simpl; intros H; [reflexivity|].
  apply andb_true_iff in H. destruct H as [Hc H].
  apply negb_true_iff in Hc. rewrite Hc. f_equal. apply IH, H.
Qed.

(** C9 (as amended).  The key of a record is [feedback/dt=], a date part,
    [/source=], the source, [/], the id and [.json], where the date part is
    the text of [created_at] before its first [T], all of it when it has no
    [T].  The date part is a calendar day [YYYY-MM-DD] exactly when
    [created_at] is such a day, alone or followed by [T] and anything; so
    for a timestamp that starts with a calendar day followed by [T] the key
    is the one of the convention, with that day. *)
Theorem getFeedbackR2Key_format :
  forall feedback : Feedback,
    (exists date rest,
        f_created_at feedback = date ++ rest
        /\ forallb (fun c => negb (c =? 84)%N) date = true
        /\ (rest = [] \/ exists time, rest = lit "T" ++ time)
        /\ getFeedbackR2Key feedback
           = lit "feedback/dt=" ++ date ++ lit "/source=" ++ f_source feedback
               ++ lit "/" ++ f_id feedback ++ lit ".json"
        /\ (is_calendar_day date = true
            <-> exists day after,
                  is_calendar_day day = true
                  /\ f_created_at feedback = day ++ after
                  /\ (after = [] \/ exists time, after = lit "T" ++ time)))
    /\ getFeedbackR2Key feedback
       = lit "feedback/dt=" ++ date_portion (f_created_at feedback)
           ++ lit "/source=" ++ f_source feedback
           ++ lit "/" ++ f_id feedback ++ lit ".json"
    /\ (forall day time,
           is_calendar_day day = true ->
           f_created_at feedback = day ++ lit "T" ++ time ->
           getFeedbackR2Key feedback
           = lit "feedback/dt=" ++ day ++ lit "/source=" ++ f_source feedback
               ++ lit "/" ++ f_id feedback ++ lit ".json").
Proof.
  intros feedback.
  assert (Hday : forall day after,
             is_calendar_day day = true ->
             f_created_at feedback = day ++ after ->
             (after = [] \/ exists time, after = lit "T" ++ time) ->
             date_portion (f_created_at feedback) = day).
  { intros day after Hd Hts Hafter. unfold date_portion. rewrite Hts.
    destruct Hafter as [-> | [time ->]].
    - rewrite List.app_nil_r. apply split_head_whole, calendar_day_has_no_T, Hd.
    - change (lit "T" ++ time) with (84%N :: time).
      apply split_head_stops, calendar_day_has_no_T, Hd. }
  split; [|split; [reflexivity|]].
  - destruct (split_head_parts 84%N (f_created_at feedback))
      as [Hfree [rest [Hs Hrest]]].
    exists (date_portion (f_created_at feedback)), rest.
    split; [exact Hs|]. split; [exact Hfree|]. split; [exact Hrest|].
    split; [reflexivity|]. split.
    + intros Hd. exists (date_portion (f_created_at feedback)), rest. auto.
    + intros (day & after & Hd & Hts & Hafter).
      rewrite (Hday day after Hd Hts Hafter). exact Hd.
  - intros day time Hd Hts. unfold getFeedbackR2Key.
    rewrite (Hday day (lit "T" ++ time) Hd Hts); [reflexivity|].
    right. exists time. reflexivity.
Qed.

(* ================================================================== *)
(** ** The ask command: validation before any background work *)
(* ================================================================== *)

Ltac reveal_option :=
  unfold handleAskCommand, getStringOption;
  change (lit "query") with K_query in *.

(** C6.  When the interaction carries no option named [query] (or one
    without a value), [handleAskCommand] answers with the ephemeral
    validation message (type 4, flags 64) and leaves the execution context
    as it was: no continuation is registered and no deferred acknowledgment
    is sent.  When the option has a value whose string is not empty, it
    answers with the deferred acknowledgment (type 5, no data) and registers
    exactly one continuation, for that query. *)
Theorem handleAskCommand_validates_before_deferring :
  forall (interaction : DiscordInteraction) (ctx : ExecutionContext),
    (find_option interaction (lit "query") = None ->
     handleAskCommand interaction ctx
     = (Response_json
          (InteractionBody
             {| ir_type := 4;
                ir_data :=
                  Some {| ir_content :=
                            Some (lit "Please provide a query using the `query` option.");
                          ir_flags := Some 64%N |} |}),
        ctx))
    /\ (forall o,
           find_option interaction (lit "query") = Some o ->
           opt_value o = None ->
           handleAskCommand interaction ctx
           = (Response_json (InteractionBody (createEphemeralResponse ASK_USAGE)), ctx))
    /\ (forall o v,
           find_option interaction (lit "query") = Some o ->
           opt_value o = Some v ->
           OptionValue_String v <> [] ->
           handleAskCommand interaction ctx
           = (Response_json
                (InteractionBody {| ir_type := 5; ir_data := None |}),
              ctx ++ [AskTask (i_application_id interaction) (i_token interaction)
                        (OptionValue_String v)])).
Proof.
  intros interaction ctx. repeat split.
  - intros H. reveal_option. rewrite H. reflexivity.
  - intros o H Hv. reveal_option. rewrite H, Hv. reflexivity.
  - intros o v H Hv Hne. reveal_option. rewrite H, Hv. simpl.
    destruct (OptionValue_String v) as [|c q]; [contradiction|reflexivity].
Qed.

(** C10.  An empty query is handled as a missing one on both interfaces:
    [POST /ask] with the body [EMPTY_QUERY_BODY], whose [query] is the empty
    string (and with any body that parses to an object whose [query] is the
    empty string) gets status 400 with the same error as the body [{}]; an
    [ask] command whose [query] option is
    the empty string gets the ephemeral validation message and no
    continuation is registered. *)
Theorem empty_query_is_a_missing_query :
  (forall env : Env,
      handleAsk env EMPTY_QUERY_BODY
      = Ok {| status := 400; body := ErrorBody (lit "Missing required field: query") |}
      /\ handleAsk env EMPTY_QUERY_BODY = handleAsk env (lit "{}"))
  /\ (forall (env : Env) (text : jsstring) props,
         JSON_parse text = Some (JObj props) ->
         obj_get (lit "query") props = Some (JStr []) ->
         handleAsk env text
         = Ok {| status := 400; body := ErrorBody (lit "Missing required field: query") |})
  /\ (forall (interaction : DiscordInteraction) (ctx : ExecutionContext) o,
         find_option interaction (lit "query") = Some o ->
         opt_value o = Some (VString []) ->
         handleAskCommand interaction ctx
         = (Response_json (InteractionBody (createEphemeralResponse ASK_USAGE)), ctx)).
Proof.
  repeat split.
  - intros env text props Hparse Hq. unfold handleAsk. rewrite Hparse.
    change (lit "query") with K_query in Hq. simpl. rewrite Hq. reflexivity.
  - intros interaction ctx o H Hv. reveal_option. rewrite H, Hv. reflexivity.
Qed.

(* ================================================================== *)
(** ** Unparseable model output fails the ingestion *)
(* ================================================================== *)

(** C2.  When the model's reply carries the text [responseText] and the
    fence-stripped text is not JSON, [normalizeFeedback] throws the
    [SyntaxError] of [JSON.parse]; and whenever it returns a record, the
    stripped text did parse and the record is the validator's result on the
    parsed value: the validator, with its defaults, only ever runs on parsed
    values. *)
Theorem normalizeFeedback_unparseable_throws :
  forall (uuid now : jsstring) props (responseText : jsstring),
    obj_get (lit "response") props = Some (JStr responseText) ->
    (JSON_parse (strip_fence responseText) = None ->
     normalizeFeedback uuid now (JObj props) = Throw SyntaxError)
    /\ (forall feedback,
           normalizeFeedback uuid now (JObj props) = Ok feedback ->
           exists parsed,
             JSON_parse (strip_fence responseText) = Some parsed
             /\ validateFeedback uuid now parsed = Ok feedback).
Proof.
  intros uuid now props responseText Hresp.
  change (lit "response") with K_response in Hresp.
  unfold normalizeFeedback. rewrite Hresp. split.
  - intros Hparse. rewrite Hparse. reflexivity.
  - intros feedback H.
    destruct (JSON_parse (strip_fence responseText)) as [parsed|]; [|discriminate].
    exists parsed. split; [reflexivity|exact H].
Qed.

(* ================================================================== *)
(** ** The validator *)
(* ================================================================== *)

Lemma includes_in (set : list jsstring) (s : jsstring) :
  includes set (Some (JStr s)) = true -> In s set.
Proof.
  simpl. intros H. apply existsb_exists in H. destruct H as [x [Hin Heq]].
  apply jsstring_eqb_eq in Heq. subst x. exact Hin.
Qed.

Lemma member_or_in (set : list jsstring) (fallback : jsstring) (v : jsval) :
  In fallback set -> In (member_or set fallback v) set.
Proof.
  intros Hd. unfold member_or.
  destruct (includes set v) eqn:E; [|exact Hd].
  destruct v as [[| | |s| |]|]; try discriminate E.
  apply includes_in, E.
Qed.

Lemma member_or_fallback (set : list jsstring) (fallback : jsstring) (v : jsval) :
  includes set v = false -> member_or set fallback v = fallback.
Proof. intros H. unfold member_or. rewrite H. reflexivity. Qed.

Lemma member_or_keeps (set : list jsstring) (fallback s : jsstring) :
  In s set -> member_or set fallback (Some (JStr s)) = s.
Proof.
  intros H. unfold member_or.
  replace (includes set (Some (JStr s))) with true; [reflexivity|].
  symmetry. simpl. apply existsb_exists. exists s. split; [exact H|].
  apply jsstring_eqb_refl.
Qed.

Lemma primitive_converts (v : jsval) : is_primitive v = true -> converts v = true.
Proof.
  destruct v as [[|[]| | | |]|]; simpl; intros H;
    try reflexivity; discriminate H.
Qed.

Lemma js_or_primitive (a b : jsval) :
  is_primitive a = true -> is_primitive b = true -> is_primitive (js_or a b) = true.
Proof. intros Ha Hb. unfold js_or. destruct (truthy a); assumption. Qed.

(** What a returned record was built from. *)
Lemma validateFeedback_Ok (uuid now : jsstring) (data : json) (f : Feedback) :
  validateFeedback uuid now data = Ok f ->
  data <> JNull
  /\ String_of (id_candidate uuid data) = Ok (f_id f)
  /\ String_of (created_at_candidate now data) = Ok (f_created_at f)
  /\ String_of (body_candidate data) = Ok (f_body_text f)
  /\ f_source f = member_or validSources DEFAULT_SOURCE (prop data K_source)
  /\ f_product_area f
     = member_or validProductAreas DEFAULT_PRODUCT_AREA (prop data K_product_area)
  /\ f_sentiment f = member_or validSentiments DEFAULT_SENTIMENT (prop data K_sentiment)
  /\ f_urgency f = member_or validUrgencies DEFAULT_URGENCY (prop data K_urgency).
Proof.
  unfold validateFeedback, id_candidate, created_at_candidate.
  intros H.
  assert (Hnn : data <> JNull) by (destruct data; congruence).
  split; [exact Hnn|].
  destruct (String_of (js_or (prop data K_id) (Some (JStr uuid)))) as [i|e] eqn:Ei;
    [|destruct data; discriminate H].
  destruct (String_of (js_or (prop data K_created_at) (Some (JStr now))))
    as [c|e] eqn:Ec; [|destruct data; discriminate H].
  destruct (String_of (body_candidate data)) as [b|e] eqn:Eb;
    [|destruct data; discriminate H].
  destruct data; try congruence; simpl in H; injection H as <-; simpl; auto 10.
Qed.

(** The validator returns exactly when the candidate is not [null] and the
    three conversions to string return. *)
Lemma validateFeedback_returns_iff (uuid now : jsstring) (data : json) :
  (exists f, validateFeedback uuid now data = Ok f)
  <-> data <> JNull
      /\ converts (id_candidate uuid data) = true
      /\ converts (created_at_candidate now data) = true
      /\ converts (body_candidate data) = true.
Proof.
  split.
  - intros [f H]. apply validateFeedback_Ok in H.
    destruct H as (Hnn & Hi & Hc & Hb & _). unfold converts.
    rewrite Hi, Hc, Hb. auto.
  - intros (Hnn & Hi & Hc & Hb).
    unfold converts, id_candidate, created_at_candidate in *.
    unfold validateFeedback.
    destruct (String_of (js_or (prop data K_id) (Some (JStr uuid)))) as [i|];
      [|discriminate].
    destruct (String_of (js_or (prop data K_created_at) (Some (JStr now)))) as [c|];
      [|discriminate].
    destruct (String_of (body_candidate data)) as [b|]; [|discriminate].
    destruct data; try congruence; simpl; eexists; reflexivity.
Qed.

(** C1 (as amended).  Whenever [validateFeedback] returns a record, its
    [source], [product_area], [sentiment] and [urgency] are members of their
    closed sets, and a candidate field that is missing or not in its set is
    replaced by [email], [other], [neutral], [medium].  The validator returns
    a record exactly for the candidates other than [null] whose id,
    created_at and body-text values have a string conversion (as all
    absent values and primitives do); on [null] it throws a [TypeError]. *)
Theorem validateFeedback_closed_sets :
  forall (uuid now : jsstring) (data : json),
    (forall f,
        validateFeedback uuid now data = Ok f ->
        (In (f_source f) validSources
         /\ In (f_product_area f) validProductAreas
         /\ In (f_sentiment f) validSentiments
         /\ In (f_urgency f) validUrgencies)
        /\ (includes validSources (prop data (lit "source")) = false ->
            f_source f = lit "email")
        /\ (includes validProductAreas (prop data (lit "product_area")) = false ->
            f_product_area f = lit "other")
        /\ (includes validSentiments (prop data (lit "sentiment")) = false ->
            f_sentiment f = lit "neutral")
        /\ (includes validUrgencies (prop data (lit "urgency")) = false ->
            f_urgency f = lit "medium"))
    /\ ((exists f, validateFeedback uuid now data = Ok f)
        <-> data <> JNull
            /\ converts (id_candidate uuid data) = true
            /\ converts (created_at_candidate now data) = true
            /\ converts (body_candidate data) = true)
    /\ (data <> JNull ->
        is_primitive (prop data (lit "id")) = true ->
        is_primitive (prop data (lit "created_at")) = true ->
        is_primitive (prop data (lit "body_text")) = true ->
        is_primitive (prop data (lit "content")) = true ->
        is_primitive (prop data (lit "body")) = true ->
        is_primitive (prop data (lit "text")) = true ->
        exists f, validateFeedback uuid now data = Ok f)
    /\ validateFeedback uuid now JNull = Throw TypeError.
Proof.
  intros uuid now data. split; [|split; [|split]].
  - intros f H. apply validateFeedback_Ok in H.
    destruct H as (_ & _ & _ & _ & Hs & Hp & Hse & Hu).
    rewrite Hs, Hp, Hse, Hu. split; [|repeat split].
    + repeat split; apply member_or_in; simpl; tauto.
    + apply member_or_fallback.
    + apply member_or_fallback.
    + apply member_or_fallback.
    + apply member_or_fallback.
  - apply validateFeedback_returns_iff.
  - intros Hnn Hid Hcr Hbt Hco Hbo Hte.
    apply validateFeedback_returns_iff. split; [exact Hnn|].
    repeat split; apply primitive_converts;
      unfold id_candidate, created_at_candidate, body_candidate;
      repeat apply js_or_primitive; auto.
  - reflexivity.
Qed.

(* ------------------------------------------------------------------ *)
(** *** The body text *)

Lemma js_or_assoc (a b c : jsval) : js_or (js_or a b) c = js_or a (js_or b c).
Proof. unfold js_or. destruct (truthy a) eqn:E; [rewrite E|]; reflexivity. Qed.

(** The [||] chain of the body text, read from the left. *)
Lemma body_candidate_chain (data : json) :
  body_candidate data = fold_right js_or (Some (JStr [])) (body_fields data).
Proof.
  unfold body_candidate, body_fields.
  change (lit "body_text") with K_body_text. change (lit "content") with K_content.
  change (lit "body") with K_body. change (lit "text") with K_text.
  cbn [fold_right]. rewrite !js_or_assoc. reflexivity.
Qed.

Lemma or_chain_first (last : jsval) (before : list jsval) (v : jsval)
    (after : list jsval) :
  none_truthy before = true -> truthy v = true ->
  fold_right js_or last (before ++ v :: after) = v.
Proof.
  intros Hb Hv. induction before as [|b before IH]; cbn [app fold_right].
  - unfold js_or. rewrite Hv. reflexivity.
  - cbn in Hb. apply andb_true_iff in Hb. destruct Hb as [Hb0 Hb].
    apply negb_true_iff in Hb0. unfold js_or at 1. rewrite Hb0. apply IH, Hb.
Qed.

Lemma or_chain_none (last : jsval) (values : list jsval) :
  none_truthy values = true -> fold_right js_or last values = last.
Proof.
  induction values as [|v values IH]; cbn; intros H; [reflexivity|].
  apply andb_true_iff in H. destruct H as [Hv H].
  apply negb_true_iff in Hv. unfold js_or. rewrite Hv. apply IH, H.
Qed.

Lemma or_chain_texts (values : list jsval) :
  forallb text_or_falsy values = true ->
  String_of (fold_right js_or (Some (JStr [])) values)
  = Ok (first_non_empty_string (List.map string_or_undefined values)).
Proof.
  induction values as [|v values IH]; intros H; [reflexivity|].
  cbn [forallb] in H. apply andb_true_iff in H. destruct H as [Hv H].
  specialize (IH H). unfold text_or_falsy in Hv.
  destruct v as [[|b|n|[|c s]|items|props]|]; cbn [is_text orb] in Hv;
    try discriminate Hv; cbn [List.map string_or_undefined first_non_empty_string fold_right].
  - exact IH.
  - apply negb_true_iff in Hv. unfold js_or. rewrite Hv. exact IH.
  - apply negb_true_iff in Hv. unfold js_or. rewrite Hv. exact IH.
  - exact IH.
  - reflexivity.
  - exact IH.
Qed.

(** C4 (as amended).  In every record the validator returns, [body_text] is
    the string of the first truthy member of [body_text], [content], [body],
    [text], in this order, whatever that member is, and the empty string
    when no member is truthy.  When each member is absent, a string or a
    falsy value, that is the spec's first text that is not empty.  When all
    four are absent the body text is the empty string and their absence
    does not fail the record: the validator returns exactly when the
    candidate is not [null] and its id and created_at convert, as it does
    for any other candidate. *)
Theorem validateFeedback_body_text :
  forall (uuid now : jsstring) (data : json),
    (forall f,
        validateFeedback uuid now data = Ok f ->
        (forall before v after,
            body_fields data = before ++ v :: after ->
            none_truthy before = true ->
            truthy v = true ->
            String_of v = Ok (f_body_text f))
        /\ (none_truthy (body_fields data) = true -> f_body_text f = [])
        /\ (forallb text_or_falsy (body_fields data) = true ->
            f_body_text f = spec_body_text data))
    /\ (body_fields data = [None; None; None; None] ->
        (forall f, validateFeedback uuid now data = Ok f -> f_body_text f = [])
        /\ ((exists f, validateFeedback uuid now data = Ok f)
            <-> data <> JNull
                /\ converts (id_candidate uuid data) = true
                /\ converts (created_at_candidate now data) = true)).
Proof.
  intros uuid now data. split.
  - intros f H. apply validateFeedback_Ok in H.
    destruct H as (_ & _ & _ & Hb & _).
    rewrite body_candidate_chain in Hb. split; [|split].
    + intros before v after Hfields Hbefore Hv.
      rewrite Hfields in Hb. rewrite or_chain_first in Hb by assumption. exact Hb.
    + intros Hnone. rewrite or_chain_none in Hb by exact Hnone.
      cbn in Hb. congruence.
    + intros Ht. rewrite or_chain_texts in Hb by exact Ht. unfold spec_body_text.
      congruence.
  - intros Habs.
    assert (Hb : String_of (body_candidate data) = Ok []).
    { rewrite body_candidate_chain, Habs. reflexivity. }
    split.
    + intros f Hf. apply validateFeedback_Ok in Hf.
      destruct Hf as (_ & _ & _ & Hb' & _). congruence.
    + rewrite validateFeedback_returns_iff. unfold converts at 3. rewrite Hb.
      tauto.
Qed.

(* ================================================================== *)
(** ** Fence stripping *)
(* ================================================================== *)

Lemma trimStart_all_ws (w : jsstring) : all_ws w = true -> trimStart w = [].
Proof.
  induction w as [|c w IH]; simpl; intros H; [reflexivity|].
  apply andb_true_iff in H. destruct H as [Hc H]. rewrite Hc. apply IH, H.
Qed.

Lemma trimStart_ws_app (w s : jsstring) :
  all_ws w = true -> trimStart (w ++ s) = trimStart s.
Proof.
  induction w as [|c w IH]; simpl; intros H; [reflexivity|].
  apply andb_true_iff in H. destruct H as [Hc H]. rewrite Hc. apply IH, H.
Qed.

Lemma trimStart_app_ws (s w : jsstring) :
  trimStart (s ++ w) = if all_ws s then trimStart w else trimStart s ++ w.
Proof.
  induction s as [|c s IH]; simpl; [reflexivity|].
  destruct (is_js_whitespace c); simpl; [exact IH|reflexivity].
Qed.

Lemma all_ws_rev (w : jsstring) : all_ws (rev w) = all_ws w.
Proof.
  unfold all_ws. induction w as [|c w IH]; simpl; [reflexivity|].
  rewrite forallb_app, IH. simpl. rewrite andb_true_r. apply andb_comm.
Qed.

Lemma trimEnd_app_ws (s w : jsstring) :
  all_ws w = true -> trimEnd (s ++ w) = trimEnd s.
Proof.
  intros H. unfold trimEnd. rewrite rev_app_distr.
  rewrite trimStart_ws_app; [reflexivity|]. rewrite all_ws_rev. exact H.
Qed.

Lemma trimEnd_all_ws (w : jsstring) : all_ws w = true -> trimEnd w = [].
Proof.
  intros H. unfold trimEnd. rewrite trimStart_all_ws; [reflexivity|].
  rewrite all_ws_rev. exact H.
Qed.

Lemma trimEnd_last (s : jsstring) (c : char16) :
  is_js_whitespace c = false -> trimEnd (s ++ [c]) = s ++ [c].
Proof.
  intros H. unfold trimEnd. rewrite rev_app_distr. simpl. rewrite H.
  simpl. rewrite rev_involutive. reflexivity.
Qed.

(** White space around a text does not change what [trim] returns. *)
Lemma trim_ws_around (lead s trail : jsstring) :
  all_ws lead = true -> all_ws trail = true ->
  trim (lead ++ s ++ trail) = trim s.
Proof.
  intros Hl Ht. unfold trim. rewrite (trimStart_ws_app _ _ Hl), trimStart_app_ws.
  destruct (all_ws s) eqn:Es.
  - rewrite (trimStart_all_ws _ Ht), (trimStart_all_ws _ Es). reflexivity.
  - apply trimEnd_app_ws, Ht.
Qed.

(** A text between two fence markers is what [trim] leaves of it. *)
Lemma trim_between_fences (lead mid trail : jsstring) :
  all_ws lead = true -> all_ws trail = true ->
  trim (lead ++ FENCE ++ mid ++ FENCE ++ trail) = FENCE ++ mid ++ FENCE.
Proof.
  intros Hl Ht.
  replace (FENCE ++ mid ++ FENCE ++ trail) with ((FENCE ++ mid ++ FENCE) ++ trail)
    by (rewrite <- !app_assoc; reflexivity).
  rewrite (trim_ws_around _ _ _ Hl Ht).
  assert (E : FENCE ++ mid ++ FENCE
              = (96%N :: 96%N :: 96%N :: mid ++ [96; 96]%N) ++ [96%N]).
  { unfold FENCE. simpl. rewrite <- !app_assoc. reflexivity. }
  rewrite E. unfold trim.
  change (trimStart ((96%N :: 96%N :: 96%N :: mid ++ [96; 96]%N) ++ [96%N]))
    with ((96%N :: 96%N :: 96%N :: mid ++ [96; 96]%N) ++ [96%N]).
  apply trimEnd_last. reflexivity.
Qed.

Lemma endsWith_FENCE (s : jsstring) : endsWith (s ++ FENCE) FENCE = true.
Proof. apply endsWith_app. Qed.

(** After the opening marker is gone: the closing marker is dropped and the
    rest trimmed. *)
Lemma strip_closing (inner : jsstring) :
  trim (if endsWith (inner ++ FENCE) FENCE
        then slice_drop_last 3 (inner ++ FENCE) else inner ++ FENCE)
  = trim inner.
Proof.
  rewrite endsWith_FENCE.
  change 3%nat with (length FENCE). rewrite slice_drop_last_app. reflexivity.
Qed.

(** [strip_fence] only looks at the trimmed text. *)
Lemma strip_fence_from_trim (text core : jsstring) :
  trim text = core ->
  strip_fence text
  = trim (if endsWith (if startsWith core FENCE_JSON then slice_from 7 core
                       else if startsWith core FENCE then slice_from 3 core
                       else core) FENCE
          then slice_drop_last 3
                 (if startsWith core FENCE_JSON then slice_from 7 core
                  else if startsWith core FENCE then slice_from 3 core
                  else core)
          else (if startsWith core FENCE_JSON then slice_from 7 core
                else if startsWith core FENCE then slice_from 3 core
                else core)).
Proof. intros <-. reflexivity. Qed.

(** C3 (as amended).  For a reply whose text, white space around it apart,
    is wrapped in a fenced block, [strip_fence] removes the two markers,
    and with the opening marker the four letters [json] when they follow it
    directly, and trims what is left.  So it returns the trimmed inner text
    when the opening marker carries the language tag [json], and when it
    carries no tag.  No other tag is removed: when the text between the
    markers does not start with [json], all of it is kept, a tag included;
    when it does, what follows those four letters is kept, which of a tag
    such as [jsonc] is its last letter. *)
Theorem strip_fence_json_or_untagged :
  forall lead trail inner : jsstring,
    all_ws lead = true ->
    all_ws trail = true ->
    strip_fence (lead ++ lit "```" ++ lit "json" ++ inner ++ lit "```" ++ trail)
    = trim inner
    /\ (startsWith inner (lit "json") = false ->
        strip_fence (lead ++ lit "```" ++ inner ++ lit "```" ++ trail) = trim inner).
Proof.
  intros lead trail inner Hl Ht. split.
  - refine (eq_trans
              (strip_fence_from_trim _
                 (trim_between_fences lead (lit "json" ++ inner) trail Hl Ht)) _).
    change (FENCE ++ (lit "json" ++ inner) ++ FENCE)
      with (FENCE_JSON ++ inner ++ FENCE).
    rewrite startsWith_app.
    change 7%nat with (length FENCE_JSON).
    unfold slice_from. rewrite skipn_app, skipn_all, Nat.sub_diag. simpl skipn.
    apply strip_closing.
  - intros Hnj.
    refine (eq_trans
              (strip_fence_from_trim _
                 (trim_between_fences lead inner trail Hl Ht)) _).
    replace (startsWith (FENCE ++ inner ++ FENCE) FENCE_JSON) with false.
    2:{ symmetry. change (lit "json") with [106; 115; 111; 110]%N in Hnj.
        destruct inner as [|a [|b [|c [|d inner]]]]; simpl in *;
          rewrite ?andb_false_r; try reflexivity; try exact Hnj.
        replace (startsWith (inner ++ FENCE) []) with (startsWith inner [])
          by (destruct inner; reflexivity).
        exact Hnj. }
    rewrite startsWith_app.
    change 3%nat with (length FENCE) at 1.
    unfold slice_from. rewrite skipn_app, skipn_all, Nat.sub_diag. simpl skipn.
    apply strip_closing.
Qed.

(* ================================================================== *)
(** ** The digest of a day without feedback *)
(* ================================================================== *)

Lemma digest_content_zero (date : jsstring) stats searchResult highUrgency :
  digest_content date 0 stats searchResult highUrgency
  = digest_title date ++ NO_FEEDBACK.
Proof. reflexivity. Qed.

Lemma digest_title_length (date : jsstring) :
  length (digest_title date ++ NO_FEEDBACK) = (64 + length date)%nat.
Proof.
  unfold digest_title. rewrite !length_app. simpl. lia.
Qed.

(** C5.  When the relational reads succeed and the total count is zero, the
    digest continuation edits the response with the title of the digest
    followed by the one literal line [No feedback recorded for this date.],
    passed through the common truncation step (which leaves it as it is for
    a date of at most 1836 units).  The rendering is the same whatever the
    statistics, the search answer and the high-urgency sample are: no
    breakdown, key-themes section or high-urgency list is composed. *)
Theorem digest_zero_count_short_circuits :
  forall (env : Env) (app token date : jsstring) stats highUrgency,
    getDailyStats env date = Ok stats ->
    getFeedbackCount env date = Ok 0%N ->
    getHighUrgencySample env 3 = Ok highUrgency ->
    edit_content (run_task env (DigestTask app token date))
    = truncate_for_discord
        (lit "**" ++ BAR_CHART ++ lit " Feedback Digest for " ++ date ++ lit "**"
           ++ [NL; NL] ++ lit "No feedback recorded for this date.")
    /\ ((length date <= 1836)%nat ->
        edit_content (run_task env (DigestTask app token date))
        = lit "**" ++ BAR_CHART ++ lit " Feedback Digest for " ++ date ++ lit "**"
            ++ [NL; NL] ++ lit "No feedback recorded for this date.")
    /\ (forall stats' searchResult' highUrgency',
           digest_rendering date 0 stats' searchResult' highUrgency'
           = edit_content (run_task env (DigestTask app token date))).
Proof.
  intros env app token date stats hu Hs Hc Hu.
  assert (E : edit_content (run_task env (DigestTask app token date))
              = truncate_for_discord (digest_title date ++ NO_FEEDBACK)).
  { simpl. unfold digest_try. rewrite Hs, Hc, Hu. simpl.
    unfold digest_rendering. rewrite digest_content_zero. reflexivity. }
  assert (T : lit "**" ++ BAR_CHART ++ lit " Feedback Digest for " ++ date ++ lit "**"
              ++ [NL; NL] ++ lit "No feedback recorded for this date."
              = digest_title date ++ NO_FEEDBACK).
  { unfold digest_title. rewrite <- !app_assoc. reflexivity. }
  rewrite T. split; [exact E|split].
  - intros Hlen. rewrite E. apply truncate_for_discord_short.
    rewrite digest_title_length. lia.
  - intros stats' sr' hu'. rewrite E. unfold digest_rendering.
    rewrite digest_content_zero. reflexivity.
Qed.

(* ================================================================== *)
(** ** [JSON.parse] reads back what [JSON.stringify] writes *)
(* ================================================================== *)

Unset Implicit Arguments.

(* ------------------------------------------------------------------ *)
(** *** String literals *)

Lemma hex_val_hex_digit (n : N) : (n < 16)%N -> hex_val (hex_digit n) = Some n.
Proof.
  intros H. unfold hex_digit, hex_val.
  destruct (n <? 10)%N eqn:E.
  - apply N.ltb_lt in E.
    replace ((48 <=? 48 + n) && (48 + n <=? 57))%N with true.
    + f_equal. lia.
    + symmetry. apply andb_true_iff. split; apply N.leb_le; lia.
  - apply N.ltb_ge in E.
    replace ((48 <=? 87 + n) && (87 + n <=? 57))%N with false.
    + replace ((97 <=? 87 + n) && (87 + n <=? 102))%N with true.
      * f_equal. lia.
      * symmetry. apply andb_true_iff. split; apply N.leb_le; lia.
    + symmetry. apply andb_false_iff. right. apply N.leb_gt. lia.
Qed.

Lemma hex4_unicode_escape (c : char16) :
  (c < 65536)%N ->
  exists h1 h2 h3 h4,
    unicode_escape c = [92; 117; h1; h2; h3; h4]%N
    /\ hex4 h1 h2 h3 h4 = Some c.
Proof.
  intros H. unfold unicode_escape. do 4 eexists. split; [reflexivity|].
  unfold hex4.
  rewrite !hex_val_hex_digit by (apply N.mod_lt; discriminate).
  f_equal.
  assert (H4 : (c / 4096 < 16)%N) by (apply N.Div0.div_lt_upper_bound; lia).
  rewrite (N.mod_small (c / 4096) 16 H4).
  clear H4. zify. Z.to_euclidean_division_equations. lia.
Qed.

Lemma cons_fst_Some {A B} (a : A) (l : list A) (b : B) :
  cons_fst a (Some (l, b)) = Some (a :: l, b).
Proof. reflexivity. Qed.

(** A character that stands for itself inside a string literal. *)
Lemma parse_string_body_plain (c : char16) (r : jsstring) :
  (c =? 34)%N = false -> (c =? 92)%N = false -> (c <? 32)%N = false ->
  parse_string_body (c :: r) = cons_fst c (parse_string_body r).
Proof. intros H1 H2 H3. simpl. rewrite H1, H2, H3. reflexivity. Qed.

Lemma parse_string_body_unicode (c : char16) (r : jsstring) :
  (c < 65536)%N ->
  parse_string_body (unicode_escape c ++ r) = cons_fst c (parse_string_body r).
Proof.
  intros H. destruct (hex4_unicode_escape c H) as (h1 & h2 & h3 & h4 & E & Hh).
  rewrite E. simpl. rewrite Hh. reflexivity.
Qed.

Lemma surrogate_is_plain (c : char16) :
  (55296 <= c)%N ->
  (c =? 34)%N = false /\ (c =? 92)%N = false /\ (c <? 32)%N = false.
Proof.
  intros H. repeat split;
    [apply N.eqb_neq; lia | apply N.eqb_neq; lia | apply N.ltb_ge; lia].
Qed.

(** The body of a quoted string, followed by the closing quote, reads back
    as the string. *)
Lemma parse_quote_body (s rest : jsstring) :
  parse_string_body (quote_body s ++ 34%N :: rest) = Some (s, rest).
Proof.
  remember (length s) as n eqn:Hn.
  revert s Hn. induction n as [n IH] using lt_wf_ind. intros s Hn.
  destruct s as [|c r].
  { simpl. reflexivity. }
  assert (IHr : parse_string_body (quote_body r ++ 34%N :: rest) = Some (r, rest)).
  { apply (IH (length r)); [subst n; simpl; lia|reflexivity]. }
  cbn [quote_body].
  destruct (c =? 8)%N eqn:E8.
  { apply N.eqb_eq in E8. subst c. simpl. rewrite IHr. reflexivity. }
  destruct (c =? 9)%N eqn:E9.
  { apply N.eqb_eq in E9. subst c. simpl. rewrite IHr. reflexivity. }
  destruct (c =? 10)%N eqn:E10.
  { apply N.eqb_eq in E10. subst c. simpl. rewrite IHr. reflexivity. }
  destruct (c =? 12)%N eqn:E12.
  { apply N.eqb_eq in E12. subst c. simpl. rewrite IHr. reflexivity. }
  destruct (c =? 13)%N eqn:E13.
  { apply N.eqb_eq in E13. subst c. simpl. rewrite IHr. reflexivity. }
  destruct (c =? 34)%N eqn:E34.
  { apply N.eqb_eq in E34. subst c. simpl. rewrite IHr. reflexivity. }
  destruct (c =? 92)%N eqn:E92.
  { apply N.eqb_eq in E92. subst c. simpl. rewrite IHr. reflexivity. }
  destruct (c <? 32)%N eqn:E32.
  { rewrite <- app_assoc, parse_string_body_unicode, IHr; [reflexivity|].
    apply N.ltb_lt in E32. lia. }
  destruct (is_lead_surrogate c) eqn:El.
  { unfold is_lead_surrogate in El. apply andb_true_iff in El.
    destruct El as [El1 El2]. apply N.leb_le in El1. apply N.leb_le in El2.
    destruct r as [|d r'].
    - rewrite parse_string_body_unicode by lia. reflexivity.
    - destruct (is_trail_surrogate d) eqn:Et.
      + unfold is_trail_surrogate in Et. apply andb_true_iff in Et.
        destruct Et as [Et1 _]. apply N.leb_le in Et1.
        assert (IHr' : parse_string_body (quote_body r' ++ 34%N :: rest)
                       = Some (r', rest)).
        { apply (IH (length r')); [subst n; simpl; lia|reflexivity]. }
        destruct (surrogate_is_plain d) as (D1 & D2 & D3); [lia|].
        cbn [app].
        rewrite (parse_string_body_plain c _ E34 E92 E32).
        rewrite (parse_string_body_plain d _ D1 D2 D3).
        rewrite IHr'. reflexivity.
      + rewrite <- app_assoc, parse_string_body_unicode by lia.
        rewrite IHr. reflexivity. }
  destruct (is_trail_surrogate c) eqn:Et.
  { unfold is_trail_surrogate in Et. apply andb_true_iff in Et.
    destruct Et as [_ Et2]. apply N.leb_le in Et2.
    rewrite <- app_assoc, parse_string_body_unicode by lia.
    rewrite IHr. reflexivity. }
  cbn [app]. rewrite (parse_string_body_plain c _ E34 E92 E32), IHr. reflexivity.
Qed.

(* ------------------------------------------------------------------ *)
(** *** Values *)

(** Induction on values that reaches the items of arrays and the values of
    properties. *)
Section json_induction.

Variable P : json -> Prop.
Hypothesis HNull : P JNull.
Hypothesis HBool : forall b, P (JBool b).
Hypothesis HNum : forall n, P (JNum n).
Hypothesis HStr : forall s, P (JStr s).
Hypothesis HArr : forall items, Forall P items -> P (JArr items).
Hypothesis HObj : forall props, Forall (fun kv => P (snd kv)) props -> P (JObj props).

Fixpoint json_nested_ind (v : json) : P v :=
  match v with
  | JNull => HNull
  | JBool b => HBool b
  | JNum n => HNum n
  | JStr s => HStr s
  | JArr items =>
      HArr items
        ((fix all (l : list json) : Forall P l :=
            match l with
            | [] => Forall_nil P
            | x :: r => Forall_cons x (json_nested_ind x) (all r)
            end) items)
  | JObj props =>
      HObj props
        ((fix all (l : list (jsstring * json)) : Forall (fun kv => P (snd kv)) l :=
            match l with
            | [] => Forall_nil _
            | kv :: r =>
                Forall_cons (P := fun kv => P (snd kv)) kv
                  (json_nested_ind (snd kv)) (all r)
            end) props)
  end.

End json_induction.

Lemma parse_value_S (fuel : nat) (s : jsstring) :
  parse_value (S fuel) s
  = match skip_ws s with
    | [] => None
    | c :: r =>
        if (c =? 34)%N then
          match parse_string_body r with
          | Some (str, rest) => Some (JStr str, rest)
          | None => None
          end
        else if (c =? 91)%N then
          match skip_ws r with
          | c' :: r' =>
              if (c' =? 93)%N then Some (JArr [], r')
              else parse_elements fuel r []
          | [] => None
          end
        else if (c =? 123)%N then
          match skip_ws r with
          | c' :: r' =>
              if (c' =? 125)%N then Some (JObj [], r')
              else parse_members fuel r []
          | [] => None
          end
        else if startsWith (c :: r) LIT_TRUE then Some (JBool true, skipn 4 (c :: r))
        else if startsWith (c :: r) LIT_FALSE then Some (JBool false, skipn 5 (c :: r))
        else if startsWith (c :: r) LIT_NULL then Some (JNull, skipn 4 (c :: r))
        else
          match scan_number (c :: r) with
          | Some (text, rest) => Some (JNum (num_ofLiteral text), rest)
          | None => None
          end
    end.
Proof. reflexivity. Qed.

Lemma parse_elements_S (fuel : nat) (s : jsstring) (acc : list json) :
  parse_elements (S fuel) s acc
  = match parse_value fuel s with
    | None => None
    | Some (v, r) =>
        match skip_ws r with
        | c :: r' =>
            if (c =? 44)%N then parse_elements fuel r' (acc ++ [v])
            else if (c =? 93)%N then Some (JArr (acc ++ [v]), r')
            else None
        | [] => None
        end
    end.
Proof. reflexivity. Qed.

Lemma parse_members_S (fuel : nat) (s : jsstring) (acc : list (jsstring * json)) :
  parse_members (S fuel) s acc
  = match skip_ws s with
    | q :: r0 =>
        if (q =? 34)%N then
          match parse_string_body r0 with
          | None => None
          | Some (k, r1) =>
              match skip_ws r1 with
              | c :: r2 =>
                  if (c =? 58)%N then
                    match parse_value fuel r2 with
                    | None => None
                    | Some (v, r3) =>
                        match skip_ws r3 with
                        | d :: r4 =>
                            if (d =? 44)%N then parse_members fuel r4 (obj_set k v acc)
                            else if (d =? 125)%N then Some (JObj (obj_set k v acc), r4)
                            else None
                        | [] => None
                        end
                    end
                  else None
              | [] => None
              end
          end
        else None
    | [] => None
    end.
Proof. reflexivity. Qed.

(* ------------------------------------------------------------------ *)
(** *** The fuel of [JSON.parse] never runs out *)

Lemma skip_ws_length (s : jsstring) : length (skip_ws s) <= length s.
Proof.
  induction s as [|c r IH]; simpl; [lia|].
  destruct (is_json_ws c); simpl; lia.
Qed.

Lemma cons_fst_inv {A B} (a : A) (x : option (list A * B)) (l : list A) (b : B) :
  cons_fst a x = Some (l, b) -> exists l', x = Some (l', b) /\ l = a :: l'.
Proof.
  destruct x as [[l' b']|]; simpl; [|discriminate].
  intros H. injection H as <- <-. eauto.
Qed.

Lemma parse_string_body_length (s str r : jsstring) :
  parse_string_body s = Some (str, r) -> length r < length s.
Proof.
  remember (length s) as n eqn:Hn. revert s str r Hn.
  induction n as [n IH] using lt_wf_ind. intros s str r Hn H.
  destruct s as [|c s1]; [discriminate|]. cbn [parse_string_body] in H.
  destruct (c =? 34)%N.
  { injection H as <- <-. subst n. simpl. lia. }
  destruct (c =? 92)%N.
  { destruct s1 as [|e s2]; [discriminate|].
    destruct (e =? 117)%N.
    - destruct s2 as [|h1 [|h2 [|h3 [|h4 s3]]]]; try discriminate.
      destruct (hex4 h1 h2 h3 h4); [|discriminate].
      apply cons_fst_inv in H. destruct H as (l' & H & _).
      apply (IH (length s3)) in H; [|subst n; simpl; lia|reflexivity].
      subst n. simpl. lia.
    - destruct (unescape e); [|discriminate].
      apply cons_fst_inv in H. destruct H as (l' & H & _).
      apply (IH (length s2)) in H; [|subst n; simpl; lia|reflexivity].
      subst n. simpl. lia. }
  destruct (c <? 32)%N; [discriminate|].
  apply cons_fst_inv in H. destruct H as (l' & H & _).
  apply (IH (length s1)) in H; [|subst n; simpl; lia|reflexivity].
  subst n. simpl. lia.
Qed.

Lemma take_digits_length (s ds r : jsstring) :
  take_digits s = (ds, r) -> length r <= length s.
Proof.
  revert ds r. induction s as [|c s IH]; intros ds r H; simpl in H.
  - injection H as <- <-. simpl. lia.
  - destruct (is_digit c).
    + destruct (take_digits s) as [ds' r'] eqn:E. injection H as <- <-.
      specialize (IH ds' r' eq_refl). simpl. lia.
    + injection H as <- <-. simpl. lia.
Qed.

Lemma scan_int_length (s i r : jsstring) :
  scan_int s = Some (i, r) -> length r < length s.
Proof.
  destruct s as [|d s1]; [discriminate|]. unfold scan_int.
  destruct (d =? 48)%N.
  - intros H. injection H as <- <-. simpl. lia.
  - destruct (is_digit d); [|discriminate].
    destruct (take_digits s1) as [ds r'] eqn:E. intros H. injection H as <- <-.
    apply take_digits_length in E. simpl. lia.
Qed.

Lemma scan_frac_length (s f r : jsstring) :
  scan_frac s = Some (f, r) -> length r <= length s.
Proof.
  destruct s as [|c s1]; unfold scan_frac.
  - intros H. injection H as <- <-. simpl. lia.
  - destruct (c =? 46)%N.
    + destruct (take_digits s1) as [[|d ds] r'] eqn:E; [discriminate|].
      intros H. injection H as <- <-. apply take_digits_length in E. simpl. lia.
    + intros H. injection H as <- <-. simpl. lia.
Qed.

Lemma scan_exp_length (s e r : jsstring) :
  scan_exp s = Some (e, r) -> length r <= length s.
Proof.
  destruct s as [|c s1]; unfold scan_exp.
  - intros H. injection H as <- <-. simpl. lia.
  - destruct ((c =? 101) || (c =? 69))%N.
    + destruct s1 as [|x s2].
      * simpl. discriminate.
      * destruct ((x =? 43) || (x =? 45))%N.
        -- destruct (take_digits s2) as [[|d ds] r'] eqn:E; [discriminate|].
           intros H. injection H as <- <-. apply take_digits_length in E.
           simpl. lia.
        -- destruct (take_digits (x :: s2)) as [[|d ds] r'] eqn:E; [discriminate|].
           intros H. injection H as <- <-. apply take_digits_length in E.
           simpl in *. lia.
    + intros H. injection H as <- <-. simpl. lia.
Qed.

Lemma scan_number_length (s t r : jsstring) :
  scan_number s = Some (t, r) -> length r < length s.
Proof.
  unfold scan_number. intros H.
  assert (G : forall sg s1, length s1 <= length s ->
            match scan_int s1 with
            | None => None
            | Some (i, s2) =>
                match scan_frac s2 with
                | None => None
                | Some (f, s3) =>
                    match scan_exp s3 with
                    | None => None
                    | Some (e, s4) => Some (sg ++ i ++ f ++ e, s4)
                    end
                end
            end = Some (t, r) -> length r < length s).
  { intros sg s1 Hs1 G.
    destruct (scan_int s1) as [[i s2]|] eqn:Ei; [|discriminate].
    destruct (scan_frac s2) as [[f s3]|] eqn:Ef; [|discriminate].
    destruct (scan_exp s3) as [[e s4]|] eqn:Ee; [|discriminate].
    injection G as _ <-.
    apply scan_int_length in Ei. apply scan_frac_length in Ef.
    apply scan_exp_length in Ee. lia. }
  destruct s as [|c s1]; [discriminate|].
  destruct (c =? 45)%N.
  - apply (G [c] s1); [simpl; lia|exact H].
  - apply (G [] (c :: s1)); [lia|exact H].
Qed.

Lemma startsWith_skipn_length (s p : jsstring) :
  startsWith s p = true -> length (skipn (length p) s) + length p = length s.
Proof.
  intros H. destruct (startsWith_prefix s p H) as [r ->].
  rewrite skipn_app, skipn_all, Nat.sub_diag. cbn [app skipn].
  rewrite length_app. lia.
Qed.

Lemma parsers_fuel_free (fuel : nat) :
  fuel_free (fun f s (_ : unit) => parse_value f s) fuel
  /\ fuel_free parse_elements fuel
  /\ fuel_free parse_members fuel.
Proof.
  induction fuel as [|f (IHv & IHe & IHm)].
  { split; [|split]; intros s a v r H; discriminate H. }
  split; [|split]; intros s a v r H.
  - rewrite parse_value_S in H.
    pose proof (skip_ws_length s) as Hws.
    destruct (skip_ws s) as [|c r0] eqn:Es; [discriminate|]. simpl in Hws.
    assert (Hre : forall fuel', parse_value (S fuel') s
                   = match c :: r0 with
                     | [] => None
                     | c :: r =>
                         if (c =? 34)%N then
                           match parse_string_body r with
                           | Some (str, rest) => Some (JStr str, rest)
                           | None => None
                           end
                         else if (c =? 91)%N then
                           match skip_ws r with
                           | c' :: r' =>
                               if (c' =? 93)%N then Some (JArr [], r')
                               else parse_elements fuel' r []
                           | [] => None
                           end
                         else if (c =? 123)%N then
                           match skip_ws r with
                           | c' :: r' =>
                               if (c' =? 125)%N then Some (JObj [], r')
                               else parse_members fuel' r []
                           | [] => None
                           end
                         else if startsWith (c :: r) LIT_TRUE
                         then Some (JBool true, skipn 4 (c :: r))
                         else if startsWith (c :: r) LIT_FALSE
                         then Some (JBool false, skipn 5 (c :: r))
                         else if startsWith (c :: r) LIT_NULL
                         then Some (JNull, skipn 4 (c :: r))
                         else
                           match scan_number (c :: r) with
                           | Some (text, rest) => Some (JNum (num_ofLiteral text), rest)
                           | None => None
                           end
                     end).
    { intros fuel'. rewrite parse_value_S, Es. reflexivity. }
    cbv iota in Hre.
    assert (Hpos : forall fuel', length s - length r <= fuel' ->
                   length r < length s -> exists f'', fuel' = S f'').
    { intros fuel' Hf Hl. destruct fuel' as [|f'']; [lia|eauto]. }
    destruct (c =? 34)%N.
    { destruct (parse_string_body r0) as [[str rest]|] eqn:Ep; [|discriminate].
      injection H as <- <-. apply parse_string_body_length in Ep.
      split; [lia|]. intros fuel' Hf.
      destruct (Hpos fuel' Hf ltac:(lia)) as [f'' ->]. rewrite Hre. reflexivity. }
    destruct (c =? 91)%N.
    { pose proof (skip_ws_length r0) as Hws0.
      destruct (skip_ws r0) as [|c' r'] eqn:Es0; [discriminate|]. simpl in Hws0.
      destruct (c' =? 93)%N.
      - injection H as <- <-. split; [lia|]. intros fuel' Hf.
        destruct (Hpos fuel' Hf ltac:(lia)) as [f'' ->]. rewrite Hre. reflexivity.
      - destruct (IHe r0 [] v r H) as [Hl Hany]. split; [lia|]. intros fuel' Hf.
        destruct (Hpos fuel' Hf ltac:(lia)) as [f'' ->]. rewrite Hre.
        apply Hany. lia. }
    destruct (c =? 123)%N.
    { pose proof (skip_ws_length r0) as Hws0.
      destruct (skip_ws r0) as [|c' r'] eqn:Es0; [discriminate|]. simpl in Hws0.
      destruct (c' =? 125)%N.
      - injection H as <- <-. split; [lia|]. intros fuel' Hf.
        destruct (Hpos fuel' Hf ltac:(lia)) as [f'' ->]. rewrite Hre. reflexivity.
      - destruct (IHm r0 [] v r H) as [Hl Hany]. split; [lia|]. intros fuel' Hf.
        destruct (Hpos fuel' Hf ltac:(lia)) as [f'' ->]. rewrite Hre.
        apply Hany. lia. }
    destruct (startsWith (c :: r0) LIT_TRUE) eqn:Et.
    { apply startsWith_skipn_length in Et. change (length LIT_TRUE) with 4 in Et.
      set (t := skipn 4 (c :: r0)) in *. clearbody t. simpl in Et.
      injection H as <- <-. split; [lia|]. intros fuel' Hf.
      destruct (Hpos fuel' Hf ltac:(lia)) as [f'' ->]. rewrite Hre. reflexivity. }
    destruct (startsWith (c :: r0) LIT_FALSE) eqn:Ef.
    { apply startsWith_skipn_length in Ef. change (length LIT_FALSE) with 5 in Ef.
      set (t := skipn 5 (c :: r0)) in *. clearbody t. simpl in Ef.
      injection H as <- <-. split; [lia|]. intros fuel' Hf.
      destruct (Hpos fuel' Hf ltac:(lia)) as [f'' ->]. rewrite Hre. reflexivity. }
    destruct (startsWith (c :: r0) LIT_NULL) eqn:En.
    { apply startsWith_skipn_length in En. change (length LIT_NULL) with 4 in En.
      set (t := skipn 4 (c :: r0)) in *. clearbody t. simpl in En.
      injection H as <- <-. split; [lia|]. intros fuel' Hf.
      destruct (Hpos fuel' Hf ltac:(lia)) as [f'' ->]. rewrite Hre. reflexivity. }
    destruct (scan_number (c :: r0)) as [[text rest]|] eqn:Esc; [|discriminate].
    injection H as <- <-. apply scan_number_length in Esc. simpl in Esc.
    split; [lia|].
    intros fuel' Hf.
    destruct (Hpos fuel' Hf ltac:(lia)) as [f'' ->]. rewrite Hre. reflexivity.
  - rewrite parse_elements_S in H.
    destruct (parse_value f s) as [[v1 r1]|] eqn:Ev; [|discriminate].
    destruct (IHv s tt v1 r1 Ev) as [Hl1 Hany1].
    pose proof (skip_ws_length r1) as Hws.
    destruct (skip_ws r1) as [|c r2] eqn:Es; [discriminate|]. simpl in Hws.
    destruct (c =? 44)%N eqn:Ec4.
    + destruct (IHe r2 (a ++ [v1]) v r H) as [Hl Hany]. split; [lia|].
      intros fuel' Hf. destruct fuel' as [|f'']; [lia|].
      rewrite parse_elements_S, (Hany1 f'') by lia. rewrite Es, Ec4.
      apply Hany. lia.
    + destruct (c =? 93)%N eqn:Ec; [|discriminate].
      injection H as <- <-. split; [lia|].
      intros fuel' Hf. destruct fuel' as [|f'']; [lia|].
      rewrite parse_elements_S, (Hany1 f'') by lia. rewrite Es, Ec4, Ec.
      reflexivity.
  - rewrite parse_members_S in H.
    pose proof (skip_ws_length s) as Hws.
    destruct (skip_ws s) as [|q r0] eqn:Es; [discriminate|]. simpl in Hws.
    destruct (q =? 34)%N eqn:Eq; [|discriminate].
    destruct (parse_string_body r0) as [[k r1]|] eqn:Ek; [|discriminate].
    pose proof (parse_string_body_length _ _ _ Ek) as Hk.
    pose proof (skip_ws_length r1) as Hws1.
    destruct (skip_ws r1) as [|c r2] eqn:Es1; [discriminate|]. simpl in Hws1.
    destruct (c =? 58)%N eqn:Ec; [|discriminate].
    destruct (parse_value f r2) as [[v1 r3]|] eqn:Ev; [|discriminate].
    destruct (IHv r2 tt v1 r3 Ev) as [Hl1 Hany1].
    pose proof (skip_ws_length r3) as Hws3.
    destruct (skip_ws r3) as [|d r4] eqn:Es3; [discriminate|]. simpl in Hws3.
    destruct (d =? 44)%N eqn:Ed.
    + destruct (IHm r4 (obj_set k v1 a) v r H) as [Hl Hany]. split; [lia|].
      intros fuel' Hf. destruct fuel' as [|f'']; [lia|].
      rewrite parse_members_S, Es, Eq, Ek, Es1, Ec, (Hany1 f'') by lia.
      rewrite Es3, Ed. apply Hany. lia.
    + destruct (d =? 125)%N eqn:Ed'; [|discriminate].
      injection H as <- <-. split; [lia|].
      intros fuel' Hf. destruct fuel' as [|f'']; [lia|].
      rewrite parse_members_S, Es, Eq, Ek, Es1, Ec, (Hany1 f'') by lia.
      rewrite Es3, Ed, Ed'. reflexivity.
Qed.

(** [JSON_parse] returns what a run with any amount of fuel returns: its
    [None] is a text that is not JSON, never a lack of fuel. *)
Lemma JSON_parse_any_fuel (text : jsstring) (fuel : nat) (v : json) (rest : jsstring) :
  parse_value fuel text = Some (v, rest) ->
  skip_ws rest = [] ->
  JSON_parse text = Some v.
Proof.
  intros H Hrest. unfold JSON_parse.
  destruct (proj1 (parsers_fuel_free fuel) text tt v rest H) as [_ Hany].
  rewrite (Hany (S (length text))) by lia. rewrite Hrest. reflexivity.
Qed.

(* ================================================================== *)
(** ** Search results and their rendering *)
(* ================================================================== *)

Lemma substring0_length (n : nat) (s : jsstring) : length (substring0 n s) <= n.
Proof. unfold substring0. rewrite length_firstn. lia. Qed.

(** The sources of a reply, none when the reply or its [data] is missing. *)
Lemma queryAiSearch_citations (res : option AiSearchResponse) :
  citations (queryAiSearch (Ok res))
  = List.map (fun s => {| cit_text := nullish (option_map (substring0 200) (src_content s)) [];
                          cit_source_url := src_filename s |})
      (nullish (match (match res with Some x => resp_data x | None => None end) with
                | Some d => data_sources d
                | None => None
                end) []).
Proof. reflexivity. Qed.

(** X1.  Whatever the search service does, [queryAiSearch] returns citations
    of at most 200 code units each; for a reply with a list of sources there
    is one citation per source, in order, whose reference is the file name of
    the source; and a call that fails gives the fixed line [Unable to search
    feedback at this time.] with no citation. *)
Theorem queryAiSearch_citations_bounded :
  forall outcome : result (option AiSearchResponse),
    Forall (fun c => length (cit_text c) <= 200) (citations (queryAiSearch outcome))
    /\ (forall res data sources,
           outcome = Ok (Some res) ->
           resp_data res = Some data ->
           data_sources data = Some sources ->
           List.map cit_source_url (citations (queryAiSearch outcome))
           = List.map src_filename sources
           /\ List.map cit_text (citations (queryAiSearch outcome))
              = List.map (fun s => match src_content s with
                                   | Some text => substring0 200 text
                                   | None => []
                                   end) sources)
    /\ (forall e,
           outcome = Throw e ->
           queryAiSearch outcome
           = {| answer := lit "Unable to search feedback at this time.";
                citations := [] |}).
Proof.
  intros outcome. split; [|split].
  - destruct outcome as [res|e]; [|constructor].
    rewrite queryAiSearch_citations. apply Forall_map, Forall_forall.
    intros s _. cbn [cit_text].
    destruct (src_content s) as [text|]; cbn [option_map nullish].
    + apply substring0_length.
    + simpl. lia.
  - intros res data sources -> Hd Hs. rewrite queryAiSearch_citations.
    rewrite Hd, Hs. cbn [nullish]. rewrite !map_map. split; [reflexivity|].
    apply map_ext. intros s. cbn [cit_text]. destruct (src_content s); reflexivity.
  - intros e ->. reflexivity.
Qed.

(** The rendering reads the first three citations only. *)
Lemma summary_content_first_three (a : jsstring) (cs : list Citation) :
  summary_content {| answer := a; citations := cs |}
  = summary_content {| answer := a; citations := firstn 3 cs |}.
Proof.
  unfold summary_content. cbn [answer citations].
  rewrite firstn_firstn. cbn [Nat.min].
  destruct cs as [|c cs]; reflexivity.
Qed.

(** X2.  [summarizeForDiscord] reads the answer and the first three citations
    only: citations after the third change nothing, and without any citation
    the rendering is the answer, cut as every rendering is. *)
Theorem summarizeForDiscord_first_three_citations :
  forall (a : jsstring) (cs : list Citation),
    summarizeForDiscord {| answer := a; citations := cs |}
    = summarizeForDiscord {| answer := a; citations := firstn 3 cs |}
    /\ summarizeForDiscord {| answer := a; citations := [] |}
       = truncate_for_discord a.
Proof.
  intros a cs. unfold summarizeForDiscord. split.
  - rewrite summary_content_first_three. reflexivity.
  - unfold summary_content. cbn. rewrite List.app_nil_r. reflexivity.
Qed.

Lemma N_toString_one_digit (i : N) :
  (i < 9)%N -> length (N_toString (i + 1)) = 1.
Proof.
  intros H.
  assert (E : (i = 0 \/ i = 1 \/ i = 2 \/ i = 3 \/ i = 4 \/ i = 5 \/ i = 6
               \/ i = 7 \/ i = 8)%N) by lia.
  repeat (destruct E as [-> | E]; [reflexivity|]). subst i. reflexivity.
Qed.

(** A source line has at most 107 code units: the line break, one digit,
    the dot and the space, at most 100 units of text and the marker. *)
Lemma source_lines_length (cs : list Citation) :
  forall i : N,
    (i + N.of_nat (length cs) <= 9)%N ->
    length (source_lines i cs) <= 107 * length cs.
Proof.
  induction cs as [|c cs IH]; intros i Hi; [simpl; lia|].
  cbn [source_lines]. rewrite length_app.
  assert (Hrest : length (source_lines (i + 1) cs) <= 107 * length cs).
  { apply IH. cbn [length] in Hi. lia. }
  assert (Hline : length (match cit_text c with
                          | [] => []
                          | _ :: _ =>
                              NL :: N_toString (i + 1) ++ lit ". "
                                ++ substring0 100 (cit_text c) ++ ELLIPSIS
                          end) <= 107).
  { destruct (cit_text c) as [|u t] eqn:E; [simpl; lia|].
    cbn [length]. rewrite !length_app, N_toString_one_digit by (cbn [length] in Hi; lia).
    pose proof (substring0_length 100 (u :: t)). simpl length at 2 3. simpl in *. lia. }
  cbn [length]. lia.
Qed.

(** X3.  An answer of at most 1565 code units is never cut: the rendering is
    the answer followed by the sources, in full. *)
Theorem summarizeForDiscord_short_answer_kept :
  forall searchResult : SearchResult,
    length (answer searchResult) <= 1565 ->
    summarizeForDiscord searchResult = summary_content searchResult
    /\ startsWith (summarizeForDiscord searchResult) (answer searchResult) = true.
Proof.
  intros sr Hlen.
  assert (Hfits : length (summary_content sr) <= 1900).
  { unfold summary_content. rewrite length_app.
    destruct (0 <? length (citations sr))%nat; [|simpl; lia].
    rewrite length_app. change (length SOURCES_HEADER) with 14.
    pose proof (source_lines_length (firstn 3 (citations sr)) 0) as B.
    pose proof (firstn_le_length 3 (citations sr)) as F.
    rewrite length_firstn in B.
    assert (Hmin : Nat.min 3 (length (citations sr)) <= 3) by lia.
    specialize (B ltac:(lia)). lia. }
  unfold summarizeForDiscord. rewrite (truncate_for_discord_short _ Hfits).
  split; [reflexivity|]. unfold summary_content. apply startsWith_app.
Qed.

Lemma Forall_firstn {A} (P : A -> Prop) (n : nat) (l : list A) :
  Forall P l -> Forall P (firstn n l).
Proof.
  intros H. revert n. induction H as [|x l Hx Hl IH]; intros [|n]; simpl;
    constructor; auto.
Qed.

(** X4.  When the service names sources but none of them has any content, the
    rendering ends with the heading of the sources and no line under it. *)
Theorem summarizeForDiscord_heading_without_lines :
  forall (res : AiSearchResponse) (data : AiSearchData) (sources : list AiSearchSource),
    resp_data res = Some data ->
    data_sources data = Some sources ->
    sources <> [] ->
    Forall (fun s => src_content s = None \/ src_content s = Some []) sources ->
    summary_content (queryAiSearch (Ok (Some res)))
    = answer (queryAiSearch (Ok (Some res))) ++ [NL; NL] ++ lit "**Sources:**".
Proof.
  intros res data sources Hd Hs Hne Hall.
  unfold summary_content. rewrite queryAiSearch_citations, Hd, Hs. cbn [nullish].
  set (mk := fun s : AiSearchSource =>
               {| cit_text := nullish (option_map (substring0 200) (src_content s)) [];
                  cit_source_url := src_filename s |}).
  assert (Hlen : (0 <? length (List.map mk sources))%nat = true)
    by (destruct sources; [contradiction|reflexivity]).
  rewrite Hlen. f_equal. change ([NL; NL] ++ lit "**Sources:**") with SOURCES_HEADER.
  rewrite <- (List.app_nil_r SOURCES_HEADER) at 2. f_equal.
  rewrite firstn_map.
  assert (Hfirst : Forall (fun s => src_content s = None \/ src_content s = Some [])
                     (firstn 3 sources)).
  { apply Forall_firstn, Hall. }
  generalize 0%N. induction Hfirst as [|s l Hs0 Hl IH]; intros i; [reflexivity|].
  cbn [List.map source_lines]. rewrite IH.
  unfold mk at 1. cbn [cit_text]. destruct Hs0 as [-> | ->]; reflexivity.
Qed.

(* ================================================================== *)
(** ** Answers and digests when a service fails *)
(* ================================================================== *)

Lemma summarizeForDiscord_unavailable :
  summarizeForDiscord {| answer := SEARCH_UNAVAILABLE; citations := [] |}
  = SEARCH_UNAVAILABLE.
Proof. reflexivity. Qed.

(** X5.  A search call that fails is not an error of [ask], on either
    interface: the continuation of the command edits the response with the
    line [Unable to search feedback at this time.] (not with the apology of
    its [catch]), and [POST /ask] replies with status 200, that line as the
    answer and no citation. *)
Theorem search_failure_degrades_to_a_line :
  forall (env : Env) (e : js_error),
    (forall app token query : jsstring,
        ai_search env (JStr query) 5 = Throw e ->
        run_task env (AskTask app token query)
        = {| edit_application_id := app;
             edit_token := token;
             edit_content := lit "Unable to search feedback at this time." |})
    /\ (forall (text : jsstring) props (q : json),
           JSON_parse text = Some (JObj props) ->
           obj_get (lit "query") props = Some q ->
           truthy (Some q) = true ->
           ai_search env q 5 = Throw e ->
           handleAsk env text
           = Ok {| status := 200;
                   body := AskBody q (lit "Unable to search feedback at this time.") [] |}).
Proof.
  intros env e. split.
  - intros app token query H. cbn [run_task]. unfold ask_try. rewrite H.
    cbn [queryAiSearch]. rewrite summarizeForDiscord_unavailable. reflexivity.
  - intros text props q Hparse Hq Ht H. unfold handleAsk. rewrite Hparse.
    change (lit "query") with K_query in Hq. cbn [prop]. rewrite Hq, Ht.
    cbn [negb]. rewrite H. cbn [queryAiSearch citations].
    rewrite summarizeForDiscord_unavailable. reflexivity.
Qed.

(** X6.  [POST /ask] has three outcomes. It fails when the body is not JSON or
    is [null]; it replies 400 with [Missing required field: query] when the
    query is missing or falsy; otherwise it replies 200 with the query as it
    was given (any truthy value, not only a string), an answer of at most 1900
    code units and citations of at most 200 code units each. *)
Theorem handleAsk_outcomes :
  forall (env : Env) (text : jsstring),
    match handleAsk env text with
    | Throw e =>
        (e = SyntaxError /\ JSON_parse text = None)
        \/ (e = TypeError /\ JSON_parse text = Some JNull)
    | Ok response =>
        exists b,
          JSON_parse text = Some b
          /\ ((truthy (prop b (lit "query")) = false
               /\ response
                  = {| status := 400;
                       body := ErrorBody (lit "Missing required field: query") |})
              \/ (exists q a cites,
                     prop b (lit "query") = Some q
                     /\ truthy (Some q) = true
                     /\ response = {| status := 200; body := AskBody q a cites |}
                     /\ length a <= 1900
                     /\ Forall (fun c => length (cit_text c) <= 200) cites))
    end.
Proof.
  intros env text. unfold handleAsk. change (lit "query") with K_query.
  destruct (JSON_parse text) as [b|]; [|left; auto].
  assert (Hgen :
    match
      (if negb (truthy (prop b K_query))
       then Ok (Response_json_status (ErrorBody MISSING_QUERY) 400)
       else
         match prop b K_query with
         | Some q =>
             Ok (Response_json
                   (AskBody q (summarizeForDiscord (queryAiSearch (ai_search env q 5)))
                      (citations (queryAiSearch (ai_search env q 5)))))
         | None => Ok (Response_json_status (ErrorBody MISSING_QUERY) 400)
         end)
    with
    | Throw _ => False
    | Ok response =>
        (truthy (prop b K_query) = false
         /\ response = {| status := 400; body := ErrorBody MISSING_QUERY |})
        \/ (exists q a cites,
               prop b K_query = Some q
               /\ truthy (Some q) = true
               /\ response = {| status := 200; body := AskBody q a cites |}
               /\ length a <= 1900
               /\ Forall (fun c => length (cit_text c) <= 200) cites)
    end).
  { destruct (truthy (prop b K_query)) eqn:Ht; cbn [negb]; [|left; auto].
    destruct (prop b K_query) as [q|] eqn:Eq; [|discriminate Ht].
    right. exists q. do 2 eexists. split; [reflexivity|]. split; [exact Ht|].
    split; [reflexivity|]. split.
    - apply truncate_for_discord_length.
    - destruct (ai_search env q 5) as [res|e].
      + rewrite queryAiSearch_citations. apply Forall_map, Forall_forall.
        intros s _. cbn [cit_text].
        destruct (src_content s) as [t|]; cbn [option_map nullish].
        * apply substring0_length.
        * simpl. lia.
      + constructor. }
  destruct b as [|bb|n|s|items|props]; [right; auto| | | | |];
    match goal with
    | |- match ?x with _ => _ end =>
        match type of Hgen with
        | match ?y with _ => _ end =>
            change x with y; destruct y as [response|e]; [|contradiction]
        end
    end; eexists; (split; [reflexivity|exact Hgen]).
Qed.

(** X7.  Both interfaces of [ask] render a reply of the search service alike.
    Take a command whose [query] option is a text that is not empty, and a
    request, served on its own, whose body has that text as its [query]. The
    command registers one continuation and the request is answered with status
    200; both call the search service with that text and at most five results,
    and when the service gives the two calls the same reply, the message the
    continuation sends first is the answer of the request. *)
Theorem ask_command_answers_as_the_request :
  forall (env_command env_request : Env) (interaction : DiscordInteraction)
         (ctx : ExecutionContext) (text : jsstring) props (q : jsstring),
    getStringOption interaction (lit "query") = Some q ->
    q <> [] ->
    JSON_parse text = Some (JObj props) ->
    obj_get (lit "query") props = Some (JStr q) ->
    exists task,
      snd (handleAskCommand interaction ctx) = ctx ++ [task]
      /\ edit_content (run_task env_command task)
         = summarizeForDiscord (queryAiSearch (ai_search env_command (JStr q) 5))
      /\ handleAsk env_request text
         = Ok {| status := 200;
                 body :=
                   AskBody (JStr q)
                     (summarizeForDiscord
                        (queryAiSearch (ai_search env_request (JStr q) 5)))
                     (citations (queryAiSearch (ai_search env_request (JStr q) 5))) |}
      /\ (ai_search env_command (JStr q) 5 = ai_search env_request (JStr q) 5 ->
          exists a cites,
            handleAsk env_request text
            = Ok {| status := 200; body := AskBody (JStr q) a cites |}
            /\ edit_content (run_task env_command task) = a).
Proof.
  intros env_command env_request interaction ctx text props q Hopt Hne Hparse Hq.
  change (lit "query") with K_query in *.
  unfold handleAskCommand, handleAsk. rewrite Hopt, Hparse. cbn [prop]. rewrite Hq.
  destruct q as [|c q]; [contradiction|]. cbn [snd truthy negb].
  eexists. split; [reflexivity|]. split; [reflexivity|]. split; [reflexivity|].
  intros Hsame. do 2 eexists. split; [reflexivity|].
  cbn [run_task edit_content ask_try]. rewrite Hsame. reflexivity.
Qed.

(** X8.  The [digest] command never validates its option: every interaction is
    acknowledged with the deferred response and registers exactly one
    continuation. The digest is made for today when the [date] option is
    missing, has no value or is the empty string, and for the text of the
    option otherwise, whatever that text is. *)
Theorem handleDigestCommand_always_defers :
  forall (interaction : DiscordInteraction) (today : jsstring) (ctx : ExecutionContext),
    fst (handleDigestCommand interaction today ctx)
    = Response_json (InteractionBody {| ir_type := 5; ir_data := None |})
    /\ (getStringOption interaction (lit "date") = None
        \/ getStringOption interaction (lit "date") = Some [] ->
        snd (handleDigestCommand interaction today ctx)
        = ctx ++ [DigestTask (i_application_id interaction) (i_token interaction) today])
    /\ (forall c d,
           getStringOption interaction (lit "date") = Some (c :: d) ->
           snd (handleDigestCommand interaction today ctx)
           = ctx ++ [DigestTask (i_application_id interaction) (i_token interaction)
                       (c :: d)]).
Proof.
  intros interaction today ctx. unfold handleDigestCommand.
  change (lit "date") with K_date. cbn [fst snd]. split; [reflexivity|]. split.
  - intros [-> | ->]; reflexivity.
  - intros c d ->. reflexivity.
Qed.

Lemma digest_try_reads (env : Env) (date : jsstring) :
  digest_try env date
  = (stats <- getDailyStats env date ;;
     totalCount <- getFeedbackCount env date ;;
     highUrgency <- getHighUrgencySample env 3 ;;
     Ok (digest_rendering date totalCount stats (generateDigest env date) highUrgency)).
Proof. reflexivity. Qed.

Lemma digest_rendering_is_no_apology (date : jsstring) (totalCount : N)
    (stats : list DailyStat) (searchResult : SearchResult)
    (highUrgency : list UrgentItem) :
  digest_rendering date totalCount stats searchResult highUrgency <> DIGEST_ERROR.
Proof.
  intros H. unfold digest_rendering, digest_content, truncate_for_discord in H.
  destruct (1900 <? _)%nat in H.
  - unfold substring0, digest_title in H. rewrite <- !app_assoc in H.
    cbn in H. discriminate H.
  - unfold digest_title in H. rewrite <- !app_assoc in H. cbn in H.
    discriminate H.
Qed.

(** X9.  The digest continuation sends the apology [Sorry, I encountered an
    error generating the digest. Please try again.] exactly when one of the
    three database reads fails or the call of [editOriginalResponse] that
    carries the digest throws: that call is awaited inside the [try]. It
    throws when [fetch] rejects; a response that is not [ok] is only logged,
    and the digest stays the only edit. The first edit requested is the
    digest, or the apology when a read failed. A failing search is no failure
    of the digest: with the reads succeeding, the first edit is the rendering
    of the counts with the line [Unable to search feedback at this time.] in
    the place of the answer. The ask continuation sends its answer and, when
    that edit is rejected, its apology after it. Either promise is rejected
    only when the apology itself is. *)
Theorem digest_apology_iff_read_or_delivery_fails :
  forall (env : Env) (app token date : jsstring) (first second : WebhookReply),
    (In {| edit_application_id := app; edit_token := token;
           edit_content :=
             lit "Sorry, I encountered an error generating the digest. Please try again." |}
        (fst (run_continuation env (DigestTask app token date) first second))
     <-> (exists e, getDailyStats env date = Throw e
                    \/ getFeedbackCount env date = Throw e
                    \/ getHighUrgencySample env 3 = Throw e)
         \/ (exists e, editOriginalResponse first = Throw e))
    /\ hd_error (fst (run_continuation env (DigestTask app token date) first second))
       = Some (run_task env (DigestTask app token date))
    /\ (forall ok text content,
           digest_try env date = Ok content ->
           fst (run_continuation env (DigestTask app token date)
                  (Replied ok (Ok text)) second)
           = [{| edit_application_id := app; edit_token := token;
                 edit_content := content |}])
    /\ (forall e stats totalCount highUrgency,
           ai_search env (JStr (digestQuery date)) 10 = Throw e ->
           getDailyStats env date = Ok stats ->
           getFeedbackCount env date = Ok totalCount ->
           getHighUrgencySample env 3 = Ok highUrgency ->
           hd_error (fst (run_continuation env (DigestTask app token date) first second))
           = Some {| edit_application_id := app; edit_token := token;
                     edit_content :=
                       digest_rendering date totalCount stats
                         {| answer := lit "Unable to search feedback at this time.";
                            citations := [] |} highUrgency |})
    /\ (forall query,
           fst (run_continuation env (AskTask app token query) first second)
           = match editOriginalResponse first with
             | Ok _ => [run_task env (AskTask app token query)]
             | Throw _ =>
                 [run_task env (AskTask app token query);
                  {| edit_application_id := app; edit_token := token;
                     edit_content :=
                       lit "Sorry, I encountered an error while searching. Please try again." |}]
             end)
    /\ (forall task e,
           snd (run_continuation env task first second) = Throw e ->
           exists before,
             fst (run_continuation env task first second) = before ++ [apology task]).
Proof.
  intros env app token date first second.
  assert (Hreads : (exists e, getDailyStats env date = Throw e
                              \/ getFeedbackCount env date = Throw e
                              \/ getHighUrgencySample env 3 = Throw e)
                   <-> exists e, digest_try env date = Throw e).
  { rewrite digest_try_reads.
    destruct (getDailyStats env date) as [stats|e1]; cbn [bind].
    2:{ split; eauto. }
    destruct (getFeedbackCount env date) as [total|e2]; cbn [bind].
    2:{ split; eauto. }
    destruct (getHighUrgencySample env 3) as [hu|e3]; cbn [bind].
    2:{ split; eauto. }
    split.
    - intros [e [H | [H | H]]]; discriminate H.
    - intros [e H]; discriminate H. }
  split; [|split; [|split; [|split; [|split]]]].
  - rewrite Hreads. unfold run_continuation. cbn [apology].
    change (lit "Sorry, I encountered an error generating the digest. Please try again.")
      with DIGEST_ERROR.
    destruct (digest_try env date) as [content|e] eqn:Etry.
    + destruct (editOriginalResponse first) as [u|e1]; cbn [fst]; split.
      * intros [H | []]. injection H as H.
        rewrite digest_try_reads in Etry.
        destruct (getDailyStats env date); [|discriminate Etry]. cbn [bind] in Etry.
        destruct (getFeedbackCount env date); [|discriminate Etry]. cbn [bind] in Etry.
        destruct (getHighUrgencySample env 3); [|discriminate Etry]. cbn [bind] in Etry.
        injection Etry as <-. exfalso. exact (digest_rendering_is_no_apology _ _ _ _ _ H).
      * intros [[e H] | [e H]]; discriminate H.
      * intros _. right. eauto.
      * intros _. right. left. reflexivity.
    + cbn [fst]. split.
      * intros _. left. eauto.
      * intros _. left. reflexivity.
  - unfold run_continuation, run_task.
    destruct (digest_try env date) as [content|e]; [|reflexivity].
    destruct (editOriginalResponse first); reflexivity.
  - intros ok text content Htry. unfold run_continuation. rewrite Htry.
    destruct ok; reflexivity.
  - intros e stats total hu Hsearch Hs Hc Hu. unfold run_continuation.
    rewrite digest_try_reads, Hs, Hc, Hu. cbn [bind].
    unfold generateDigest. rewrite Hsearch.
    destruct (editOriginalResponse first); reflexivity.
  - intros query. unfold run_continuation, ask_try, run_task, ask_try. cbn [apology].
    destruct (editOriginalResponse first); reflexivity.
  - intros task e. unfold run_continuation.
    destruct (match task with
              | AskTask _ _ query => ask_try env query
              | DigestTask _ _ d => digest_try env d
              end) as [content|e0].
    + destruct (editOriginalResponse first) as [u|e1]; cbn [fst snd].
      * discriminate.
      * intros _. eexists [_]. reflexivity.
    + cbn [fst snd]. intros _. exists []. reflexivity.
Qed.

(* ================================================================== *)
(** ** The breakdown of a digest *)
(* ================================================================== *)

Lemma counts_of_group_stat (s : jsstring) (stat : DailyStat)
    (grouped : list (jsstring * Counts)) :
  counts_of s (group_stat stat grouped)
  = if jsstring_eqb (st_source stat) s
    then add_count (counts_of s grouped) (st_sentiment stat) (st_count stat)
    else counts_of s grouped.
Proof.
  unfold counts_of. induction grouped as [|[k c] rest IH]; cbn [group_stat find fst snd].
  - destruct (jsstring_eqb (st_source stat) s); reflexivity.
  - destruct (jsstring_eqb k (st_source stat)) eqn:Ek; cbn [find fst snd].
    + apply jsstring_eqb_eq in Ek. subst k.
      destruct (jsstring_eqb (st_source stat) s); reflexivity.
    + destruct (jsstring_eqb k s) eqn:Es; [|exact IH].
      apply jsstring_eqb_eq in Es. subst k.
      destruct (jsstring_eqb (st_source stat) s) eqn:E; [|reflexivity].
      apply jsstring_eqb_eq in E. rewrite E, jsstring_eqb_refl in Ek.
      discriminate Ek.
Qed.

Lemma group_stat_keys (stat : DailyStat) (grouped : list (jsstring * Counts)) :
  List.map fst (group_stat stat grouped)
  = if existsb (fun k => jsstring_eqb k (st_source stat)) (List.map fst grouped)
    then List.map fst grouped
    else List.map fst grouped ++ [st_source stat].
Proof.
  induction grouped as [|[k c] rest IH]; cbn [group_stat List.map existsb fst];
    [reflexivity|].
  destruct (jsstring_eqb k (st_source stat)); cbn [orb List.map fst]; [reflexivity|].
  rewrite IH. destruct (existsb _ (List.map fst rest)); reflexivity.
Qed.

Lemma group_stat_keys_NoDup (stat : DailyStat) (grouped : list (jsstring * Counts)) :
  NoDup (List.map fst grouped) -> NoDup (List.map fst (group_stat stat grouped)).
Proof.
  intros H. rewrite group_stat_keys.
  destruct (existsb _ (List.map fst grouped)) eqn:E; [exact H|].
  apply NoDup_app; [exact H|repeat constructor; intros []|].
  intros k Hk [Ek|[]]. subst k.
  assert (Hex : existsb (fun k' => jsstring_eqb k' (st_source stat))
                  (List.map fst grouped) = true).
  { apply existsb_exists. exists (st_source stat).
    split; [exact Hk|apply jsstring_eqb_refl]. }
  congruence.
Qed.

Lemma group_stat_keys_In (s : jsstring) (stat : DailyStat)
    (grouped : list (jsstring * Counts)) :
  In s (List.map fst (group_stat stat grouped))
  <-> In s (List.map fst grouped) \/ s = st_source stat.
Proof.
  rewrite group_stat_keys.
  destruct (existsb _ (List.map fst grouped)) eqn:E.
  - split; [auto|]. intros [H | ->]; [exact H|].
    apply existsb_exists in E. destruct E as (k & Hk & Heq).
    apply jsstring_eqb_eq in Heq. subst k. exact Hk.
  - rewrite in_app_iff. simpl. split.
    + intros [H | [H | []]]; auto.
    + intros [H | H]; auto.
Qed.

Lemma group_stats_keys (stats : list DailyStat) :
  forall grouped : list (jsstring * Counts),
    NoDup (List.map fst grouped) ->
    NoDup (List.map fst
             (fold_left (fun grouped stat => group_stat stat grouped) stats grouped))
    /\ forall s,
         In s (List.map fst
                 (fold_left (fun grouped stat => group_stat stat grouped) stats grouped))
         <-> In s (List.map fst grouped) \/ In s (List.map st_source stats).
Proof.
  induction stats as [|st stats IH]; intros grouped Hnd; cbn [fold_left List.map].
  - split; [exact Hnd|]. intros s. simpl. tauto.
  - destruct (IH _ (group_stat_keys_NoDup st grouped Hnd)) as [Hnd' Hin].
    split; [exact Hnd'|]. intros s. rewrite Hin, group_stat_keys_In. simpl.
    split; intros H; intuition auto.
Qed.

Lemma add_count_fields (c : Counts) (sentiment : jsstring) (n : N) :
  pos (add_count c sentiment n)
  = (if jsstring_eqb sentiment POSITIVE then pos c + n else pos c)%N
  /\ neg (add_count c sentiment n)
     = (if negb (jsstring_eqb sentiment POSITIVE) && jsstring_eqb sentiment NEGATIVE
        then neg c + n else neg c)%N
  /\ neu (add_count c sentiment n)
     = (if negb (jsstring_eqb sentiment POSITIVE)
           && negb (jsstring_eqb sentiment NEGATIVE)
        then neu c + n else neu c)%N.
Proof.
  unfold add_count.
  destruct (jsstring_eqb sentiment POSITIVE), (jsstring_eqb sentiment NEGATIVE);
    repeat split; reflexivity.
Qed.

Lemma group_stats_counts (s : jsstring) (stats : list DailyStat) :
  forall grouped : list (jsstring * Counts),
    let final :=
      counts_of s (fold_left (fun grouped stat => group_stat stat grouped) stats grouped) in
    pos final
    = (pos (counts_of s grouped)
       + tally (fun st => from_source s st && is_positive st) stats)%N
    /\ neg final
       = (neg (counts_of s grouped)
          + tally (fun st => from_source s st && negb (is_positive st)
                             && is_negative st) stats)%N
    /\ neu final
       = (neu (counts_of s grouped)
          + tally (fun st => from_source s st && negb (is_positive st)
                             && negb (is_negative st)) stats)%N.
Proof.
  induction stats as [|st stats IH]; intros grouped; cbn zeta; cbn [fold_left tally fold_right].
  - rewrite !N.add_0_r. auto.
  - destruct (IH (group_stat st grouped)) as (Hp & Hn & Hu). cbn zeta in Hp, Hn, Hu.
    fold (tally (fun st => from_source s st && is_positive st) stats).
    fold (tally (fun st => from_source s st && negb (is_positive st) && is_negative st)
            stats).
    fold (tally (fun st => from_source s st && negb (is_positive st)
                           && negb (is_negative st)) stats).
    rewrite Hp, Hn, Hu, counts_of_group_stat.
    unfold from_source, is_positive, is_negative.
    destruct (jsstring_eqb (st_source st) s); cbn [andb]; [|auto].
    destruct (add_count_fields (counts_of s grouped) (st_sentiment st) (st_count st))
      as (Ep & En & Eu).
    rewrite Ep, En, Eu.
    destruct (jsstring_eqb (st_sentiment st) POSITIVE),
             (jsstring_eqb (st_sentiment st) NEGATIVE); cbn [negb andb];
      repeat split; lia.
Qed.

Lemma counts_of_In (s : jsstring) (c : Counts) (grouped : list (jsstring * Counts)) :
  NoDup (List.map fst grouped) -> In (s, c) grouped -> counts_of s grouped = c.
Proof.
  unfold counts_of. induction grouped as [|[k c'] rest IH]; intros Hnd Hin; [destruct Hin|].
  cbn [find fst snd]. inversion Hnd as [|? ? Hk Hrest]; subst.
  destruct Hin as [E | Hin].
  - injection E as -> ->. rewrite jsstring_eqb_refl. reflexivity.
  - destruct (jsstring_eqb k s) eqn:Ek.
    + apply jsstring_eqb_eq in Ek. subst k. exfalso. apply Hk.
      apply in_map_iff. exists (s, c). auto.
    + apply IH; assumption.
Qed.

(** X11.  For statistics whose sources are words of the closed set (every row
    the worker writes has such a source), the grouping loop of the digest
    yields one entry per source that occurs, no source twice and no other
    source, and the three counts of the entry of a source are the sums of the
    counts of its rows: the positive rows, the negative rows, and all the
    others as neutral. *)
Theorem group_stats_one_entry_per_source :
  forall stats : list DailyStat,
    Forall (fun st => In (st_source st) validSources) stats ->
    NoDup (List.map fst (group_stats stats))
    /\ (forall s, In s (List.map fst (group_stats stats))
                  <-> In s (List.map st_source stats))
    /\ (forall s c,
           In (s, c) (group_stats stats) ->
           pos c = tally (fun st => from_source s st && is_positive st) stats
           /\ neg c = tally (fun st => from_source s st && negb (is_positive st)
                                       && is_negative st) stats
           /\ neu c = tally (fun st => from_source s st && negb (is_positive st)
                                       && negb (is_negative st)) stats).
Proof.
  intros stats _. unfold group_stats.
  destruct (group_stats_keys stats [] (NoDup_nil _)) as [Hnd Hin].
  split; [exact Hnd|]. split.
  - intros s. rewrite Hin. simpl. tauto.
  - intros s c Hc.
    pose proof (group_stats_counts s stats []) as H. cbn zeta in H.
    rewrite (counts_of_In s c _ Hnd Hc) in H. exact H.
Qed.

(* ================================================================== *)
(** ** Replies without a fence *)
(* ================================================================== *)

Lemma trimStart_head (s : jsstring) :
  trimStart s = []
  \/ exists c r, trimStart s = c :: r /\ is_js_whitespace c = false.
Proof.
  induction s as [|c r IH]; [left; reflexivity|]. simpl.
  destruct (is_js_whitespace c) eqn:E; [exact IH|right; eauto].
Qed.

Lemma trimEnd_cons (c : char16) (r : jsstring) :
  is_js_whitespace c = false -> trimEnd (c :: r) = c :: trimEnd r.
Proof.
  intros Hc. unfold trimEnd. cbn [rev]. rewrite trimStart_app_ws.
  destruct (all_ws (rev r)) eqn:E.
  - rewrite (trimStart_all_ws _ E). simpl. rewrite Hc. reflexivity.
  - rewrite rev_app_distr. reflexivity.
Qed.

Lemma trimEnd_idempotent (s : jsstring) : trimEnd (trimEnd s) = trimEnd s.
Proof.
  unfold trimEnd. rewrite rev_involutive. f_equal.
  destruct (trimStart_head (rev s)) as [E | (c & r & E & Hc)]; rewrite E.
  - reflexivity.
  - simpl. rewrite Hc. reflexivity.
Qed.

(** [trim] leaves a trimmed text as it is. *)
Lemma trim_idempotent (s : jsstring) : trim (trim s) = trim s.
Proof.
  unfold trim. destruct (trimStart_head s) as [E | (c & r & E & Hc)]; rewrite E.
  - reflexivity.
  - rewrite (trimEnd_cons c r Hc). cbn [trimStart]. rewrite Hc.
    rewrite (trimEnd_cons c _ Hc), trimEnd_idempotent. reflexivity.
Qed.

Lemma not_fenced_not_json_fenced (s : jsstring) :
  startsWith s FENCE = false -> startsWith s FENCE_JSON = false.
Proof.
  unfold FENCE, FENCE_JSON.
  destruct s as [|a [|b [|c s]]]; simpl; intros H; try reflexivity;
    rewrite ?andb_false_r; try reflexivity.
  destruct (a =? 96)%N; [|reflexivity]. destruct (b =? 96)%N; [|reflexivity].
  destruct (c =? 96)%N; [|reflexivity]. simpl in H.
  destruct s; discriminate H.
Qed.

(** X12.  A reply without fence markers is parsed as it is, white space around
    it apart: when the trimmed text neither starts nor ends with three
    backticks, the text handed to [JSON.parse] is the trimmed text. In every
    case that text has no white space left at either end. *)
Theorem strip_fence_without_fence :
  forall text : jsstring,
    (startsWith (trim text) (lit "```") = false ->
     endsWith (trim text) (lit "```") = false ->
     strip_fence text = trim text)
    /\ trim (strip_fence text) = strip_fence text.
Proof.
  intros text. split.
  - change (lit "```") with FENCE. intros Hs He.
    rewrite (strip_fence_from_trim text (core := trim text) eq_refl).
    rewrite (not_fenced_not_json_fenced _ Hs), Hs, He. apply trim_idempotent.
  - unfold strip_fence. apply trim_idempotent.
Qed.

(* ================================================================== *)
(** ** The validator on candidates without properties, and on its own
       output *)
(* ================================================================== *)

(** X13.  A candidate that is not [null] and has none of the properties the
    validator reads (a number, a string, a boolean, an array, the empty
    object) is not rejected: the validator returns the record of the defaults,
    with the fresh identifier and the current time. *)
Theorem validateFeedback_without_properties :
  forall (uuid now : jsstring) (data : json),
    data <> JNull ->
    (forall name, prop data name = None) ->
    validateFeedback uuid now data
    = Ok {| f_id := uuid;
            f_created_at := now;
            f_source := lit "email";
            f_source_url := None;
            f_product_area := lit "other";
            f_title := None;
            f_author := None;
            f_thread_id := None;
            f_body_text := [];
            f_sentiment := lit "neutral";
            f_urgency := lit "medium";
            f_tags := [];
            f_confidence := None |}.
Proof.
  intros uuid now data Hnn Hnone. unfold validateFeedback, body_candidate.
  rewrite !Hnone. destruct data; [contradiction| | | | |]; reflexivity.
Qed.

Lemma obj_get_app (k : jsstring) (l1 l2 : list (jsstring * json)) :
  obj_get k (l1 ++ l2)
  = match obj_get k l1 with
    | Some v => Some v
    | None => obj_get k l2
    end.
Proof.
  induction l1 as [|[k' v] l1 IH]; [reflexivity|]. simpl.
  destruct (jsstring_eqb k' k); [reflexivity|exact IH].
Qed.

Lemma obj_get_defined_text (k name : jsstring) (s : option jsstring) :
  obj_get k (defined_text name s)
  = if jsstring_eqb name k then option_map JStr s else None.
Proof. destruct s; simpl; destruct (jsstring_eqb name k); reflexivity. Qed.

(** Reading the properties of a record back. *)
Ltac read_feedback :=
  unfold feedback_value; cbn [prop];
  repeat (rewrite obj_get_app; cbn [obj_get]);
  rewrite ?obj_get_defined_text;
  repeat match goal with
         | |- context [jsstring_eqb ?a ?b] =>
             let r := eval vm_compute in (jsstring_eqb a b) in
             change (jsstring_eqb a b) with r
         end;
  cbv iota.

Lemma feedback_value_scalars (feedback : Feedback) :
  prop (feedback_value feedback) K_id = Some (JStr (f_id feedback))
  /\ prop (feedback_value feedback) K_created_at = Some (JStr (f_created_at feedback))
  /\ prop (feedback_value feedback) K_source = Some (JStr (f_source feedback))
  /\ prop (feedback_value feedback) K_product_area
     = Some (JStr (f_product_area feedback))
  /\ prop (feedback_value feedback) K_sentiment = Some (JStr (f_sentiment feedback))
  /\ prop (feedback_value feedback) K_urgency = Some (JStr (f_urgency feedback))
  /\ prop (feedback_value feedback) K_body_text = Some (JStr (f_body_text feedback))
  /\ prop (feedback_value feedback) K_tags = Some (tags_value (f_tags feedback)).
Proof. repeat split; read_feedback; reflexivity. Qed.

Lemma feedback_value_optionals (feedback : Feedback) :
  prop (feedback_value feedback) K_source_url
  = option_map JStr (f_source_url feedback)
  /\ prop (feedback_value feedback) K_title = option_map JStr (f_title feedback)
  /\ prop (feedback_value feedback) K_author = option_map JStr (f_author feedback)
  /\ prop (feedback_value feedback) K_thread_id
     = option_map JStr (f_thread_id feedback)
  /\ prop (feedback_value feedback) K_confidence
     = option_map confidence_value (f_confidence feedback).
Proof.
  repeat split; read_feedback;
    repeat match goal with
           | |- context [option_map JStr ?x] => destruct x; cbn [option_map]
           end;
    try reflexivity; destruct (f_confidence feedback); reflexivity.
Qed.

Lemma string_items_of_tags (tags : list jsstring) :
  flat_map (fun t => match t with JStr s => [s] | _ => [] end) (List.map JStr tags)
  = tags.
Proof. induction tags as [|t tags IH]; simpl; [reflexivity|]. rewrite IH. reflexivity. Qed.

Lemma confidence_value_scores (c : FeedbackConfidence) :
  {| c_product_area := number_or_undefined (prop (confidence_value c) K_product_area);
     c_sentiment := number_or_undefined (prop (confidence_value c) K_sentiment);
     c_urgency := number_or_undefined (prop (confidence_value c) K_urgency) |} = c.
Proof. destruct c as [[p|] [s|] [u|]]; reflexivity. Qed.

Lemma feedback_value_body (feedback : Feedback) :
  String_of (body_candidate (feedback_value feedback)) = Ok (f_body_text feedback).
Proof.
  destruct (feedback_value_scalars feedback) as (_ & _ & _ & _ & _ & _ & Ebo & _).
  assert (Ec : prop (feedback_value feedback) K_content = None)
    by (read_feedback; destruct (f_confidence feedback); reflexivity).
  assert (Eb : prop (feedback_value feedback) K_body = None)
    by (read_feedback; destruct (f_confidence feedback); reflexivity).
  assert (Et : prop (feedback_value feedback) K_text = None)
    by (read_feedback; destruct (f_confidence feedback); reflexivity).
  unfold body_candidate. rewrite Ebo, Ec, Eb, Et.
  destruct (f_body_text feedback); reflexivity.
Qed.

Lemma String_of_text_or (s fallback : jsstring) :
  s <> [] -> String_of (js_or (Some (JStr s)) (Some (JStr fallback))) = Ok s.
Proof. destruct s; [contradiction|reflexivity]. Qed.

(** A record whose identifier and timestamp are not empty and whose four
    closed-set fields are legal is a fixed point of the validator. *)
Lemma validateFeedback_feedback_value (uuid now : jsstring) (feedback : Feedback) :
  f_id feedback <> [] ->
  f_created_at feedback <> [] ->
  In (f_source feedback) validSources ->
  In (f_product_area feedback) validProductAreas ->
  In (f_sentiment feedback) validSentiments ->
  In (f_urgency feedback) validUrgencies ->
  validateFeedback uuid now (feedback_value feedback) = Ok feedback.
Proof.
  intros Hid Hcr Hs Hp Hse Hu.
  destruct (feedback_value_scalars feedback)
    as (Eid & Ecr & Eso & Epa & Ese & Eur & _ & Eta).
  destruct (feedback_value_optionals feedback) as (Eurl & Eti & Eau & Eth & Eco).
  unfold validateFeedback.
  change (match feedback_value feedback with
          | JNull => Throw TypeError
          | _ => ?x
          end) with x.
  rewrite feedback_value_body, Eid, Ecr, Eso, Epa, Ese, Eur, Eta, Eurl, Eti, Eau, Eth, Eco.
  rewrite !member_or_keeps by assumption.
  rewrite (String_of_text_or _ uuid Hid), (String_of_text_or _ now Hcr).
  unfold tags_value. rewrite string_items_of_tags. cbn [bind].
  destruct feedback as [id created source url area title author thread body
                          sentiment urgency tags confidence].
  cbn [f_id f_created_at f_source f_source_url f_product_area f_title f_author
       f_thread_id f_body_text f_sentiment f_urgency f_tags f_confidence].
  destruct url, title, author, thread; cbn [option_map string_or_undefined];
    (destruct confidence as [c|]; cbn [option_map];
     [rewrite <- (confidence_value_scores c) at 2; reflexivity|reflexivity]).
Qed.

(** X14.  Validating a validated record changes nothing: when the validator
    has returned a record whose identifier and timestamp are not empty, the
    validator run on that record as a value returns the same record, whatever
    fresh identifier and time it is given. *)
Theorem validateFeedback_idempotent :
  forall (uuid now uuid' now' : jsstring) (data : json) (feedback : Feedback),
    validateFeedback uuid now data = Ok feedback ->
    f_id feedback <> [] ->
    f_created_at feedback <> [] ->
    validateFeedback uuid' now' (feedback_value feedback) = Ok feedback.
Proof.
  intros uuid now uuid' now' data feedback H Hid Hcr.
  apply validateFeedback_Ok in H.
  destruct H as (_ & _ & _ & _ & Hs & Hp & Hse & Hu).
  apply validateFeedback_feedback_value; try assumption.
  - rewrite Hs. apply member_or_in. simpl. tauto.
  - rewrite Hp. apply member_or_in. simpl. tauto.
  - rewrite Hse. apply member_or_in. simpl. tauto.
  - rewrite Hu. apply member_or_in. simpl. tauto.
Qed.

(* ================================================================== *)
(** ** Keys: no collision, and the listing prefixes *)
(* ================================================================== *)

Lemma slash_free_cons (c : char16) (s : jsstring) :
  slash_free (c :: s) = true -> c <> 47%N /\ slash_free s = true.
Proof.
  cbn [slash_free forallb]. intros H. apply andb_true_iff in H.
  destruct H as [Hc H]. apply negb_true_iff, N.eqb_neq in Hc. auto.
Qed.

(** Two texts without a slash, each followed by a slash: equal wholes have
    equal parts. *)
Lemma split_at_slash (a b x y : jsstring) :
  slash_free a = true -> slash_free b = true ->
  a ++ 47%N :: x = b ++ 47%N :: y -> a = b /\ x = y.
Proof.
  revert b. induction a as [|c a IH]; intros [|d b] Ha Hb E; cbn [app] in E.
  - injection E as ->. auto.
  - apply slash_free_cons in Hb. destruct Hb as [Hd _]. congruence.
  - apply slash_free_cons in Ha. destruct Ha as [Hc _]. congruence.
  - apply slash_free_cons in Ha. apply slash_free_cons in Hb.
    injection E as -> E. destruct (IH b (proj2 Ha) (proj2 Hb) E) as [-> ->]. auto.
Qed.

Lemma startsWith_at_slash (a b x y : jsstring) :
  slash_free a = true -> slash_free b = true ->
  (startsWith (a ++ 47%N :: x) (b ++ 47%N :: y) = true
   <-> a = b /\ startsWith x y = true).
Proof.
  revert b. induction a as [|c a IH]; intros [|d b] Ha Hb; cbn [app startsWith].
  - rewrite N.eqb_refl. cbn [andb]. tauto.
  - apply slash_free_cons in Hb. destruct Hb as [Hd _].
    replace (47 =? d)%N with false by (symmetry; apply N.eqb_neq; congruence).
    cbn [andb]. split; [discriminate|intros [E _]; discriminate E].
  - apply slash_free_cons in Ha. destruct Ha as [Hc _].
    replace (c =? 47)%N with false by (symmetry; apply N.eqb_neq; congruence).
    cbn [andb]. split; [discriminate|intros [E _]; discriminate E].
  - apply slash_free_cons in Ha. apply slash_free_cons in Hb.
    rewrite andb_true_iff, (IH b (proj2 Ha) (proj2 Hb)), N.eqb_eq.
    split.
    + intros [-> [-> H]]. auto.
    + intros [E H]. injection E as -> ->. auto.
Qed.

Lemma startsWith_same_head (p a b : jsstring) :
  startsWith (p ++ a) (p ++ b) = startsWith a b.
Proof.
  induction p as [|c p IH]; [reflexivity|]. cbn [app startsWith].
  rewrite N.eqb_refl. exact IH.
Qed.

Lemma valid_source_slash_free (s : jsstring) :
  In s validSources -> slash_free s = true.
Proof.
  intros H. repeat (destruct H as [<- | H]; [reflexivity|]). destruct H.
Qed.

Lemma calendar_day_slash_free (d : jsstring) :
  is_calendar_day d = true -> slash_free d = true.
Proof.
  intros H. unfold is_calendar_day in H.
  destruct d as [|y1 [|y2 [|y3 [|y4 [|h1 [|m1 [|m2 [|h2 [|d1 [|d2 [|]]]]]]]]]]];
    try discriminate H.
  cbn [forallb] in H. rewrite !andb_true_iff in H.
  destruct H as [[(D1 & D2 & D3 & D4 & D5 & D6 & D7 & D8 & _) H1] H2].
  apply N.eqb_eq in H1. apply N.eqb_eq in H2. subst h1 h2.
  assert (Hd : forall c, is_digit c = true -> negb (c =? 47)%N = true).
  { intros c Hc. unfold is_digit in Hc. apply andb_true_iff in Hc.
    destruct Hc as [Hc _]. apply N.leb_le in Hc.
    apply negb_true_iff, N.eqb_neq. lia. }
  cbn [slash_free forallb].
  rewrite (Hd _ D1), (Hd _ D2), (Hd _ D3), (Hd _ D4), (Hd _ D5), (Hd _ D6),
    (Hd _ D7), (Hd _ D8). reflexivity.
Qed.

Lemma getFeedbackR2Key_parts (feedback : Feedback) :
  getFeedbackR2Key feedback
  = KEY_PREFIX
      ++ date_portion (f_created_at feedback)
      ++ 47%N :: lit "source="
      ++ f_source feedback ++ 47%N :: f_id feedback ++ KEY_SUFFIX.
Proof. reflexivity. Qed.

(** X15.  Keys do not collide: for two records whose date portion has no slash
    (a calendar day has none) and whose source is a word of the closed set (as
    the validator guarantees), the keys are equal exactly when the date
    portions, the sources and the identifiers are. *)
Theorem getFeedbackR2Key_injective :
  forall f1 f2 : Feedback,
    slash_free (date_portion (f_created_at f1)) = true ->
    slash_free (date_portion (f_created_at f2)) = true ->
    In (f_source f1) validSources ->
    In (f_source f2) validSources ->
    (getFeedbackR2Key f1 = getFeedbackR2Key f2
     <-> date_portion (f_created_at f1) = date_portion (f_created_at f2)
         /\ f_source f1 = f_source f2
         /\ f_id f1 = f_id f2).
Proof.
  intros f1 f2 Hd1 Hd2 Hs1 Hs2. rewrite !getFeedbackR2Key_parts. split.
  - intros E. apply app_inv_head in E.
    destruct (split_at_slash _ _ _ _ Hd1 Hd2 E) as [Ed E1].
    apply app_inv_head in E1.
    destruct (split_at_slash _ _ _ _ (valid_source_slash_free _ Hs1)
                (valid_source_slash_free _ Hs2) E1) as [Es E2].
    apply app_inv_tail in E2. auto.
  - intros (-> & -> & ->). reflexivity.
Qed.

(** X16.  The key of a record lies under the prefixes [listFeedbackForDate]
    lists for the date portion of the record, with or without its source; and
    for a calendar day and a word of the closed set, the key of a validated
    record with a slash-free date portion lies under the prefix of that day
    exactly when the day is its date portion, and under the prefix of that day
    and source exactly when the source is its source too. Listing with an
    empty source lists the whole day. *)
Theorem getFeedbackR2Key_under_listing_prefix :
  forall feedback : Feedback,
    startsWith (getFeedbackR2Key feedback)
      (listing_prefix (date_portion (f_created_at feedback)) None) = true
    /\ startsWith (getFeedbackR2Key feedback)
         (listing_prefix (date_portion (f_created_at feedback))
            (Some (f_source feedback))) = true
    /\ (forall (env : Services) date,
           listFeedbackForDate env date (Some []) = listFeedbackForDate env date None)
    /\ (forall day source,
           is_calendar_day day = true ->
           In source validSources ->
           slash_free (date_portion (f_created_at feedback)) = true ->
           In (f_source feedback) validSources ->
           (startsWith (getFeedbackR2Key feedback) (listing_prefix day None) = true
            <-> date_portion (f_created_at feedback) = day)
           /\ (startsWith (getFeedbackR2Key feedback)
                 (listing_prefix day (Some source)) = true
               <-> date_portion (f_created_at feedback) = day
                   /\ f_source feedback = source)).
Proof.
  intros feedback.
  assert (Hday : forall day,
             slash_free day = true ->
             slash_free (date_portion (f_created_at feedback)) = true ->
             (startsWith (getFeedbackR2Key feedback) (listing_prefix day None) = true
              <-> date_portion (f_created_at feedback) = day)).
  { intros day Hd Hf. rewrite getFeedbackR2Key_parts. cbn [listing_prefix].
    rewrite startsWith_same_head.
    change [47%N] with (47%N :: []).
    rewrite (startsWith_at_slash _ _ _ _ Hf Hd), startsWith_nil. tauto. }
  assert (Hsrc : forall day source,
             slash_free day = true -> slash_free source = true -> source <> [] ->
             slash_free (date_portion (f_created_at feedback)) = true ->
             slash_free (f_source feedback) = true ->
             (startsWith (getFeedbackR2Key feedback)
                (listing_prefix day (Some source)) = true
              <-> date_portion (f_created_at feedback) = day
                  /\ f_source feedback = source)).
  { intros day source Hd Hs Hne Hf Hfs. rewrite getFeedbackR2Key_parts.
    destruct source as [|c source]; [contradiction|]. cbn [listing_prefix].
    rewrite startsWith_same_head.
    change (KEY_SOURCE ++ (c :: source) ++ [47%N])
      with (47%N :: lit "source=" ++ (c :: source) ++ 47%N :: []).
    rewrite (startsWith_at_slash _ _ _ _ Hf Hd), startsWith_same_head.
    rewrite (startsWith_at_slash _ _ _ _ Hfs Hs), startsWith_nil. tauto. }
  split; [|split; [|split; [reflexivity|]]].
  - replace (getFeedbackR2Key feedback)
      with (listing_prefix (date_portion (f_created_at feedback)) None
              ++ lit "source=" ++ f_source feedback ++ [47%N] ++ f_id feedback
              ++ KEY_SUFFIX).
    + apply startsWith_app.
    + cbn [listing_prefix]. rewrite <- !app_assoc. reflexivity.
  - destruct (f_source feedback) as [|c s] eqn:Es.
    + replace (getFeedbackR2Key feedback)
        with (listing_prefix (date_portion (f_created_at feedback)) (Some [])
                ++ lit "source=" ++ f_source feedback ++ [47%N] ++ f_id feedback
                ++ KEY_SUFFIX).
      * apply startsWith_app.
      * cbn [listing_prefix]. rewrite <- !app_assoc. reflexivity.
    + replace (getFeedbackR2Key feedback)
        with (listing_prefix (date_portion (f_created_at feedback)) (Some (c :: s))
                ++ f_id feedback ++ KEY_SUFFIX).
      * apply startsWith_app.
      * cbn [listing_prefix]. unfold getFeedbackR2Key. rewrite Es.
        rewrite <- !app_assoc. reflexivity.
  - intros day source Hcal Hsource Hf Hfs.
    pose proof (calendar_day_slash_free _ Hcal) as Hd. split.
    + apply Hday; assumption.
    + apply Hsrc; try assumption.
      * apply valid_source_slash_free, Hsource.
      * intros ->. repeat (destruct Hsource as [E | Hsource]; [discriminate E|]).
        destruct Hsource.
      * apply valid_source_slash_free, Hfs.
Qed.

(* ================================================================== *)
(** ** Rows that cannot be read *)
(* ================================================================== *)

Lemma parse_column_cases (column : option jsstring) (fallback : jsval) :
  (unreadable column = true /\ parse_column column fallback = Throw SyntaxError)
  \/ (unreadable column = false
      /\ exists v, parse_column column fallback = Ok v
                   /\ (blank column = true -> v = fallback)
                   /\ (blank column = false ->
                       exists text parsed,
                         column = Some text /\ JSON_parse text = Some parsed
                         /\ v = Some parsed)).
Proof.
  destruct column as [[|c t]|]; cbn [unreadable blank parse_column].
  - right. split; [reflexivity|]. eexists. split; [reflexivity|].
    split; [reflexivity|discriminate].
  - destruct (JSON_parse (c :: t)) as [v|] eqn:E.
    + right. split; [reflexivity|]. eexists. split; [reflexivity|].
      split; [discriminate|]. intros _. eauto.
    + left. auto.
  - right. split; [reflexivity|]. eexists. split; [reflexivity|].
    split; [reflexivity|discriminate].
Qed.

(** X17.  [rowToFeedback] fails exactly when one of the two JSON columns holds
    a text that is not empty and is not JSON, and then with the [SyntaxError]
    of [JSON.parse]. Otherwise it returns a record with the scalar columns as
    they are, the parsed value of each JSON column, and for a column that is
    [NULL] or empty the empty array for the tags and [undefined] for the
    confidence. *)
Theorem rowToFeedback_fails_on_unreadable_column :
  forall row : FeedbackRow,
    if unreadable (r_tags_json row) || unreadable (r_confidence_json row)
    then rowToFeedback row = Throw SyntaxError
    else
      exists tags confidence,
        rowToFeedback row
        = Ok {| l_id := r_id row;
                l_created_at := r_created_at row;
                l_source := r_source row;
                l_source_url := r_source_url row;
                l_product_area := r_product_area row;
                l_title := r_title row;
                l_author := r_author row;
                l_thread_id := r_thread_id row;
                l_body_text := r_body_text row;
                l_sentiment := r_sentiment row;
                l_urgency := r_urgency row;
                l_tags := tags;
                l_confidence := confidence;
                l_r2_key := r_r2_key row |}
        /\ (if blank (r_tags_json row) then tags = JArr []
            else exists text, r_tags_json row = Some text
                              /\ JSON_parse text = Some tags)
        /\ (if blank (r_confidence_json row) then confidence = None
            else exists text parsed,
                   r_confidence_json row = Some text
                   /\ JSON_parse text = Some parsed
                   /\ confidence = Some parsed).
Proof.
  intros row. unfold rowToFeedback.
  destruct (parse_column_cases (r_tags_json row) (Some (JArr [])))
    as [[Ut Et] | (Ut & vt & Et & Bt & Pt)]; rewrite Ut, Et; cbn [orb bind];
    [reflexivity|].
  destruct (parse_column_cases (r_confidence_json row) None)
    as [[Uc Ec] | (Uc & vc & Ec & Bc & Pc)]; rewrite Uc, Ec; cbn [bind];
    [reflexivity|].
  do 2 eexists. split; [reflexivity|]. split.
  - destruct (blank (r_tags_json row)).
    + rewrite (Bt eq_refl). reflexivity.
    + destruct (Pt eq_refl) as (text & parsed & E1 & E2 & ->). eauto.
  - destruct (blank (r_confidence_json row)).
    + apply Bc. reflexivity.
    + destruct (Pc eq_refl) as (text & parsed & E1 & E2 & ->). eauto.
Qed.

(* ================================================================== *)
(** ** The interactions endpoint *)
(* ================================================================== *)

(** When the command name can be computed, and what it is. *)
Lemma commandName_cases (toLowerCase : jsstring -> jsstring) (interaction : json) :
  match commandName toLowerCase interaction with
  | Throw e =>
      e = TypeError
      /\ (interaction = JNull
          \/ exists data,
               prop interaction (lit "data") = Some data
               /\ name_readable (prop data (lit "name")) = false)
  | Ok None =>
      interaction <> JNull
      /\ forall data,
           prop interaction (lit "data") = Some data ->
           prop data (lit "name") = None \/ prop data (lit "name") = Some JNull
  | Ok (Some command) =>
      interaction <> JNull
      /\ exists data name,
           prop interaction (lit "data") = Some data
           /\ prop data (lit "name") = Some (JStr name)
           /\ command = toLowerCase name
  end.
Proof.
  change (lit "data") with K_data. change (lit "name") with K_name.
  unfold commandName.
  destruct interaction as [|b|x|s|items|props]; [split; auto| | | | |];
    try (cbn [prop]; split; [discriminate|intros data H; discriminate H]).
  destruct (prop (JObj props) K_data) as [data|] eqn:Ed.
  2:{ split; [discriminate|intros data H; discriminate H]. }
  destruct data as [|b|x|s|items|dprops];
    try (split; [discriminate|];
         intros data H; injection H as <-; cbn [prop]; auto).
  destruct (prop (JObj dprops) K_name) as [[|b|x|name|items|nprops]|] eqn:En.
  - split; [discriminate|]. intros data H. injection H as <-.
    rewrite En. auto.
  - split; [reflexivity|]. right. exists (JObj dprops). rewrite En. auto.
  - split; [reflexivity|]. right. exists (JObj dprops). rewrite En. auto.
  - split; [discriminate|]. exists (JObj dprops), name. auto.
  - split; [reflexivity|]. right. exists (JObj dprops). rewrite En. auto.
  - split; [reflexivity|]. right. exists (JObj dprops). rewrite En. auto.
  - split; [discriminate|]. intros data H. injection H as <-.
    rewrite En. auto.
Qed.

Lemma type_is_number (equals : number -> N -> bool) (interaction : json) (k : N) :
  type_is equals interaction k = true
  <-> exists x, prop interaction (lit "type") = Some (JNum x) /\ equals x k = true.
Proof.
  change (lit "type") with K_type. unfold type_is.
  destruct (prop interaction K_type) as [[|b|x|s|items|props]|];
    try (split; [discriminate|intros [x [H _]]; discriminate H]).
  split.
  - intros H. exists x. auto.
  - intros [y [H Hy]]. injection H as ->. exact Hy.
Qed.

(** X18.  The command handlers are reached for commands only. The endpoint
    hands an interaction to [handleAskCommand] exactly when the body is JSON,
    its [type] is a number that is 2 and not 1, and its [data] has a [name]
    that is a string whose lower case is [ask]; to [handleDigestCommand]
    exactly when the same holds with [digest]; and the interaction handed over
    is the parsed body as it is. No other request reaches a command handler: a
    PING does not, even when its [data] names a command. *)
Theorem handleDiscordInteraction_commands_only :
  forall (toLowerCase : jsstring -> jsstring) (equals : number -> N -> bool)
         (requestBody : jsstring) (interaction : json),
    (handleDiscordInteraction toLowerCase equals requestBody
     = Ok (ToAskCommand interaction)
     <-> JSON_parse requestBody = Some interaction
         /\ type_is equals interaction 1 = false
         /\ (exists x, prop interaction (lit "type") = Some (JNum x)
                       /\ equals x 2%N = true)
         /\ exists data name,
              prop interaction (lit "data") = Some data
              /\ prop data (lit "name") = Some (JStr name)
              /\ toLowerCase name = lit "ask")
    /\ (handleDiscordInteraction toLowerCase equals requestBody
        = Ok (ToDigestCommand interaction)
        <-> JSON_parse requestBody = Some interaction
            /\ type_is equals interaction 1 = false
            /\ (exists x, prop interaction (lit "type") = Some (JNum x)
                          /\ equals x 2%N = true)
            /\ exists data name,
                 prop interaction (lit "data") = Some data
                 /\ prop data (lit "name") = Some (JStr name)
                 /\ toLowerCase name = lit "digest").
Proof.
  intros toLowerCase equals requestBody interaction.
  rewrite <- !type_is_number.
  change (lit "ask") with ASK. change (lit "digest") with DIGEST.
  unfold handleDiscordInteraction.
  destruct (JSON_parse requestBody) as [received|].
  2:{ split; (split; [discriminate|intros [H _]; discriminate H]). }
  pose proof (commandName_cases toLowerCase received) as Hname.
  destruct (commandName toLowerCase received) as [[command|]|e]; cbn [bind].
  - destruct Hname as (_ & data & name & Hd & Hn & ->).
    assert (Hthe : forall data' name',
               prop received (lit "data") = Some data' ->
               prop data' (lit "name") = Some (JStr name') -> name' = name).
    { intros data' name' Hd' Hn'. rewrite Hd in Hd'. injection Hd' as <-.
      rewrite Hn in Hn'. injection Hn' as <-. reflexivity. }
    change (APPLICATION_COMMAND) with 2%N. change PING with 1%N.
    destruct (type_is equals received 1) eqn:E1.
    { split; (split; [discriminate|]).
      - intros (H & H1 & _). injection H as <-. congruence.
      - intros (H & H1 & _). injection H as <-. congruence. }
    destruct (type_is equals received 2) eqn:E2.
    2:{ split; (split; [discriminate|]).
        - intros (H & _ & H2 & _). injection H as <-. congruence.
        - intros (H & _ & H2 & _). injection H as <-. congruence. }
    destruct (jsstring_eqb (toLowerCase name) ASK) eqn:Eask.
    { apply jsstring_eqb_eq in Eask. split; split.
      - intros H. injection H as <-. split; [reflexivity|]. split; [exact E1|].
        split; [exact E2|]. exists data, name. auto.
      - intros (H & _). injection H as <-. reflexivity.
      - discriminate.
      - intros (H & _ & _ & data' & name' & Hd' & Hn' & Hlow). injection H as <-.
        rewrite (Hthe _ _ Hd' Hn'), Eask in Hlow. discriminate Hlow. }
    destruct (jsstring_eqb (toLowerCase name) DIGEST) eqn:Edig.
    { apply jsstring_eqb_eq in Edig. split; split.
      - discriminate.
      - intros (H & _ & _ & data' & name' & Hd' & Hn' & Hlow). injection H as <-.
        rewrite (Hthe _ _ Hd' Hn') in Hlow. rewrite Hlow, jsstring_eqb_refl in Eask.
        discriminate Eask.
      - intros H. injection H as <-. split; [reflexivity|]. split; [exact E1|].
        split; [exact E2|]. exists data, name. auto.
      - intros (H & _). injection H as <-. reflexivity. }
    split; (split; [discriminate|]).
    + intros (H & _ & _ & data' & name' & Hd' & Hn' & Hlow). injection H as <-.
      rewrite (Hthe _ _ Hd' Hn') in Hlow. rewrite Hlow, jsstring_eqb_refl in Eask.
      discriminate Eask.
    + intros (H & _ & _ & data' & name' & Hd' & Hn' & Hlow). injection H as <-.
      rewrite (Hthe _ _ Hd' Hn') in Hlow. rewrite Hlow, jsstring_eqb_refl in Edig.
      discriminate Edig.
  - destruct Hname as [_ Hnone].
    destruct (type_is equals received PING);
      [|destruct (type_is equals received APPLICATION_COMMAND)];
      (split; (split; [discriminate|]);
       intros (H & _ & _ & data & name & Hd & Hn & _); injection H as <-;
       exfalso; destruct (Hnone data Hd) as [Hx | Hx]; rewrite Hn in Hx;
       discriminate Hx).
  - split; (split; [discriminate|]);
      intros (H & _ & H2 & data & name & Hd & Hn & _); injection H as <-.
    + destruct Hname as [_ [-> | (data' & Hd' & Hr)]].
      * discriminate H2.
      * rewrite Hd in Hd'. injection Hd' as <-. rewrite Hn in Hr. discriminate Hr.
    + destruct Hname as [_ [-> | (data' & Hd' & Hr)]].
      * discriminate H2.
      * rewrite Hd in Hd'. injection Hd' as <-. rewrite Hn in Hr. discriminate Hr.
Qed.

(** X19.  The replies the endpoint gives on the spot, and when it fails. A
    body that is not JSON is answered with the plain text [Bad Request] and
    status 400. The endpoint fails, with a type error, exactly when the body
    is [null] or its [data] has a [name] that is neither [null] nor a string:
    the name is put in lower case before the type is looked at, so that even a
    PING fails then. Otherwise a PING (type 1) gets the PONG; a command (type
    2) without a name, or with a name that in lower case is neither [ask] nor
    [digest], gets the ephemeral message [Unknown command: ] followed by that
    name, [undefined] when there is none; and any other type gets the
    ephemeral message [Unsupported interaction type]. All of these have status
    200. *)
Theorem handleDiscordInteraction_immediate_replies :
  forall (toLowerCase : jsstring -> jsstring) (equals : number -> N -> bool)
         (requestBody : jsstring),
    (JSON_parse requestBody = None ->
     handleDiscordInteraction toLowerCase equals requestBody
     = Ok (Answer (TextResponse 400 (lit "Bad Request"))))
    /\ (forall e,
           handleDiscordInteraction toLowerCase equals requestBody = Throw e
           <-> e = TypeError
               /\ exists interaction,
                    JSON_parse requestBody = Some interaction
                    /\ (interaction = JNull
                        \/ exists data,
                             prop interaction (lit "data") = Some data
                             /\ name_readable (prop data (lit "name")) = false))
    /\ (forall interaction name,
           JSON_parse requestBody = Some interaction ->
           commandName toLowerCase interaction = Ok name ->
           (type_is equals interaction 1 = true ->
            handleDiscordInteraction toLowerCase equals requestBody
            = Ok (Answer
                    (JsonResponse
                       {| status := 200;
                          body := InteractionBody {| ir_type := 1; ir_data := None |} |})))
           /\ (type_is equals interaction 1 = false ->
               type_is equals interaction 2 = false ->
               handleDiscordInteraction toLowerCase equals requestBody
               = Ok (Answer
                       (JsonResponse
                          {| status := 200;
                             body :=
                               InteractionBody
                                 (createEphemeralResponse
                                    (lit "Unsupported interaction type")) |})))
           /\ (type_is equals interaction 1 = false ->
               type_is equals interaction 2 = true ->
               name = None ->
               handleDiscordInteraction toLowerCase equals requestBody
               = Ok (Answer
                       (JsonResponse
                          {| status := 200;
                             body :=
                               InteractionBody
                                 (createEphemeralResponse
                                    (lit "Unknown command: undefined")) |})))
           /\ (forall command,
                  type_is equals interaction 1 = false ->
                  type_is equals interaction 2 = true ->
                  name = Some command ->
                  command <> lit "ask" ->
                  command <> lit "digest" ->
                  handleDiscordInteraction toLowerCase equals requestBody
                  = Ok (Answer
                          (JsonResponse
                             {| status := 200;
                                body :=
                                  InteractionBody
                                    (createEphemeralResponse
                                       (lit "Unknown command: " ++ command)) |})))).
Proof.
  intros toLowerCase equals requestBody. unfold handleDiscordInteraction.
  split; [intros ->; reflexivity|]. split.
  - intros e. destruct (JSON_parse requestBody) as [received|].
    2:{ split; [discriminate|intros [_ [i [H _]]]; discriminate H]. }
    pose proof (commandName_cases toLowerCase received) as Hname.
    destruct (commandName toLowerCase received) as [[command|]|e0]; cbn [bind].
    +       split.
      * intros H. exfalso.
        destruct (type_is equals received PING); [discriminate H|].
        destruct (type_is equals received APPLICATION_COMMAND); [|discriminate H].
        destruct (jsstring_eqb command ASK); [discriminate H|].
        destruct (jsstring_eqb command DIGEST); discriminate H.
      * intros [_ [i [H Hbad]]]. injection H as <-. exfalso.
        destruct Hname as (Hnn & data & name & Hd & Hn & _).
        destruct Hbad as [-> | (data' & Hd' & Hr)]; [exact (Hnn eq_refl)|].
        rewrite Hd in Hd'. injection Hd' as <-. rewrite Hn in Hr. discriminate Hr.
    + split.
      * intros H. exfalso.
        destruct (type_is equals received PING); [discriminate H|].
        destruct (type_is equals received APPLICATION_COMMAND); discriminate H.
      * intros [_ [i [H Hbad]]]. injection H as <-. exfalso.
        destruct Hname as (Hnn & Hnone).
        destruct Hbad as [-> | (data' & Hd' & Hr)]; [exact (Hnn eq_refl)|].
        destruct (Hnone data' Hd') as [Hx | Hx]; rewrite Hx in Hr; discriminate Hr.
    + destruct Hname as [-> Hbad]. split.
      * intros H. injection H as <-. split; [reflexivity|]. exists received. auto.
      * intros [-> _]. reflexivity.
  - intros interaction name Hparse Hname. rewrite Hparse, Hname. cbn [bind].
    change PING with 1%N. change APPLICATION_COMMAND with 2%N.
    split; [intros ->; reflexivity|]. split; [intros -> ->; reflexivity|].
    split; [intros -> -> ->; reflexivity|].
    intros command -> -> -> Hask Hdig.
    destruct (jsstring_eqb command ASK) eqn:E1;
      [apply jsstring_eqb_eq in E1; contradiction|].
    destruct (jsstring_eqb command DIGEST) eqn:E2;
      [apply jsstring_eqb_eq in E2; contradiction|].
    reflexivity.
Qed.

(* ================================================================== *)
(** ** What each error of the normalization means *)
(* ================================================================== *)

Lemma js_String_error (v : json) (e : js_error) :
  js_String v = Throw e -> e = TypeError.
Proof.
  revert e.
  induction v as [| b | n | s | items IH | props IH] using json_nested_ind;
    intros e; cbn [js_String]; try discriminate.
  - destruct b; discriminate.
  - assert (Heach : forall e',
               (fix each (l : list json) : result (list jsstring) :=
                  match l with
                  | [] => Ok []
                  | x :: r =>
                      a <- match x with JNull => Ok [] | _ => js_String x end ;;
                      b <- each r ;;
                      Ok (a :: b)
                  end) items = Throw e' -> e' = TypeError).
    { induction IH as [|x l Hx Hl IHl]; intros e'; [discriminate|].
      destruct (match x with JNull => Ok [] | _ => js_String x end) as [a|ex] eqn:Ex.
      - cbn [bind].
        destruct ((fix each (l : list json) : result (list jsstring) :=
                     match l with
                     | [] => Ok []
                     | x :: r =>
                         a <- match x with JNull => Ok [] | _ => js_String x end ;;
                         b <- each r ;;
                         Ok (a :: b)
                     end) l) as [b|el] eqn:El; cbn [bind]; [discriminate|].
        intros H. injection H as <-. apply IHl. reflexivity.
      - cbn [bind]. intros H. injection H as <-.
        destruct x; try discriminate Ex; apply Hx, Ex. }
    destruct ((fix each (l : list json) : result (list jsstring) :=
                 match l with
                 | [] => Ok []
                 | x :: r =>
                     a <- match x with JNull => Ok [] | _ => js_String x end ;;
                     b <- each r ;;
                     Ok (a :: b)
                 end) items) as [parts|e'] eqn:E; cbn [bind]; [discriminate|].
    intros H. injection H as <-. apply Heach. reflexivity.
  - destruct (obj_get (lit "toString") props); [|discriminate].
    intros H. injection H as <-. reflexivity.
Qed.

Lemma String_of_error (v : jsval) (e : js_error) :
  String_of v = Throw e -> e = TypeError.
Proof. destruct v as [j|]; [apply js_String_error|discriminate]. Qed.

(** The validator throws nothing but a [TypeError]. *)
Lemma validateFeedback_error (uuid now : jsstring) (data : json) (e : js_error) :
  validateFeedback uuid now data = Throw e -> e = TypeError.
Proof.
  unfold validateFeedback.
  assert (Hgen :
    (id <- String_of (js_or (prop data K_id) (Some (JStr uuid))) ;;
     created_at <- String_of (js_or (prop data K_created_at) (Some (JStr now))) ;;
     body_text <- String_of (body_candidate data) ;;
     Ok {| f_id := id;
           f_created_at := created_at;
           f_source := member_or validSources DEFAULT_SOURCE (prop data K_source);
           f_source_url := string_or_undefined (prop data K_source_url);
           f_product_area :=
             member_or validProductAreas DEFAULT_PRODUCT_AREA (prop data K_product_area);
           f_title := string_or_undefined (prop data K_title);
           f_author := string_or_undefined (prop data K_author);
           f_thread_id := string_or_undefined (prop data K_thread_id);
           f_body_text := body_text;
           f_sentiment :=
             member_or validSentiments DEFAULT_SENTIMENT (prop data K_sentiment);
           f_urgency := member_or validUrgencies DEFAULT_URGENCY (prop data K_urgency);
           f_tags :=
             match prop data K_tags with
             | Some (JArr items) =>
                 flat_map (fun t => match t with JStr s => [s] | _ => [] end) items
             | _ => []
             end;
           f_confidence :=
             match prop data K_confidence with
             | Some ((JObj _ | JArr _) as c) =>
                 Some {| c_product_area := number_or_undefined (prop c K_product_area);
                         c_sentiment := number_or_undefined (prop c K_sentiment);
                         c_urgency := number_or_undefined (prop c K_urgency) |}
             | _ => None
             end |}) = Throw e -> e = TypeError).
  { destruct (String_of (js_or (prop data K_id) (Some (JStr uuid)))) as [i|ei] eqn:Ei;
      cbn [bind]; [|intros H; injection H as <-; apply (String_of_error _ _ Ei)].
    destruct (String_of (js_or (prop data K_created_at) (Some (JStr now))))
      as [c|ec] eqn:Ec;
      cbn [bind]; [|intros H; injection H as <-; apply (String_of_error _ _ Ec)].
    destruct (String_of (body_candidate data)) as [b|eb] eqn:Eb;
      cbn [bind]; [discriminate|].
    intros H; injection H as <-; apply (String_of_error _ _ Eb). }
  destruct data; [intros H; injection H as <-; reflexivity| | | | |]; exact Hgen.
Qed.

(** X20.  Each error of [normalizeFeedback] tells what went wrong. [Unexpected
    AI response format]: the reply is not an object with a [response]
    property. [SyntaxError]: the [response] is a text which, fence stripped,
    is not JSON. [TypeError]: the [response] is not a text, or it is JSON on
    which the validator throws ([null], or a value whose id, timestamp or body
    text has no string conversion). *)
Theorem normalizeFeedback_errors :
  forall (uuid now : jsstring) (response : json) (e : js_error),
    normalizeFeedback uuid now response = Throw e ->
    match e with
    | UnexpectedFormat =>
        forall props, response = JObj props -> obj_get (lit "response") props = None
    | SyntaxError =>
        exists props text,
          response = JObj props
          /\ obj_get (lit "response") props = Some (JStr text)
          /\ JSON_parse (strip_fence text) = None
    | TypeError =>
        exists props v,
          response = JObj props
          /\ obj_get (lit "response") props = Some v
          /\ ((forall text, v <> JStr text)
              \/ exists text parsed,
                   v = JStr text
                   /\ JSON_parse (strip_fence text) = Some parsed
                   /\ validateFeedback uuid now parsed = Throw TypeError)
    end.
Proof.
  intros uuid now response e. unfold normalizeFeedback.
  change (lit "response") with K_response.
  destruct response as [| | | | |props];
    try (intros H; injection H as <-; intros props' E; discriminate E).
  destruct (obj_get K_response props) as [v|] eqn:Ev.
  - assert (Hnot : forall w, (forall text, w <> JStr text) -> v = w ->
                             @Throw Feedback TypeError = Throw e ->
                             match e with
                             | UnexpectedFormat =>
                                 forall props0, JObj props = JObj props0 ->
                                                obj_get K_response props0 = None
                             | SyntaxError =>
                                 exists props0 text,
                                   JObj props = JObj props0
                                   /\ obj_get K_response props0 = Some (JStr text)
                                   /\ JSON_parse (strip_fence text) = None
                             | TypeError =>
                                 exists props0 v0,
                                   JObj props = JObj props0
                                   /\ obj_get K_response props0 = Some v0
                                   /\ ((forall text, v0 <> JStr text)
                                       \/ exists text parsed,
                                            v0 = JStr text
                                            /\ JSON_parse (strip_fence text) = Some parsed
                                            /\ validateFeedback uuid now parsed
                                               = Throw TypeError)
                             end).
    { intros w Hw -> H. injection H as <-. exists props, w. auto. }
    destruct v as [|b|n|text|items|ps];
      try (eapply Hnot; [|reflexivity]; intros t; discriminate).
    destruct (JSON_parse (strip_fence text)) as [parsed|] eqn:Ep.
    + intros H. pose proof (validateFeedback_error _ _ _ _ H) as ->.
      exists props, (JStr text). split; [reflexivity|]. split; [exact Ev|].
      right. eauto.
    + intros H. injection H as <-. exists props, text. auto.
  - intros H. injection H as <-. intros props' E. injection E as <-. exact Ev.
Qed.

(* ================================================================== *)
(** ** What the truncation keeps *)
(* ================================================================== *)

(** X21.  The truncation only replaces a tail. The first 1897 code units of a
    rendering are those of the content it was made from, a content of at most
    1900 units is not touched at all, and truncating twice is truncating once. *)
Theorem truncate_for_discord_keeps_the_head :
  forall content : jsstring,
    firstn 1897 (truncate_for_discord content) = firstn 1897 content
    /\ (length content <= 1900 -> truncate_for_discord content = content)
    /\ truncate_for_discord (truncate_for_discord content)
       = truncate_for_discord content
    /\ (forall searchResult : SearchResult,
           firstn 1897 (summarizeForDiscord searchResult)
           = firstn 1897 (summary_content searchResult))
    /\ (forall date totalCount stats searchResult highUrgency,
           firstn 1897 (digest_rendering date totalCount stats searchResult highUrgency)
           = firstn 1897 (digest_content date totalCount stats searchResult highUrgency)).
Proof.
  assert (Hhead : forall content : jsstring,
             firstn 1897 (truncate_for_discord content) = firstn 1897 content).
  { intros content. unfold truncate_for_discord, substring0.
    destruct (1900 <? length content) eqn:E; [|reflexivity].
    apply Nat.ltb_lt in E. rewrite firstn_app, firstn_firstn, length_firstn.
    replace (1897 - Nat.min 1897 (length content)) with 0 by lia.
    rewrite firstn_O, List.app_nil_r. reflexivity. }
  intros content. split; [apply Hhead|]. split; [apply truncate_for_discord_short|].
  split; [|split].
  - apply truncate_for_discord_short, truncate_for_discord_length.
  - intros sr. apply Hhead.
  - intros date total stats sr hu. apply Hhead.
Qed.

(* ================================================================== *)
(** ** The date partition of a validated record *)
(* ================================================================== *)

(** X22.  The validator does not check the timestamp, and the key is
    partitioned by whatever it holds. When the candidate's [created_at] is a
    text that is not empty, the record keeps that text and its key lies in the
    partition of the part of the text before its first [T]; when the candidate
    has no [created_at] (or a falsy one), the record takes the current time,
    and for a current time that starts with a calendar day followed by [T] its
    key lies in the partition of that day. *)
Theorem validateFeedback_date_partition :
  forall (uuid now : jsstring) (data : json) (feedback : Feedback),
    validateFeedback uuid now data = Ok feedback ->
    (forall c s,
        prop data (lit "created_at") = Some (JStr (c :: s)) ->
        f_created_at feedback = c :: s
        /\ getFeedbackR2Key feedback
           = lit "feedback/dt=" ++ date_portion (c :: s) ++ lit "/source="
               ++ f_source feedback ++ lit "/" ++ f_id feedback ++ lit ".json")
    /\ (truthy (prop data (lit "created_at")) = false ->
        f_created_at feedback = now
        /\ forall day time,
             is_calendar_day day = true ->
             now = day ++ lit "T" ++ time ->
             getFeedbackR2Key feedback
             = lit "feedback/dt=" ++ day ++ lit "/source="
                 ++ f_source feedback ++ lit "/" ++ f_id feedback ++ lit ".json").
Proof.
  intros uuid now data feedback H. apply validateFeedback_Ok in H.
  destruct H as (_ & _ & Hc & _). unfold created_at_candidate, js_or in Hc.
  change (lit "created_at") with K_created_at. split.
  - intros c s E. rewrite E in Hc. cbn in Hc. injection Hc as Hc.
    split; [symmetry; exact Hc|]. unfold getFeedbackR2Key. rewrite <- Hc. reflexivity.
  - intros Hf. rewrite Hf in Hc. cbn in Hc. injection Hc as Hc.
    split; [symmetry; exact Hc|]. intros day time Hday Hnow.
    unfold getFeedbackR2Key, date_portion. rewrite <- Hc, Hnow.
    change (lit "T" ++ time) with (84%N :: time).
    rewrite (split_head_stops _ _ _ (calendar_day_has_no_T _ Hday)). reflexivity.
Qed.

Section RoundTrip.

Context {LAWS : LawfulNumber}.

Lemma scan_number_head (s t r : jsstring) :
  scan_number s = Some (t, r) ->
  exists c s', s = c :: s' /\ ((c =? 45)%N = true \/ is_digit c = true).
Proof.
  destruct s as [|c s']; [discriminate|].
  intros H. exists c, s'. split; [reflexivity|].
  destruct (c =? 45)%N eqn:E; [left; reflexivity|right].
  unfold scan_number in H. rewrite E in H. unfold scan_int in H.
  destruct (c =? 48)%N eqn:E0.
  - apply N.eqb_eq in E0. subst c. reflexivity.
  - destruct (is_digit c); [reflexivity|discriminate H].
Qed.

Lemma number_head (n : number) :
  num_finite n = true ->
  exists c r, num_toString n = c :: r /\ ((c =? 45)%N = true \/ is_digit c = true).
Proof.
  intros Hn. pose proof (toString_scans n [] Hn eq_refl) as H.
  rewrite List.app_nil_r in H.
  destruct (scan_number_head _ _ _ H) as (c & s' & E & Hc). eauto.
Qed.

(** A minus sign or a digit starts nothing but a number. *)
Lemma number_start (c : char16) :
  (c =? 45)%N = true \/ is_digit c = true ->
  is_json_ws c = false
  /\ (c =? 34)%N = false /\ (c =? 91)%N = false /\ (c =? 123)%N = false
  /\ (c =? 93)%N = false /\ (c =? 125)%N = false
  /\ (c =? 116)%N = false /\ (c =? 102)%N = false /\ (c =? 110)%N = false.
Proof.
  intros H.
  assert (Hc : (c = 45 \/ 48 <= c <= 57)%N).
  { destruct H as [H|H].
    - left. apply N.eqb_eq, H.
    - right. unfold is_digit in H. apply andb_true_iff in H. destruct H as [H1 H2].
      apply N.leb_le in H1. apply N.leb_le in H2. lia. }
  unfold is_json_ws.
  repeat split; rewrite ?orb_false_iff; repeat split; apply N.eqb_neq; lia.
Qed.

Lemma skip_ws_head (c : char16) (r : jsstring) :
  is_json_ws c = false -> skip_ws (c :: r) = c :: r.
Proof. intros H. simpl. rewrite H. reflexivity. Qed.

Lemma parse_value_number (fuel : nat) (n : number) (rest : jsstring) :
  num_finite n = true -> ends_value rest = true ->
  parse_value (S fuel) (num_toString n ++ rest) = Some (JNum n, rest).
Proof.
  intros Hn Hrest.
  destruct (number_head n Hn) as (c & r & E & Hc).
  destruct (number_start c Hc) as (W & Q & A & O & _ & _ & T & F & U).
  pose proof (toString_scans n rest Hn Hrest) as Hscan.
  rewrite parse_value_S. rewrite E in *. cbn [app] in *.
  rewrite (skip_ws_head c _ W), Q, A, O.
  cbn [startsWith LIT_TRUE LIT_FALSE LIT_NULL]. rewrite T, F, U. cbn [andb].
  rewrite Hscan, <- E, (toString_denotes n Hn). reflexivity.
Qed.

Lemma parse_value_string (fuel : nat) (r : jsstring) :
  parse_value (S fuel) (34%N :: r)
  = match parse_string_body r with
    | Some (str, rest) => Some (JStr str, rest)
    | None => None
    end.
Proof. reflexivity. Qed.

Lemma parse_value_array (fuel : nat) (r : jsstring) :
  parse_value (S fuel) (91%N :: r)
  = match skip_ws r with
    | c' :: r' =>
        if (c' =? 93)%N then Some (JArr [], r') else parse_elements fuel r []
    | [] => None
    end.
Proof. reflexivity. Qed.

Lemma parse_value_object (fuel : nat) (r : jsstring) :
  parse_value (S fuel) (123%N :: r)
  = match skip_ws r with
    | c' :: r' =>
        if (c' =? 125)%N then Some (JObj [], r') else parse_members fuel r []
    | [] => None
    end.
Proof. reflexivity. Qed.

(** The text of a value starts with a character that is neither white space
    nor a closing bracket or brace. *)
Lemma stringify_head (v : json) :
  json_wf v = true ->
  exists c r,
    JSON_stringify v = c :: r
    /\ is_json_ws c = false /\ (c =? 93)%N = false /\ (c =? 125)%N = false.
Proof.
  destruct v as [|[]|n|s|items|props]; simpl; intros Hwf;
    try (do 2 eexists; split; [reflexivity|]; repeat split; reflexivity).
  rewrite Hwf. destruct (number_head n Hwf) as (c & r & E & Hc).
  destruct (number_start c Hc) as (W & _ & _ & _ & B & C & _).
  exists c, r. auto.
Qed.

Lemma join_cons2 (sep a b : jsstring) (rest : list jsstring) :
  join sep (a :: b :: rest) = a ++ sep ++ join sep (b :: rest).
Proof. reflexivity. Qed.

Lemma sep_shape (a j r : jsstring) (c : char16) :
  (a ++ [c] ++ j) ++ r = a ++ c :: j ++ r.
Proof. rewrite <- app_assoc. reflexivity. Qed.

Lemma parse_elements_stringify (items : list json) :
  Forall reads_back items ->
  forallb json_wf items = true ->
  items <> [] ->
  forall (fuel : nat) (acc : list json) (rest : jsstring),
    fold_right (fun x n => S (json_size x + n)) 0 items <= fuel ->
    parse_elements fuel
      (join [44%N] (List.map JSON_stringify items) ++ 93%N :: rest) acc
    = Some (JArr (acc ++ items), rest).
Proof.
  induction 1 as [|v tl Hv Htl IH]; intros Hwf Hne fuel acc rest Hf;
    [contradiction|].
  simpl in Hwf. apply andb_true_iff in Hwf. destruct Hwf as [Hwv Hwtl].
  simpl in Hf. destruct fuel as [|f]; [lia|].
  rewrite parse_elements_S. destruct tl as [|w tl'].
  - cbn [List.map join].
    rewrite (Hv Hwv f (93%N :: rest)) by (simpl in *; try reflexivity; lia).
    reflexivity.
  - cbn [List.map]. rewrite join_cons2, sep_shape.
    rewrite (Hv Hwv f) by (simpl in *; try reflexivity; lia).
    rewrite skip_ws_head by reflexivity. rewrite N.eqb_refl.
    change (JSON_stringify w :: List.map JSON_stringify tl')
      with (List.map JSON_stringify (w :: tl')).
    rewrite (IH Hwtl ltac:(discriminate) f (acc ++ [v]) rest)
      by (simpl in *; lia).
    rewrite <- app_assoc. reflexivity.
Qed.

Lemma member_shape (k sv rest : jsstring) :
  (quote k ++ 58%N :: sv) ++ rest
  = 34%N :: quote_body k ++ 34%N :: 58%N :: sv ++ rest.
Proof. unfold quote. simpl. rewrite <- !app_assoc. reflexivity. Qed.

Lemma parse_members_stringify (props : list (jsstring * json)) :
  Forall (fun kv => reads_back (snd kv)) props ->
  forallb (fun kv => json_wf (snd kv)) props = true ->
  props <> [] ->
  forall (fuel : nat) (acc : list (jsstring * json)) (rest : jsstring),
    fold_right (fun kv n => S (json_size (snd kv) + n)) 0 props <= fuel ->
    parse_members fuel
      (join [44%N]
         (List.map (fun kv => quote (fst kv) ++ 58%N :: JSON_stringify (snd kv)) props)
       ++ 125%N :: rest) acc
    = Some (JObj (fold_left (fun a kv => obj_set (fst kv) (snd kv) a) props acc), rest).
Proof.
  induction 1 as [|[k v] tl Hv Htl IH]; intros Hwf Hne fuel acc rest Hf;
    [contradiction|].
  simpl in Hwf. apply andb_true_iff in Hwf. destruct Hwf as [Hwv Hwtl].
  simpl in Hf. simpl in Hv. destruct fuel as [|f]; [lia|].
  rewrite parse_members_S. destruct tl as [|w tl'].
  - cbn [List.map join fst snd]. rewrite member_shape.
    rewrite skip_ws_head by reflexivity. rewrite N.eqb_refl.
    rewrite parse_quote_body.
    rewrite skip_ws_head by reflexivity. rewrite N.eqb_refl.
    rewrite (Hv Hwv f (125%N :: rest)) by (simpl in *; try reflexivity; lia).
    reflexivity.
  - cbn [List.map fst snd]. rewrite join_cons2, sep_shape.
    rewrite member_shape.
    rewrite skip_ws_head by reflexivity. rewrite N.eqb_refl.
    rewrite parse_quote_body.
    rewrite skip_ws_head by reflexivity. rewrite N.eqb_refl.
    cbn [app].
    rewrite (Hv Hwv f) by (simpl in *; try reflexivity; lia).
    rewrite skip_ws_head by reflexivity. rewrite N.eqb_refl.
    change ((quote (fst w) ++ 58%N :: JSON_stringify (snd w))
            :: List.map (fun kv => quote (fst kv) ++ 58%N :: JSON_stringify (snd kv)) tl')
      with (List.map (fun kv => quote (fst kv) ++ 58%N :: JSON_stringify (snd kv))
              (w :: tl')).
    rewrite (IH Hwtl ltac:(discriminate) f (obj_set k v acc) rest)
      by (simpl in *; lia).
    reflexivity.
Qed.

Lemma jsstring_eqb_sym (a b : jsstring) : jsstring_eqb a b = jsstring_eqb b a.
Proof.
  destruct (jsstring_eqb a b) eqn:E.
  - apply jsstring_eqb_eq in E. subst. symmetry. apply jsstring_eqb_refl.
  - destruct (jsstring_eqb b a) eqn:E'; [|reflexivity].
    apply jsstring_eqb_eq in E'. subst. rewrite jsstring_eqb_refl in E.
    discriminate E.
Qed.

Lemma obj_set_fresh (k : jsstring) (v : json) (acc : list (jsstring * json)) :
  existsb (jsstring_eqb k) (List.map fst acc) = false ->
  obj_set k v acc = acc ++ [(k, v)].
Proof.
  induction acc as [|[k' v'] acc IH]; simpl; intros H; [reflexivity|].
  apply orb_false_iff in H. destruct H as [Hk H].
  rewrite jsstring_eqb_sym, Hk. f_equal. apply IH, H.
Qed.

Lemma distinct_middle (l1 l2 : list jsstring) (k : jsstring) :
  distinct (l1 ++ k :: l2) = true -> existsb (jsstring_eqb k) l1 = false.
Proof.
  induction l1 as [|a l1 IH]; simpl; intros H; [reflexivity|].
  apply andb_true_iff in H. destruct H as [Ha H].
  apply negb_true_iff in Ha. rewrite existsb_app in Ha.
  apply orb_false_iff in Ha. destruct Ha as [_ Ha]. simpl in Ha.
  apply orb_false_iff in Ha. destruct Ha as [Ha _].
  rewrite jsstring_eqb_sym, Ha. simpl. apply IH, H.
Qed.

(** Setting distinct keys one after the other appends them. *)
Lemma fold_obj_set_distinct (props acc : list (jsstring * json)) :
  distinct (List.map fst (acc ++ props)) = true ->
  fold_left (fun a kv => obj_set (fst kv) (snd kv) a) props acc = acc ++ props.
Proof.
  revert acc. induction props as [|[k v] tl IH]; intros acc H; simpl.
  - symmetry. apply List.app_nil_r.
  - rewrite obj_set_fresh.
    + rewrite IH; rewrite <- app_assoc; [reflexivity|exact H].
    + rewrite map_app in H. simpl in H. apply (distinct_middle _ _ _ H).
Qed.

(** Every well-formed value reads back, whatever follows it. *)
Lemma parse_stringify (v : json) : reads_back v.
Proof.
  induction v as [| b | n | s | items IH | props IH] using json_nested_ind;
    intros Hwf fuel rest Hf Hrest;
    (destruct fuel as [|f]; [simpl in Hf; lia|]).
  - rewrite parse_value_S. cbn. rewrite startsWith_nil. reflexivity.
  - rewrite parse_value_S. destruct b; cbn; rewrite startsWith_nil; reflexivity.
  - simpl in Hwf. cbn [JSON_stringify]. rewrite Hwf.
    apply parse_value_number; assumption.
  - cbn [JSON_stringify]. unfold quote. cbn [app].
    rewrite parse_value_string, <- app_assoc. cbn [app].
    rewrite parse_quote_body. reflexivity.
  - cbn [JSON_stringify]. cbn [app]. rewrite parse_value_array.
    destruct items as [|v tl]; [reflexivity|].
    simpl in Hwf. pose proof Hwf as Hwf'.
    apply andb_true_iff in Hwf'. destruct Hwf' as [Hwv _].
    destruct (stringify_head v Hwv) as (c & r & E & W & B & _).
    assert (Hhead : exists r', (join [44%N] (List.map JSON_stringify (v :: tl))
                                ++ [93%N]) ++ rest = c :: r').
    { destruct tl; cbn [List.map join]; rewrite E; eexists; reflexivity. }
    destruct Hhead as [r' Hhead]. rewrite Hhead, (skip_ws_head c r' W), B.
    rewrite <- Hhead, <- app_assoc. cbn [app].
    apply (parse_elements_stringify (v :: tl) IH Hwf ltac:(discriminate) f [] rest).
    simpl in *; lia.
  - cbn [JSON_stringify]. cbn [app]. rewrite parse_value_object.
    destruct props as [|[k v] tl]; [reflexivity|].
    simpl in Hwf. apply andb_true_iff in Hwf. destruct Hwf as [Hd Hwf].
    assert (Hhead : exists r',
               (join [44%N]
                  (List.map (fun kv => quote (fst kv) ++ 58%N :: JSON_stringify (snd kv))
                     ((k, v) :: tl)) ++ [125%N]) ++ rest = 34%N :: r').
    { destruct tl; cbn [List.map join fst]; unfold quote; eexists; reflexivity. }
    destruct Hhead as [r' Hhead]. rewrite Hhead, (skip_ws_head 34%N r' eq_refl).
    change ((34 =? 125)%N) with false. cbv iota.
    rewrite <- Hhead, <- app_assoc. cbn [app].
    etransitivity.
    + apply (parse_members_stringify ((k, v) :: tl) IH Hwf ltac:(discriminate)
               f [] rest).
      simpl in *; lia.
    + rewrite (fold_obj_set_distinct ((k, v) :: tl) [] Hd). reflexivity.
Qed.

(* ------------------------------------------------------------------ *)
(** *** The length of a text is fuel enough *)

Lemma join_length_bound (parts : list jsstring) (weights : list nat) :
  Forall2 (fun p w => w <= length p) parts weights ->
  fold_right (fun w n => S (w + n)) 0 weights <= S (length (join [44%N] parts)).
Proof.
  induction 1 as [|p w ps ws Hp Hps IH]; [simpl; lia|].
  destruct ps as [|q ps'].
  - inversion Hps; subst. simpl. lia.
  - rewrite join_cons2, !length_app. inversion Hps; subst.
    simpl in *. lia.
Qed.

Lemma fold_right_map_weight {A} (size : A -> nat) (l : list A) :
  fold_right (fun x n => S (size x + n)) 0 l
  = fold_right (fun w n => S (w + n)) 0 (List.map size l).
Proof. induction l as [|x l IH]; simpl; [reflexivity|]. rewrite IH. reflexivity. Qed.

Lemma length_bracket (c d : char16) (x : jsstring) :
  length (c :: x ++ [d]) = S (S (length x)).
Proof. simpl. rewrite length_app. simpl. lia. Qed.

Lemma json_size_le_length (v : json) :
  json_wf v = true -> json_size v <= length (JSON_stringify v).
Proof.
  induction v as [| b | n | s | items IH | props IH] using json_nested_ind;
    intros Hwf.
  - simpl. lia.
  - destruct b; simpl; lia.
  - simpl in *. rewrite Hwf.
    destruct (number_head n Hwf) as (c & r & E & _). rewrite E. simpl. lia.
  - simpl. lia.
  - cbn [JSON_stringify json_size]. rewrite length_bracket.
    rewrite fold_right_map_weight.
    pose proof (join_length_bound (List.map JSON_stringify items)
                  (List.map json_size items)) as B.
    assert (F : Forall2 (fun p w => w <= length p)
                  (List.map JSON_stringify items) (List.map json_size items)).
    { simpl in Hwf. clear B. induction IH as [|x l Hx Hl IHl]; simpl; [constructor|].
      simpl in Hwf. apply andb_true_iff in Hwf. destruct Hwf as [H1 H2].
      constructor; [apply Hx, H1|apply IHl, H2]. }
    specialize (B F). lia.
  - cbn [JSON_stringify json_size]. rewrite length_bracket.
    rewrite (fold_right_map_weight (fun kv => json_size (snd kv))).
    pose proof (join_length_bound
                  (List.map (fun kv => quote (fst kv) ++ 58%N :: JSON_stringify (snd kv))
                     props)
                  (List.map (fun kv => json_size (snd kv)) props)) as B.
    assert (F : Forall2 (fun p w => w <= length p)
                  (List.map (fun kv => quote (fst kv) ++ 58%N :: JSON_stringify (snd kv))
                     props)
                  (List.map (fun kv => json_size (snd kv)) props)).
    { simpl in Hwf. apply andb_true_iff in Hwf. destruct Hwf as [_ Hwf]. clear B.
      induction IH as [|x l Hx Hl IHl]; simpl; [constructor|].
      simpl in Hwf. apply andb_true_iff in Hwf. destruct Hwf as [H1 H2].
      constructor; [|apply IHl, H2].
      specialize (Hx H1). unfold quote. simpl. rewrite !length_app. simpl. lia. }
    specialize (B F). lia.
Qed.

(** [JSON.parse(JSON.stringify(v))] is [v], for every value with finite
    numbers and distinct keys. *)
Lemma JSON_parse_stringify (v : json) :
  json_wf v = true -> JSON_parse (JSON_stringify v) = Some v.
Proof.
  intros Hwf. unfold JSON_parse.
  pose proof (parse_stringify v Hwf (S (length (JSON_stringify v))) [])
    as H.
  rewrite List.app_nil_r in H. rewrite H; [reflexivity| |reflexivity].
  pose proof (json_size_le_length v Hwf). lia.
Qed.

Lemma JSON_stringify_not_empty (v : json) :
  json_wf v = true -> JSON_stringify v <> [].
Proof.
  intros Hwf E. destruct (stringify_head v Hwf) as (c & r & E' & _). congruence.
Qed.

(* ================================================================== *)
(** ** Rows: the round trip through the serialized columns *)
(* ================================================================== *)

Lemma tags_value_wf (tags : list jsstring) : json_wf (tags_value tags) = true.
Proof.
  unfold tags_value. simpl. induction tags as [|t tags IH]; simpl; auto.
Qed.

Lemma confidence_value_wf (c : FeedbackConfidence) :
  score_finite (c_product_area c) && score_finite (c_sentiment c)
  && score_finite (c_urgency c) = true ->
  json_wf (confidence_value c) = true.
Proof.
  destruct c as [[p|] [s|] [u|]]; simpl; intros H;
    repeat match goal with
           | H : _ && _ = true |- _ => apply andb_true_iff in H; destruct H
           end;
    repeat match goal with
           | H : num_finite _ = true |- _ => rewrite H; clear H
           end;
    reflexivity.
Qed.

Lemma parse_column_stringify (v : json) (fallback : jsval) :
  json_wf v = true ->
  parse_column (Some (JSON_stringify v)) fallback = Ok (Some v).
Proof.
  intros Hwf. unfold parse_column.
  pose proof (JSON_stringify_not_empty v Hwf) as Hne.
  pose proof (JSON_parse_stringify v Hwf) as Hp.
  destruct (JSON_stringify v) as [|c r]; [contradiction|].
  rewrite Hp. reflexivity.
Qed.

(** C7 (as amended).  For every record whose confidence scores are finite
    numbers and every key, [rowToFeedback (feedbackToRow f key)] returns a
    record whose [tags] is the array of the original tags, in order, and
    whose [confidence] is [undefined] when the original had none and
    otherwise the object of the original defined scores; the other fields
    and the key come back as they were.  (It holds for empty tags too: the
    column is then [NULL] and reads back as the empty array.) *)
Theorem rowToFeedback_feedbackToRow :
  forall (feedback : Feedback) (key : jsstring),
    scores_finite feedback = true ->
    exists loaded,
      rowToFeedback (feedbackToRow feedback key) = Ok loaded
      /\ l_tags loaded = tags_value (f_tags feedback)
      /\ l_confidence loaded = option_map confidence_value (f_confidence feedback)
      /\ l_id loaded = f_id feedback
      /\ l_created_at loaded = f_created_at feedback
      /\ l_source loaded = f_source feedback
      /\ l_body_text loaded = f_body_text feedback
      /\ l_r2_key loaded = key.
Proof.
  intros feedback key Hfin. unfold rowToFeedback, feedbackToRow. cbn [r_tags_json
    r_confidence_json r_id r_created_at r_source r_source_url r_product_area
    r_title r_author r_thread_id r_body_text r_sentiment r_urgency r_r2_key].
  assert (Htags :
    parse_column
      (if (0 <? length (f_tags feedback))%nat
       then Some (JSON_stringify (tags_value (f_tags feedback))) else None)
      (Some (JArr []))
    = Ok (Some (tags_value (f_tags feedback)))).
  { destruct (f_tags feedback) as [|t tags] eqn:Et; [reflexivity|].
    cbn [length Nat.ltb Nat.leb]. apply parse_column_stringify, tags_value_wf. }
  assert (Hconf :
    parse_column
      (match f_confidence feedback with
       | Some c => Some (JSON_stringify (confidence_value c))
       | None => None
       end) None
    = Ok (option_map confidence_value (f_confidence feedback))).
  { unfold scores_finite in Hfin. destruct (f_confidence feedback) as [c|];
      [|reflexivity].
    apply parse_column_stringify, confidence_value_wf, Hfin. }
  rewrite Htags, Hconf. cbn [bind]. eexists. split; [reflexivity|].
  cbn. repeat split; reflexivity.
Qed.

(* ================================================================== *)
(** ** Rows: what the round trip does to any record *)
(* ================================================================== *)

Lemma forallb_map_compose {A B} (f : A -> B) (p : B -> bool) (l : list A) :
  forallb p (List.map f l) = forallb (fun x => p (f x)) l.
Proof. induction l as [|x l IH]; simpl; [reflexivity|]. rewrite IH. reflexivity. Qed.

(** The text of a value is the text of the value as written. *)
Lemma JSON_stringify_as_written (v : json) :
  JSON_stringify (as_written v) = JSON_stringify v.
Proof.
  induction v as [| b | n | s | items IH | props IH] using json_nested_ind;
    try reflexivity.
  - simpl. destruct (num_finite n) eqn:E; simpl; [rewrite E|]; reflexivity.
  - cbn [as_written JSON_stringify]. do 3 f_equal. rewrite map_map.
    apply map_ext_Forall, IH.
  - cbn [as_written JSON_stringify]. do 3 f_equal. rewrite map_map.
    apply map_ext_Forall.
    apply (Forall_impl _ (P := fun kv => JSON_stringify (as_written (snd kv))
                                       = JSON_stringify (snd kv))); [|exact IH].
    intros [k v] H. cbn [fst snd] in *. rewrite H. reflexivity.
Qed.

Lemma as_written_wf (v : json) :
  keys_distinct v = true -> json_wf (as_written v) = true.
Proof.
  induction v as [| b | n | s | items IH | props IH] using json_nested_ind;
    intros H; try reflexivity.
  - simpl. destruct (num_finite n) eqn:E; simpl; [exact E|reflexivity].
  - cbn [as_written json_wf]. cbn [keys_distinct] in H.
    rewrite forallb_map_compose. apply forallb_forall. intros x Hx.
    apply (proj1 (Forall_forall _ _) IH x Hx).
    apply (proj1 (forallb_forall _ _) H x Hx).
  - cbn [as_written json_wf]. cbn [keys_distinct] in H.
    apply andb_true_iff in H. destruct H as [Hd Hk].
    assert (Hkeys : List.map fst (List.map (fun kv => (fst kv, as_written (snd kv))) props)
                    = List.map fst props) by (rewrite map_map; reflexivity).
    rewrite Hkeys, Hd. cbn [andb].
    rewrite forallb_map_compose. apply forallb_forall. intros x Hx. cbn [snd].
    apply (proj1 (Forall_forall _ _) IH x Hx).
    apply (proj1 (forallb_forall _ _) Hk x Hx).
Qed.

(** [JSON.parse(JSON.stringify(v))] is [v] as written, for every value
    with distinct keys. *)
Lemma JSON_parse_stringify_as_written (v : json) :
  keys_distinct v = true -> JSON_parse (JSON_stringify v) = Some (as_written v).
Proof.
  intros H. rewrite <- JSON_stringify_as_written.
  apply JSON_parse_stringify, as_written_wf, H.
Qed.

Lemma parse_column_as_written (v : json) (fallback : jsval) :
  keys_distinct v = true ->
  parse_column (Some (JSON_stringify v)) fallback = Ok (Some (as_written v)).
Proof.
  intros H. rewrite <- JSON_stringify_as_written.
  apply parse_column_stringify, as_written_wf, H.
Qed.

Lemma tags_value_as_written (tags : list jsstring) :
  as_written (tags_value tags) = tags_value tags.
Proof.
  unfold tags_value. cbn [as_written]. f_equal. rewrite map_map. reflexivity.
Qed.

Lemma tags_value_keys_distinct (tags : list jsstring) :
  keys_distinct (tags_value tags) = true.
Proof.
  unfold tags_value. cbn [keys_distinct]. rewrite forallb_map_compose.
  apply forallb_forall. reflexivity.
Qed.

Lemma confidence_value_keys_distinct (c : FeedbackConfidence) :
  keys_distinct (confidence_value c) = true.
Proof. destruct c as [[p|] [s|] [u|]]; reflexivity. Qed.

(** The two JSON columns of the row of a record read back. *)
Lemma feedbackToRow_columns_read (feedback : Feedback) (key : jsstring) :
  parse_column (r_tags_json (feedbackToRow feedback key)) (Some (JArr []))
  = Ok (Some (tags_value (f_tags feedback)))
  /\ parse_column (r_confidence_json (feedbackToRow feedback key)) None
     = Ok (option_map (fun c => as_written (confidence_value c))
             (f_confidence feedback)).
Proof.
  unfold feedbackToRow. cbn [r_tags_json r_confidence_json]. split.
  - destruct (f_tags feedback) as [|t tags] eqn:Et; [reflexivity|].
    cbn [length Nat.ltb Nat.leb].
    rewrite (parse_column_as_written _ _ (tags_value_keys_distinct _)).
    rewrite tags_value_as_written. reflexivity.
  - destruct (f_confidence feedback) as [c|]; [|reflexivity].
    apply parse_column_as_written, confidence_value_keys_distinct.
Qed.

(** X23.  Turning any record into a row and the row back never fails, whatever
    its scores are. The tags come back as the array of the original tags, the
    confidence as the object of the original defined scores in which a score
    that is not finite has become [null], and every other field and the key as
    they were. *)
Theorem rowToFeedback_feedbackToRow_returns :
  forall (feedback : Feedback) (key : jsstring),
    rowToFeedback (feedbackToRow feedback key)
    = Ok {| l_id := f_id feedback;
            l_created_at := f_created_at feedback;
            l_source := f_source feedback;
            l_source_url := f_source_url feedback;
            l_product_area := f_product_area feedback;
            l_title := f_title feedback;
            l_author := f_author feedback;
            l_thread_id := f_thread_id feedback;
            l_body_text := f_body_text feedback;
            l_sentiment := f_sentiment feedback;
            l_urgency := f_urgency feedback;
            l_tags := tags_value (f_tags feedback);
            l_confidence :=
              option_map (fun c => as_written (confidence_value c))
                (f_confidence feedback);
            l_r2_key := key |}.
Proof.
  intros feedback key. unfold rowToFeedback.
  destruct (feedbackToRow_columns_read feedback key) as [Htags Hconf].
  rewrite Htags, Hconf. reflexivity.
Qed.

(* ================================================================== *)
(** ** A reply that is a serialized object *)
(* ================================================================== *)

(** A text between fence markers, after the language tag [json] or without
    a tag. *)
Lemma strip_fence_fenced (lead trail inner : jsstring) :
  all_ws lead = true ->
  all_ws trail = true ->
  strip_fence (lead ++ FENCE_JSON ++ inner ++ FENCE ++ trail) = trim inner
  /\ (startsWith inner (lit "json") = false ->
      strip_fence (lead ++ FENCE ++ inner ++ FENCE ++ trail) = trim inner).
Proof.
  intros Hl Ht. split.
  - change (FENCE_JSON ++ inner ++ FENCE ++ trail)
      with (FENCE ++ (lit "json" ++ inner) ++ FENCE ++ trail).
    rewrite (strip_fence_from_trim _
               (trim_between_fences lead (lit "json" ++ inner) trail Hl Ht)).
    change (FENCE ++ (lit "json" ++ inner) ++ FENCE)
      with (FENCE_JSON ++ inner ++ FENCE).
    rewrite startsWith_app.
    change 7%nat with (length FENCE_JSON).
    unfold slice_from. rewrite skipn_app, skipn_all, Nat.sub_diag. simpl skipn.
    apply strip_closing.
  - intros Hnj.
    rewrite (strip_fence_from_trim _ (trim_between_fences lead inner trail Hl Ht)).
    assert (E : startsWith (FENCE ++ inner ++ FENCE) FENCE_JSON = false).
    { change (lit "json") with [106; 115; 111; 110]%N in Hnj.
      destruct inner as [|a [|b [|c [|d inner]]]]; simpl in *;
        rewrite ?andb_false_r; try reflexivity; try exact Hnj.
      replace (startsWith (inner ++ FENCE) []) with (startsWith inner [])
        by (destruct inner; reflexivity).
      exact Hnj. }
    rewrite E, startsWith_app.
    change 3%nat with (length FENCE) at 1.
    unfold slice_from. rewrite skipn_app, skipn_all, Nat.sub_diag. simpl skipn.
    apply strip_closing.
Qed.

(** The text of an object, between its braces. *)
Lemma stringify_object_shape (props : list (jsstring * json)) :
  exists inside, JSON_stringify (JObj props) = 123%N :: inside ++ [125%N].
Proof. eexists. reflexivity. Qed.

Lemma trim_braced (inside : jsstring) :
  trim (123%N :: inside ++ [125%N]) = 123%N :: inside ++ [125%N].
Proof.
  unfold trim. cbn [trimStart]. change (is_js_whitespace 123) with false. cbv iota.
  change (123%N :: inside ++ [125%N]) with ((123%N :: inside) ++ [125%N]).
  apply trimEnd_last. reflexivity.
Qed.

Lemma braced_has_no_fence (inside : jsstring) :
  startsWith (123%N :: inside ++ [125%N]) FENCE = false
  /\ endsWith (123%N :: inside ++ [125%N]) FENCE = false.
Proof.
  split; [reflexivity|]. unfold endsWith.
  change (123%N :: inside ++ [125%N]) with ((123%N :: inside) ++ [125%N]).
  rewrite rev_app_distr. reflexivity.
Qed.

Lemma ws_then_brace_is_no_tag (before rest : jsstring) :
  all_ws before = true ->
  startsWith (before ++ 123%N :: rest) (lit "json") = false.
Proof.
  destruct before as [|c before]; [reflexivity|]. cbn [all_ws forallb app].
  intros H. apply andb_true_iff in H. destruct H as [Hc _].
  change (lit "json") with [106; 115; 111; 110]%N. cbn [startsWith].
  destruct (c =? 106)%N eqn:E; [|reflexivity].
  apply N.eqb_eq in E. subst c. discriminate Hc.
Qed.

(** X24.  When the model replies with the serialization of an object (finite
    numbers, distinct keys), [normalizeFeedback] returns what the validator
    returns on that object, whether the text comes bare, in a fenced block
    tagged [json], or in a fenced block without a tag, and with any white
    space around the text and around the block. *)
Theorem normalizeFeedback_reads_serialized_object :
  forall (uuid now : jsstring) (props : list (jsstring * json))
         (lead before after trail : jsstring),
    json_wf (JObj props) = true ->
    all_ws lead = true -> all_ws before = true ->
    all_ws after = true -> all_ws trail = true ->
    normalizeFeedback uuid now
      (JObj [(lit "response", JStr (lead ++ JSON_stringify (JObj props) ++ trail))])
    = validateFeedback uuid now (JObj props)
    /\ normalizeFeedback uuid now
         (JObj [(lit "response",
                 JStr (lead ++ lit "```json" ++ (before ++ JSON_stringify (JObj props) ++ after)
                         ++ lit "```" ++ trail))])
       = validateFeedback uuid now (JObj props)
    /\ normalizeFeedback uuid now
         (JObj [(lit "response",
                 JStr (lead ++ lit "```" ++ (before ++ JSON_stringify (JObj props) ++ after)
                         ++ lit "```" ++ trail))])
       = validateFeedback uuid now (JObj props).
Proof.
  intros uuid now props lead before after trail Hwf Hl Hb Ha Ht.
  pose proof (JSON_parse_stringify (JObj props) Hwf) as Hparse.
  destruct (stringify_object_shape props) as [inside E].
  rewrite E in *.
  destruct (braced_has_no_fence inside) as [Hs He].
  assert (Hin : trim (before ++ (123%N :: inside ++ [125%N]) ++ after)
                = 123%N :: inside ++ [125%N])
    by (rewrite (trim_ws_around _ _ _ Hb Ha); apply trim_braced).
  destruct (strip_fence_fenced lead trail
              (before ++ (123%N :: inside ++ [125%N]) ++ after) Hl Ht)
    as [Hjson Hbare].
  assert (Hplain : strip_fence (lead ++ (123%N :: inside ++ [125%N]) ++ trail)
                   = 123%N :: inside ++ [125%N]).
  { rewrite (strip_fence_from_trim _
               (eq_trans (trim_ws_around _ _ _ Hl Ht) (trim_braced inside))).
    rewrite (not_fenced_not_json_fenced _ Hs), Hs, He. apply trim_braced. }
  change (lit "```json") with FENCE_JSON. change (lit "```") with FENCE.
  unfold normalizeFeedback. change (lit "response") with K_response.
  cbn [obj_get]. rewrite jsstring_eqb_refl.
  rewrite Hplain, Hjson, Hin, Hparse.
  rewrite Hbare
    by exact (ws_then_brace_is_no_tag before ((inside ++ [125%N]) ++ after) Hb).
  rewrite Hin, Hparse. auto.
Qed.

(* ================================================================== *)
(** ** Indented texts read back *)
(* ================================================================== *)

(* ------------------------------------------------------------------ *)
(** *** A number literal followed by a line break *)

Lemma stops_number_no_digit (x : jsstring) :
  stops_number x = true -> no_digit_ahead x = true.
Proof.
  destruct x as [|c x]; [reflexivity|]. cbn [stops_number no_digit_ahead].
  destruct (is_digit c); [discriminate|reflexivity].
Qed.

Lemma take_digits_app (s x ds m : jsstring) :
  take_digits s = (ds, m) ->
  (m = [] -> no_digit_ahead x = true) ->
  take_digits (s ++ x) = (ds, m ++ x).
Proof.
  revert ds m. induction s as [|c r IH]; intros ds m H Hx.
  - cbn [take_digits] in H. injection H as <- <-. specialize (Hx eq_refl).
    destruct x as [|c x]; [reflexivity|]. cbn [no_digit_ahead] in Hx.
    apply negb_true_iff in Hx. cbn [app take_digits]. rewrite Hx. reflexivity.
  - cbn [take_digits app] in *. destruct (is_digit c).
    + destruct (take_digits r) as [ds' m'] eqn:E. injection H as <- <-.
      rewrite (IH ds' m' eq_refl Hx). reflexivity.
    + injection H as <- <-. reflexivity.
Qed.

Lemma scan_int_app (s x i m : jsstring) :
  scan_int s = Some (i, m) ->
  (m = [] -> no_digit_ahead x = true) ->
  scan_int (s ++ x) = Some (i, m ++ x).
Proof.
  destruct s as [|d r]; [discriminate|]. cbn [scan_int app].
  destruct (d =? 48)%N; [intros H _; injection H as <- <-; reflexivity|].
  destruct (is_digit d); [|discriminate].
  destruct (take_digits r) as [ds rest] eqn:E. intros H Hx. injection H as <- <-.
  rewrite (take_digits_app _ _ _ _ E Hx). reflexivity.
Qed.

Lemma scan_frac_app (s x f m : jsstring) :
  scan_frac s = Some (f, m) ->
  (m = [] -> stops_number x = true) ->
  scan_frac (s ++ x) = Some (f, m ++ x).
Proof.
  destruct s as [|c r].
  - cbn [scan_frac app]. intros H Hx. injection H as <- <-. specialize (Hx eq_refl).
    destruct x as [|c x]; [reflexivity|]. cbn [stops_number] in Hx.
    apply negb_true_iff in Hx. rewrite !orb_false_iff in Hx.
    destruct Hx as [[[_ Hdot] _] _]. cbn [scan_frac]. rewrite Hdot. reflexivity.
  - cbn [scan_frac app]. destruct (c =? 46)%N.
    + destruct (take_digits r) as [ds rest] eqn:E.
      destruct ds as [|d ds]; [discriminate|]. intros H Hx. injection H as <- <-.
      rewrite (take_digits_app _ x _ _ E (fun e => stops_number_no_digit _ (Hx e))).
      reflexivity.
    + intros H _. injection H as <- <-. reflexivity.
Qed.

Lemma scan_exp_app (s x e m : jsstring) :
  scan_exp s = Some (e, m) ->
  (m = [] -> stops_number x = true) ->
  scan_exp (s ++ x) = Some (e, m ++ x).
Proof.
  destruct s as [|c r].
  - cbn [scan_exp app]. intros H Hx. injection H as <- <-. specialize (Hx eq_refl).
    destruct x as [|c x]; [reflexivity|]. cbn [stops_number] in Hx.
    apply negb_true_iff in Hx. rewrite !orb_false_iff in Hx.
    destruct Hx as [[[_ _] He] HE]. cbn [scan_exp]. rewrite He, HE. reflexivity.
  - cbn [scan_exp app]. destruct ((c =? 101) || (c =? 69))%N.
    + destruct r as [|y r']; [discriminate|]. cbn [app].
      destruct ((y =? 43) || (y =? 45))%N.
      * destruct (take_digits r') as [ds rest] eqn:E.
        destruct ds as [|d ds]; [discriminate|]. intros H Hx. injection H as <- <-.
        rewrite (take_digits_app _ x _ _ E (fun e => stops_number_no_digit _ (Hx e))).
        reflexivity.
      * destruct (take_digits (y :: r')) as [ds rest] eqn:E.
        destruct ds as [|d ds]; [discriminate|]. intros H Hx. injection H as <- <-.
        change (y :: r' ++ x) with ((y :: r') ++ x).
        rewrite (take_digits_app _ x _ _ E (fun e => stops_number_no_digit _ (Hx e))).
        reflexivity.
    + intros H _. injection H as <- <-. reflexivity.
Qed.

(** A literal that was scanned to the end of the input is scanned the same
    way in front of anything that stops the scan. *)
Lemma scan_number_app (s x t : jsstring) :
  scan_number s = Some (t, []) ->
  stops_number x = true ->
  scan_number (s ++ x) = Some (t, x).
Proof.
  intros H Hx. unfold scan_number in *.
  assert (Hgen : forall s1 sg,
             match scan_int s1 with
             | None => None
             | Some (i, s2) =>
                 match scan_frac s2 with
                 | None => None
                 | Some (f, s3) =>
                     match scan_exp s3 with
                     | None => None
                     | Some (e, s4) => Some (sg ++ i ++ f ++ e, s4)
                     end
                 end
             end = Some (t, []) ->
             match scan_int (s1 ++ x) with
             | None => None
             | Some (i, s2) =>
                 match scan_frac s2 with
                 | None => None
                 | Some (f, s3) =>
                     match scan_exp s3 with
                     | None => None
                     | Some (e, s4) => Some (sg ++ i ++ f ++ e, s4)
                     end
                 end
             end = Some (t, x)).
  { intros s1 sg H1.
    destruct (scan_int s1) as [[i s2]|] eqn:Ei; [|discriminate].
    destruct (scan_frac s2) as [[f s3]|] eqn:Ef; [|discriminate].
    destruct (scan_exp s3) as [[e s4]|] eqn:Ee; [|discriminate].
    injection H1 as <- ->.
    assert (H3 : s3 = [] -> stops_number x = true) by auto.
    assert (H2 : s2 = [] -> stops_number x = true) by auto.
    rewrite (scan_int_app _ x _ _ Ei (fun e0 => stops_number_no_digit _ (H2 e0))).
    rewrite (scan_frac_app _ x _ _ Ef H3).
    rewrite (scan_exp_app _ x _ _ Ee (fun _ => Hx)). reflexivity. }
  destruct s as [|c r].
  - discriminate H.
  - cbn [app]. destruct (c =? 45)%N.
    + exact (Hgen r [c] H).
    + exact (Hgen (c :: r) [] H).
Qed.

Lemma scan_number_line (n : number) (x : jsstring) :
  num_finite n = true -> stops_number x = true ->
  scan_number (num_toString n ++ x) = Some (num_toString n, x).
Proof.
  intros Hn Hx. pose proof (toString_scans n [] Hn eq_refl) as H.
  rewrite List.app_nil_r in H. apply (scan_number_app _ x _ H Hx).
Qed.

Lemma ends_line_stops (rest : jsstring) :
  ends_line rest = true -> stops_number rest = true.
Proof.
  destruct rest as [|c r]; [reflexivity|]. cbn [ends_line stops_number]. intros H.
  assert (Hc : (c = 44 \/ c = 93 \/ c = 125 \/ c = 10)%N).
  { rewrite !orb_true_iff, !N.eqb_eq in H. tauto. }
  destruct Hc as [-> | [-> | [-> | ->]]]; reflexivity.
Qed.

Lemma parse_value_number_line (fuel : nat) (n : number) (rest : jsstring) :
  num_finite n = true -> ends_line rest = true ->
  parse_value (S fuel) (num_toString n ++ rest) = Some (JNum n, rest).
Proof.
  intros Hn Hrest.
  destruct (number_head n Hn) as (c & r & E & Hc).
  destruct (number_start c Hc) as (W & Q & A & O & _ & _ & T & F & U).
  pose proof (scan_number_line n rest Hn (ends_line_stops _ Hrest)) as Hscan.
  rewrite parse_value_S. rewrite E in *. cbn [app] in *.
  rewrite (skip_ws_head c _ W), Q, A, O.
  cbn [startsWith LIT_TRUE LIT_FALSE LIT_NULL]. rewrite T, F, U. cbn [andb].
  rewrite Hscan, <- E, (toString_denotes n Hn). reflexivity.
Qed.

(* ------------------------------------------------------------------ *)
(** *** Line breaks and indentation are skipped *)

Lemma skip_ws_spaces (w s : jsstring) :
  all_spaces w = true -> skip_ws (w ++ s) = skip_ws s.
Proof.
  induction w as [|c w IH]; [reflexivity|]. cbn [all_spaces forallb app].
  intros H. apply andb_true_iff in H. destruct H as [Hc H].
  apply N.eqb_eq in Hc. subst c. cbn [skip_ws].
  change (is_json_ws 32) with true. cbv iota. apply IH, H.
Qed.

Lemma skip_ws_line (w s : jsstring) :
  all_spaces w = true -> skip_ws (NL :: w ++ s) = skip_ws s.
Proof. intros H. cbn [skip_ws]. apply skip_ws_spaces, H. Qed.

Lemma parse_value_skip (fuel : nat) (s s' : jsstring) :
  skip_ws s = skip_ws s' -> parse_value fuel s = parse_value fuel s'.
Proof.
  intros H. destruct fuel as [|f]; [reflexivity|].
  rewrite !parse_value_S, H. reflexivity.
Qed.

Lemma parse_value_line (fuel : nat) (w s : jsstring) :
  all_spaces w = true -> parse_value fuel (NL :: w ++ s) = parse_value fuel s.
Proof. intros H. apply parse_value_skip, skip_ws_line, H. Qed.

Lemma all_spaces_deeper (indent : jsstring) :
  all_spaces indent = true -> all_spaces (indent ++ GAP) = true.
Proof.
  intros H. unfold all_spaces. rewrite forallb_app.
  fold (all_spaces indent). rewrite H. reflexivity.
Qed.

(** An indented text starts like the plain text: with a character that is
    neither white space nor a closing bracket or brace. *)
Lemma stringify_indented_head (indent : jsstring) (v : json) :
  json_wf v = true ->
  exists c r,
    stringify_indented indent v = c :: r
    /\ is_json_ws c = false /\ (c =? 93)%N = false /\ (c =? 125)%N = false.
Proof.
  intros Hwf.
  destruct v as [|b|n|s|[|x items]|[|kv props]];
    try (apply (stringify_head _ Hwf));
    do 2 eexists; (split; [reflexivity|]); repeat split; reflexivity.
Qed.

Lemma sep_shape_indented (a sep j t : jsstring) :
  (a ++ sep ++ j) ++ t = a ++ sep ++ j ++ t.
Proof. rewrite <- !app_assoc. reflexivity. Qed.

Lemma skip_ws_closing (indent : jsstring) (c : char16) (rest : jsstring) :
  all_spaces indent = true -> is_json_ws c = false ->
  skip_ws (NL :: indent ++ c :: rest) = c :: rest.
Proof. intros H Hc. rewrite (skip_ws_line _ _ H). apply skip_ws_head, Hc. Qed.

Lemma parse_elements_indented (items : list json) :
  Forall reads_back_indented items ->
  forallb json_wf items = true ->
  items <> [] ->
  forall (indent : jsstring) (fuel : nat) (acc : list json) (rest : jsstring),
    all_spaces indent = true ->
    fold_right (fun x n => S (json_size x + n)) 0 items <= fuel ->
    parse_elements fuel
      (NL :: (indent ++ GAP)
         ++ join (44%N :: NL :: indent ++ GAP)
              (List.map (stringify_indented (indent ++ GAP)) items)
         ++ NL :: indent ++ 93%N :: rest) acc
    = Some (JArr (acc ++ items), rest).
Proof.
  induction 1 as [|v tl Hv Htl IH]; intros Hwf Hne indent fuel acc rest Hind Hf;
    [contradiction|].
  simpl in Hwf. apply andb_true_iff in Hwf. destruct Hwf as [Hwv Hwtl].
  simpl in Hf. destruct fuel as [|f]; [lia|].
  pose proof (all_spaces_deeper indent Hind) as Hdeep.
  rewrite parse_elements_S, (parse_value_line f _ _ Hdeep).
  destruct tl as [|w tl'].
  - cbn [List.map join].
    rewrite (Hv Hwv (indent ++ GAP) f (NL :: indent ++ 93%N :: rest) Hdeep)
      by (simpl in *; try reflexivity; lia).
    rewrite (skip_ws_closing indent 93%N rest Hind eq_refl). reflexivity.
  - cbn [List.map]. rewrite join_cons2, sep_shape_indented. cbn [app].
    rewrite (Hv Hwv (indent ++ GAP) f) by (simpl in *; try reflexivity; lia || assumption).
    rewrite skip_ws_head by reflexivity. rewrite N.eqb_refl.
    change (stringify_indented (indent ++ GAP) w
            :: List.map (stringify_indented (indent ++ GAP)) tl')
      with (List.map (stringify_indented (indent ++ GAP)) (w :: tl')).
    rewrite (IH Hwtl ltac:(discriminate) indent f (acc ++ [v]) rest Hind)
      by (simpl in *; lia).
    rewrite <- app_assoc. reflexivity.
Qed.

Lemma member_shape_indented (k sv rest : jsstring) :
  (quote k ++ 58%N :: 32%N :: sv) ++ rest
  = 34%N :: quote_body k ++ 34%N :: 58%N :: 32%N :: sv ++ rest.
Proof. unfold quote. simpl. rewrite <- !app_assoc. reflexivity. Qed.

Lemma parse_members_skip (fuel : nat) (s s' : jsstring) (acc : list (jsstring * json)) :
  skip_ws s = skip_ws s' -> parse_members fuel s acc = parse_members fuel s' acc.
Proof.
  intros H. destruct fuel as [|f]; [reflexivity|].
  rewrite !parse_members_S, H. reflexivity.
Qed.

Lemma parse_value_space (fuel : nat) (s : jsstring) :
  parse_value fuel (32%N :: s) = parse_value fuel s.
Proof. apply parse_value_skip. reflexivity. Qed.

Lemma parse_members_indented (props : list (jsstring * json)) :
  Forall (fun kv => reads_back_indented (snd kv)) props ->
  forallb (fun kv => json_wf (snd kv)) props = true ->
  props <> [] ->
  forall (indent : jsstring) (fuel : nat) (acc : list (jsstring * json))
         (rest : jsstring),
    all_spaces indent = true ->
    fold_right (fun kv n => S (json_size (snd kv) + n)) 0 props <= fuel ->
    parse_members fuel
      (NL :: (indent ++ GAP)
         ++ join (44%N :: NL :: indent ++ GAP)
              (List.map (fun kv =>
                           quote (fst kv) ++ 58%N :: 32%N
                             :: stringify_indented (indent ++ GAP) (snd kv)) props)
         ++ NL :: indent ++ 125%N :: rest) acc
    = Some (JObj (fold_left (fun a kv => obj_set (fst kv) (snd kv) a) props acc), rest).
Proof.
  induction 1 as [|[k v] tl Hv Htl IH]; intros Hwf Hne indent fuel acc rest Hind Hf;
    [contradiction|].
  simpl in Hwf. apply andb_true_iff in Hwf. destruct Hwf as [Hwv Hwtl].
  simpl in Hf. simpl in Hv. destruct fuel as [|f]; [lia|].
  pose proof (all_spaces_deeper indent Hind) as Hdeep.
  rewrite (parse_members_skip (S f) _ _ acc (skip_ws_line _ _ Hdeep)).
  rewrite parse_members_S. destruct tl as [|w tl'].
  - cbn [List.map join fst snd]. rewrite member_shape_indented.
    rewrite skip_ws_head by reflexivity. rewrite N.eqb_refl.
    rewrite parse_quote_body.
    rewrite skip_ws_head by reflexivity. rewrite N.eqb_refl.
    rewrite parse_value_space.
    rewrite (Hv Hwv (indent ++ GAP) f (NL :: indent ++ 125%N :: rest) Hdeep)
      by (simpl in *; try reflexivity; lia).
    rewrite (skip_ws_closing indent 125%N rest Hind eq_refl). reflexivity.
  - cbn [List.map fst snd]. rewrite join_cons2, sep_shape_indented.
    rewrite member_shape_indented.
    rewrite skip_ws_head by reflexivity. rewrite N.eqb_refl.
    rewrite parse_quote_body.
    rewrite skip_ws_head by reflexivity. rewrite N.eqb_refl.
    rewrite parse_value_space. cbn [app].
    rewrite (Hv Hwv (indent ++ GAP) f) by (simpl in *; try reflexivity; lia || assumption).
    rewrite skip_ws_head by reflexivity. rewrite N.eqb_refl.
    change ((quote (fst w) ++ 58%N :: 32%N :: stringify_indented (indent ++ GAP) (snd w))
            :: List.map (fun kv => quote (fst kv) ++ 58%N :: 32%N
                                     :: stringify_indented (indent ++ GAP) (snd kv)) tl')
      with (List.map (fun kv => quote (fst kv) ++ 58%N :: 32%N
                                  :: stringify_indented (indent ++ GAP) (snd kv))
              (w :: tl')).
    rewrite (IH Hwtl ltac:(discriminate) indent f (obj_set k v acc) rest Hind)
      by (simpl in *; lia).
    reflexivity.
Qed.

Lemma closing_shape (a j i : jsstring) (c : char16) (rest : jsstring) :
  (a ++ j ++ NL :: i ++ [c]) ++ rest = a ++ j ++ NL :: i ++ c :: rest.
Proof.
  rewrite <- app_assoc. f_equal. rewrite <- app_assoc. f_equal.
  cbn [app]. f_equal. rewrite <- app_assoc. reflexivity.
Qed.

(** Every well-formed value reads back from its indented text, whatever
    follows it. *)
Lemma parse_stringify_indented (v : json) : reads_back_indented v.
Proof.
  induction v as [| b | n | s | items IH | props IH] using json_nested_ind;
    intros Hwf indent fuel rest Hind Hf Hrest;
    (destruct fuel as [|f]; [simpl in Hf; lia|]).
  - rewrite parse_value_S. cbn. rewrite startsWith_nil. reflexivity.
  - rewrite parse_value_S. destruct b; cbn; rewrite startsWith_nil; reflexivity.
  - simpl in Hwf. cbn [stringify_indented JSON_stringify]. rewrite Hwf.
    apply parse_value_number_line; assumption.
  - cbn [stringify_indented JSON_stringify]. unfold quote. cbn [app].
    rewrite parse_value_string, <- app_assoc. cbn [app].
    rewrite parse_quote_body. reflexivity.
  - destruct items as [|v tl]; [reflexivity|].
    cbn [stringify_indented]. cbn [app]. rewrite parse_value_array.
    simpl in Hwf. pose proof Hwf as Hwf'.
    apply andb_true_iff in Hwf'. destruct Hwf' as [Hwv _].
    pose proof (all_spaces_deeper indent Hind) as Hdeep.
    destruct (stringify_indented_head (indent ++ GAP) v Hwv) as (c & r & E & W & B & _).
    rewrite closing_shape.
    assert (Hhead : exists r',
               join (44%N :: NL :: indent ++ GAP)
                 (List.map (stringify_indented (indent ++ GAP)) (v :: tl))
               ++ NL :: indent ++ 93%N :: rest = c :: r').
    { destruct tl; cbn [List.map join]; rewrite E; eexists; reflexivity. }
    destruct Hhead as [r' Hhead].
    rewrite (skip_ws_line _ _ Hdeep), Hhead, (skip_ws_head c r' W), B.
    rewrite <- Hhead.
    apply (parse_elements_indented (v :: tl) IH Hwf ltac:(discriminate)
             indent f [] rest Hind).
    simpl in *; lia.
  - destruct props as [|[k v] tl]; [reflexivity|].
    cbn [stringify_indented]. cbn [app]. rewrite parse_value_object.
    simpl in Hwf. apply andb_true_iff in Hwf. destruct Hwf as [Hd Hwf].
    pose proof (all_spaces_deeper indent Hind) as Hdeep.
    rewrite closing_shape.
    assert (Hhead : exists r',
               join (44%N :: NL :: indent ++ GAP)
                 (List.map (fun kv => quote (fst kv) ++ 58%N :: 32%N
                                        :: stringify_indented (indent ++ GAP) (snd kv))
                    ((k, v) :: tl))
               ++ NL :: indent ++ 125%N :: rest = 34%N :: r').
    { destruct tl; cbn [List.map join fst]; unfold quote; eexists; reflexivity. }
    destruct Hhead as [r' Hhead].
    rewrite (skip_ws_line _ _ Hdeep), Hhead, (skip_ws_head 34%N r' eq_refl).
    change ((34 =? 125)%N) with false. cbv iota.
    rewrite <- Hhead.
    etransitivity.
    + apply (parse_members_indented ((k, v) :: tl) IH Hwf ltac:(discriminate)
               indent f [] rest Hind).
      simpl in *; lia.
    + rewrite (fold_obj_set_distinct ((k, v) :: tl) [] Hd). reflexivity.
Qed.

(** [JSON.parse(JSON.stringify(v, null, 2))] is [v], for every value with
    finite numbers and distinct keys. *)
Lemma JSON_parse_stringify_indented (v : json) :
  json_wf v = true -> JSON_parse (stringify_indented [] v) = Some v.
Proof.
  intros Hwf.
  apply (JSON_parse_any_fuel _ (json_size v) v []); [|reflexivity].
  rewrite <- (List.app_nil_r (stringify_indented [] v)).
  apply (parse_stringify_indented v Hwf [] (json_size v) []);
    [reflexivity|lia|reflexivity].
Qed.

(** The indented text of a value is the indented text of the value as
    written. *)
Lemma stringify_indented_as_written (v : json) :
  forall indent, stringify_indented indent (as_written v) = stringify_indented indent v.
Proof.
  induction v as [| b | n | s | items IH | props IH] using json_nested_ind;
    intros indent; try reflexivity.
  - simpl. destruct (num_finite n) eqn:E; simpl; [rewrite E|]; reflexivity.
  - destruct items as [|x items]; [reflexivity|].
    cbn [as_written List.map stringify_indented]. do 4 f_equal.
    rewrite <- !map_cons, map_map. f_equal. apply map_ext_Forall.
    apply (Forall_impl _ (P := fun v => forall indent,
                                   stringify_indented indent (as_written v)
                                   = stringify_indented indent v)); [|exact IH].
    intros v H. apply H.
  - destruct props as [|p props]; [reflexivity|].
    cbn [as_written List.map stringify_indented]. do 5 f_equal.
    change (List.map (fun kv => quote (fst kv) ++ 58%N :: 32%N
                                  :: stringify_indented (indent ++ GAP) (snd kv))
              (List.map (fun kv => (fst kv, as_written (snd kv))) (p :: props))
            = List.map (fun kv => quote (fst kv) ++ 58%N :: 32%N
                                    :: stringify_indented (indent ++ GAP) (snd kv))
                (p :: props)).
    rewrite map_map. apply map_ext_Forall.
    apply (Forall_impl _ (P := fun kv => forall indent,
                                   stringify_indented indent (as_written (snd kv))
                                   = stringify_indented indent (snd kv))); [|exact IH].
    intros [k v] H. cbn [fst snd] in *. rewrite H. reflexivity.
Qed.

Lemma JSON_parse_stringify_indented_as_written (v : json) :
  keys_distinct v = true ->
  JSON_parse (stringify_indented [] v) = Some (as_written v).
Proof.
  intros H. rewrite <- stringify_indented_as_written.
  apply JSON_parse_stringify_indented, as_written_wf, H.
Qed.

Lemma as_written_fixed (v : json) : json_wf v = true -> as_written v = v.
Proof.
  induction v as [| b | n | s | items IH | props IH] using json_nested_ind;
    intros Hwf; try reflexivity.
  - simpl in *. rewrite Hwf. reflexivity.
  - cbn [as_written]. f_equal. cbn [json_wf] in Hwf.
    rewrite <- (map_id items) at 2. apply map_ext_Forall.
    apply Forall_forall. intros x Hx.
    apply (proj1 (Forall_forall _ _) IH x Hx).
    apply (proj1 (forallb_forall _ _) Hwf x Hx).
  - cbn [as_written]. f_equal. cbn [json_wf] in Hwf.
    apply andb_true_iff in Hwf. destruct Hwf as [_ Hwf].
    rewrite <- (map_id props) at 2. apply map_ext_Forall.
    apply Forall_forall. intros [k x] Hx. cbn [fst snd]. f_equal.
    apply (proj1 (Forall_forall _ _) IH (k, x) Hx).
    apply (proj1 (forallb_forall _ _) Hwf (k, x) Hx).
Qed.

(* ================================================================== *)
(** ** Stored objects read back *)
(* ================================================================== *)

Lemma feedback_value_keys_distinct (feedback : Feedback) :
  keys_distinct (feedback_value feedback) = true.
Proof.
  destruct feedback as [id created source url area title author thread body
                          sentiment urgency tags confidence].
  unfold feedback_value.
  cbn [f_id f_created_at f_source f_source_url f_product_area f_title f_author
       f_thread_id f_body_text f_sentiment f_urgency f_tags f_confidence].
  destruct url, title, author, thread, confidence as [c|];
    cbn [defined_text app keys_distinct List.map fst snd forallb];
    rewrite ?tags_value_keys_distinct, ?confidence_value_keys_distinct;
    reflexivity.
Qed.

Lemma feedback_value_wf (feedback : Feedback) :
  scores_finite feedback = true -> json_wf (feedback_value feedback) = true.
Proof.
  destruct feedback as [id created source url area title author thread body
                          sentiment urgency tags confidence].
  unfold feedback_value, scores_finite.
  cbn [f_id f_created_at f_source f_source_url f_product_area f_title f_author
       f_thread_id f_body_text f_sentiment f_urgency f_tags f_confidence].
  intros Hfin.
  destruct url, title, author, thread, confidence as [c|];
    cbn [defined_text app json_wf List.map fst snd forallb];
    rewrite ?tags_value_wf, ?(confidence_value_wf _ Hfin);
    reflexivity.
Qed.

(** X25.  What [storeFeedbackInR2] puts into the bucket is what
    [getFeedbackFromR2] reads back. Storing asks for one put, under the key of
    the record, and returns that key when the put succeeds. Reading that key
    from a bucket that holds the text that was put returns the record as a
    value, with a score that is not finite as [null]; when the scores are
    finite, it returns the record unchanged. Reading a key the bucket does not
    hold returns [null]. *)
Theorem getFeedbackFromR2_reads_what_was_stored :
  forall (env : Services) (feedback : Feedback),
    storeFeedbackInR2 env feedback
    = ([BucketPut (feedback_put feedback)],
       match bucket_put env (feedback_put feedback) with
       | Ok _ => Ok (getFeedbackR2Key feedback)
       | Throw e => Throw e
       end)
    /\ put_key (feedback_put feedback) = getFeedbackR2Key feedback
    /\ (forall reader : Services,
           bucket_get reader (getFeedbackR2Key feedback)
           = Ok (Some (put_body (feedback_put feedback))) ->
           getFeedbackFromR2 reader (getFeedbackR2Key feedback)
           = Ok (as_written (feedback_value feedback))
           /\ (scores_finite feedback = true ->
               getFeedbackFromR2 reader (getFeedbackR2Key feedback)
               = Ok (feedback_value feedback)))
    /\ (forall (reader : Services) (key : jsstring),
           bucket_get reader key = Ok None ->
           getFeedbackFromR2 reader key = Ok JNull).
Proof.
  intros env feedback. split; [|split; [reflexivity|split]].
  - unfold storeFeedbackInR2, and_then, perform.
    destruct (bucket_put env (feedback_put feedback)); reflexivity.
  - intros reader Hget.
    assert (Hread : getFeedbackFromR2 reader (getFeedbackR2Key feedback)
                    = Ok (as_written (feedback_value feedback))).
    { unfold getFeedbackFromR2. rewrite Hget. cbn [bind put_body feedback_put].
      rewrite (JSON_parse_stringify_indented_as_written _
                 (feedback_value_keys_distinct feedback)).
      reflexivity. }
    split; [exact Hread|]. intros Hfin.
    rewrite Hread, (as_written_fixed _ (feedback_value_wf feedback Hfin)). reflexivity.
  - intros reader key Hget. unfold getFeedbackFromR2. rewrite Hget. reflexivity.
Qed.

(* ================================================================== *)
(** ** Ingestion *)
(* ================================================================== *)

Lemma handleIngest_steps (env : Services) (requestBody : jsstring) :
  handleIngest env requestBody
  = match normalized env requestBody with
    | Throw e => ([], Throw e)
    | Ok feedback =>
        match bucket_put env (feedback_put feedback) with
        | Throw e => ([BucketPut (feedback_put feedback)], Throw e)
        | Ok _ =>
            ([BucketPut (feedback_put feedback);
              TableRun (feedbackToRow feedback (getFeedbackR2Key feedback))],
             match db_run env (feedbackToRow feedback (getFeedbackR2Key feedback)) with
             | Throw e => Throw e
             | Ok _ => Ok (ingest_reply feedback (getFeedbackR2Key feedback))
             end)
        end
    end.
Proof.
  unfold handleIngest, normalized.
  destruct (JSON_parse requestBody) as [rawInput|]; [|reflexivity].
  destruct (ai_run env (userPrompt rawInput)) as [response|e]; [|reflexivity].
  cbn [bind].
  destruct (normalizeFeedback (randomUUID env) (toISOString env) response)
    as [feedback|e]; [|reflexivity].
  unfold storeFeedbackInR2, upsertFeedback, and_then, perform.
  destruct (bucket_put env (feedback_put feedback)) as [u|e]; [|reflexivity].
  destruct (db_run env (feedbackToRow feedback (getFeedbackR2Key feedback)));
    reflexivity.
Qed.

Lemma normalized_is_validated (env : Services) (requestBody : jsstring)
    (feedback : Feedback) :
  normalized env requestBody = Ok feedback ->
  In (f_source feedback) validSources
  /\ In (f_product_area feedback) validProductAreas
  /\ In (f_sentiment feedback) validSentiments
  /\ In (f_urgency feedback) validUrgencies.
Proof.
  unfold normalized, normalizeFeedback.
  destruct (JSON_parse requestBody) as [rawInput|]; [|discriminate].
  destruct (ai_run env (userPrompt rawInput)) as [response|e]; [|discriminate].
  cbn [bind]. destruct response as [| | | | |props]; try discriminate.
  destruct (obj_get K_response props) as [[| | |text| |]|]; try discriminate.
  destruct (JSON_parse (strip_fence text)) as [parsed|]; [|discriminate].
  intros H. apply validateFeedback_Ok in H.
  destruct H as (_ & _ & _ & _ & Hs & Hp & Hse & Hu).
  rewrite Hs, Hp, Hse, Hu. repeat split; apply member_or_in; simpl; tauto.
Qed.

(** X26.  Ingestion writes nothing it has not validated, in a fixed order and
    without undoing anything. When the body is not JSON, the generation fails
    or its reply cannot be normalized, the request fails and no write is asked
    for. Otherwise the object of the validated record is put first; when that
    put fails, the request fails and no row is written; when it succeeds, the
    row of the same record is written with the key of that object, and when
    the row write fails the request fails with the object already put. *)
Theorem handleIngest_writes_in_order :
  forall (env : Services) (requestBody : jsstring),
    (forall e,
        normalized env requestBody = Throw e ->
        handleIngest env requestBody = ([], Throw e))
    /\ (forall feedback,
           normalized env requestBody = Ok feedback ->
           (forall e,
               bucket_put env (feedback_put feedback) = Throw e ->
               handleIngest env requestBody
               = ([BucketPut (feedback_put feedback)], Throw e))
           /\ (forall e,
                  bucket_put env (feedback_put feedback) = Ok tt ->
                  db_run env (feedbackToRow feedback (getFeedbackR2Key feedback))
                  = Throw e ->
                  handleIngest env requestBody
                  = ([BucketPut (feedback_put feedback);
                      TableRun (feedbackToRow feedback (getFeedbackR2Key feedback))],
                     Throw e))
           /\ (bucket_put env (feedback_put feedback) = Ok tt ->
               db_run env (feedbackToRow feedback (getFeedbackR2Key feedback))
               = Ok tt ->
               handleIngest env requestBody
               = ([BucketPut (feedback_put feedback);
                   TableRun (feedbackToRow feedback (getFeedbackR2Key feedback))],
                  Ok (ingest_reply feedback (getFeedbackR2Key feedback))))).
Proof.
  intros env requestBody. split.
  - intros e H. rewrite handleIngest_steps, H. reflexivity.
  - intros feedback H. rewrite handleIngest_steps, H. repeat split.
    + intros e ->. reflexivity.
    + intros e -> ->. reflexivity.
    + intros -> ->. reflexivity.
Qed.

(** X27.  A successful ingestion leaves the two stores consistent. When [POST
    /ingest] replies, it asked for exactly two writes, an object and then a
    row, both of one record whose closed-set fields are legal; the reply names
    the identifier of that record and the key of the object; the row carries
    that same key; the text of the object parses back to the record (a score
    that is not finite as [null]); and the row reads back with
    [rowToFeedback]. *)
Theorem handleIngest_reply_is_consistent :
  forall (env : Services) (requestBody : jsstring) (reply : IngestReply),
    snd (handleIngest env requestBody) = Ok reply ->
    exists feedback : Feedback,
      normalized env requestBody = Ok feedback
      /\ fst (handleIngest env requestBody)
         = [BucketPut (feedback_put feedback);
            TableRun (feedbackToRow feedback (ing_r2_key reply))]
      /\ reply = ingest_reply feedback (getFeedbackR2Key feedback)
      /\ put_key (feedback_put feedback) = ing_r2_key reply
      /\ r_r2_key (feedbackToRow feedback (ing_r2_key reply)) = ing_r2_key reply
      /\ JSON_parse (put_body (feedback_put feedback))
         = Some (as_written (feedback_value feedback))
      /\ (exists loaded,
             rowToFeedback (feedbackToRow feedback (ing_r2_key reply)) = Ok loaded
             /\ l_id loaded = ing_id reply
             /\ l_r2_key loaded = ing_r2_key reply
             /\ l_tags loaded = tags_value (ing_tags reply))
      /\ In (ing_source reply) validSources
      /\ In (ing_product_area reply) validProductAreas
      /\ In (ing_sentiment reply) validSentiments
      /\ In (ing_urgency reply) validUrgencies.
Proof.
  intros env requestBody reply. rewrite handleIngest_steps.
  destruct (normalized env requestBody) as [feedback|e] eqn:En; [|discriminate].
  destruct (bucket_put env (feedback_put feedback)) as [u|e]; [|discriminate].
  cbn [fst snd].
  destruct (db_run env (feedbackToRow feedback (getFeedbackR2Key feedback)))
    as [u'|e]; [|discriminate].
  intros H. injection H as <-. cbn [ing_r2_key ingest_reply].
  exists feedback. split; [reflexivity|]. split; [reflexivity|].
  split; [reflexivity|]. split; [reflexivity|]. split; [reflexivity|].
  split.
  { apply JSON_parse_stringify_indented_as_written, feedback_value_keys_distinct. }
  split.
  { unfold rowToFeedback.
    destruct (feedbackToRow_columns_read feedback (getFeedbackR2Key feedback))
      as [Htags Hconf].
    rewrite Htags, Hconf. cbn [bind]. eexists. split; [reflexivity|].
    repeat split; reflexivity. }
  cbn [ing_source ing_product_area ing_sentiment ing_urgency].
  apply (normalized_is_validated env requestBody feedback En).
Qed.

End RoundTrip.

End Model.

Arguments json : clear implicits.
Arguments jsval : clear implicits.
Arguments FeedbackConfidence : clear implicits.
Arguments Feedback : clear implicits.
Arguments LoadedFeedback : clear implicits.
Arguments Env : clear implicits.
Arguments OptionValue : clear implicits.
Arguments InteractionDataOption : clear implicits.
Arguments InteractionData : clear implicits.
Arguments DiscordInteraction : clear implicits.
Arguments ResponseBody : clear implicits.
Arguments Response : clear implicits.
Arguments Services : clear implicits.
Arguments WorkerResponse : clear implicits.
Arguments Dispatch : clear implicits.

(* ================================================================== *)
(** ** The exact decimals are a lawful instance *)
(* ================================================================== *)

Lemma units_uint_units (d : Decimal.uint) : units_uint (uint_units d) = d.
Proof. induction d; simpl; rewrite ?IHd; reflexivity. Qed.

Lemma digits_value_N_toString (n : N) : digits_value (N_toString n) = n.
Proof.
  unfold digits_value, N_toString. rewrite units_uint_units.
  apply DecimalN.Unsigned.of_to.
Qed.

Lemma uint_units_digits (d : Decimal.uint) : forallb is_digit (uint_units d) = true.
Proof. induction d; simpl; rewrite ?IHd; reflexivity. Qed.

Lemma take_digits_all (ds rest : jsstring) :
  forallb is_digit ds = true -> no_digit_ahead rest = true ->
  take_digits (ds ++ rest) = (ds, rest).
Proof.
  intros Hd Hr. induction ds as [|c ds IH]; cbn [app take_digits].
  - destruct rest as [|c r]; [reflexivity|]. cbn [no_digit_ahead] in Hr.
    apply negb_true_iff in Hr. cbn [take_digits]. rewrite Hr. reflexivity.
  - cbn [forallb] in Hd. apply andb_true_iff in Hd. destruct Hd as [Hc Hd].
    rewrite Hc, (IH Hd). reflexivity.
Qed.

(** The decimal digits of a natural number: the single digit zero, or digits
    that start with a digit other than zero. *)
Lemma N_toString_shape (n : N) :
  N_toString n = [48%N]
  \/ exists c r,
       N_toString n = c :: r /\ (c =? 48)%N = false /\ is_digit c = true
       /\ forallb is_digit r = true.
Proof.
  unfold N_toString.
  assert (E : N.to_uint n = Decimal.unorm (N.to_uint n)).
  { rewrite <- (DecimalN.Unsigned.of_to n) at 1. apply DecimalN.Unsigned.to_of. }
  unfold Decimal.unorm in E.
  pose proof (DecimalFacts.nzhead_nonzero (N.to_uint n)) as Hnz.
  destruct (Decimal.nzhead (N.to_uint n)) as [|h|h|h|h|h|h|h|h|h|h] eqn:Eh;
    rewrite E; try (exfalso; apply (Hnz h); reflexivity);
    [left; reflexivity| right ..];
    simpl; do 2 eexists; (split; [reflexivity|]);
    (split; [reflexivity|split; [reflexivity|apply uint_units_digits]]).
Qed.

Lemma N_toString_digits (n : N) : forallb is_digit (N_toString n) = true.
Proof. apply uint_units_digits. Qed.

Lemma scan_int_N_toString (n : N) (rest : jsstring) :
  no_digit_ahead rest = true ->
  scan_int (N_toString n ++ rest) = Some (N_toString n, rest).
Proof.
  intros Hr. destruct (N_toString_shape n) as [E | (c & r & E & H0 & Hc & Hd)];
    rewrite E.
  - reflexivity.
  - cbn [app]. unfold scan_int. rewrite H0, Hc, (take_digits_all _ _ Hd Hr).
    reflexivity.
Qed.

Lemma N_toString_head (n : N) :
  exists c r, N_toString n = c :: r /\ is_digit c = true.
Proof.
  destruct (N_toString_shape n) as [E | (c & r & E & _ & Hc & _)].
  - exists 48%N, []. auto.
  - exists c, r. auto.
Qed.

Lemma digit_is_no_sign (c : char16) :
  is_digit c = true -> (c =? 45)%N = false /\ (c =? 43)%N = false.
Proof.
  unfold is_digit. intros H. apply andb_true_iff in H. destruct H as [H _].
  apply N.leb_le in H. split; apply N.eqb_neq; lia.
Qed.

(** After a value comes no digit, no fraction and no exponent. *)
Lemma ends_value_scans (rest : jsstring) :
  ends_value rest = true ->
  no_digit_ahead rest = true
  /\ scan_frac rest = Some ([], rest)
  /\ scan_exp rest = Some ([], rest).
Proof.
  destruct rest as [|c r]; [auto|]. cbn [ends_value]. intros H.
  assert (Hc : (c = 44 \/ c = 93 \/ c = 125)%N).
  { apply orb_true_iff in H. destruct H as [H|H].
    - apply orb_true_iff in H. destruct H as [H|H]; apply N.eqb_eq in H; auto.
    - apply N.eqb_eq in H. auto. }
  destruct Hc as [-> | [-> | ->]]; repeat split; reflexivity.
Qed.

(** The exponent part [e], sign, digits is scanned whole. *)
Lemma scan_exp_Z_text (e : Z) (rest : jsstring) :
  no_digit_ahead rest = true ->
  scan_exp (101%N :: Z_text e ++ rest) = Some (101%N :: Z_text e, rest).
Proof.
  intros Hr. unfold Z_text, scan_exp. cbn [N.eqb Pos.eqb orb].
  change ((101 =? 101)%N || (101 =? 69)%N) with true. cbv iota.
  destruct (N_toString_head (Z.abs_N e)) as (c & r & E & Hc).
  pose proof (N_toString_digits (Z.abs_N e)) as Hd.
  destruct (digit_is_no_sign c Hc) as [Hm Hp].
  destruct (e <? 0)%Z.
  - cbn [app]. change ((45 =? 43)%N || (45 =? 45)%N) with true. cbv iota.
    rewrite (take_digits_all _ _ Hd Hr). rewrite E. reflexivity.
  - cbn [app]. rewrite E. cbn [app]. rewrite Hm, Hp. cbn [orb].
    change (c :: r ++ rest) with ((c :: r) ++ rest).
    rewrite <- E, (take_digits_all _ _ Hd Hr). rewrite E. reflexivity.
Qed.

Lemma exponent_value_Z_text (e : Z) : exponent_value (101%N :: Z_text e) = e.
Proof.
  unfold Z_text, exponent_value.
  destruct (N_toString_head (Z.abs_N e)) as (c & r & E & Hc).
  destruct (digit_is_no_sign c Hc) as [Hm Hp].
  destruct (e <? 0)%Z eqn:Ee.
  - cbn [app]. rewrite N.eqb_refl, digits_value_N_toString.
    apply Z.ltb_lt in Ee. lia.
  - cbn [app]. rewrite E, Hm, Hp, <- E, digits_value_N_toString.
    apply Z.ltb_ge in Ee. lia.
Qed.

(** The digits of the mantissa and the exponent part, scanned after the
    sign. *)
Lemma scan_unsigned (m : N) (e : Z) (rest : jsstring) :
  ends_value rest = true ->
  scan_int (N_toString m ++ (if (e =? 0)%Z then [] else 101%N :: Z_text e) ++ rest)
  = Some (N_toString m, (if (e =? 0)%Z then [] else 101%N :: Z_text e) ++ rest)
  /\ scan_frac ((if (e =? 0)%Z then [] else 101%N :: Z_text e) ++ rest)
     = Some ([], (if (e =? 0)%Z then [] else 101%N :: Z_text e) ++ rest)
  /\ scan_exp ((if (e =? 0)%Z then [] else 101%N :: Z_text e) ++ rest)
     = Some ((if (e =? 0)%Z then [] else 101%N :: Z_text e), rest).
Proof.
  intros Hr. destruct (ends_value_scans rest Hr) as (Hnd & Hf & He).
  destruct (e =? 0)%Z.
  - cbn [app]. repeat split; auto. apply scan_int_N_toString, Hnd.
  - cbn [app]. repeat split.
    + apply scan_int_N_toString. reflexivity.
    + apply scan_exp_Z_text, Hnd.
Qed.

Lemma decimal_toString_scans (x : decimal) (rest : jsstring) :
  num_finite x = true -> ends_value rest = true ->
  scan_number (num_toString x ++ rest) = Some (num_toString x, rest).
Proof.
  destruct x as [negative m e| |]; try discriminate. intros _ Hr.
  cbn [num_toString DecimalNumber decimal_toString].
  destruct (scan_unsigned m e rest Hr) as (Hi & Hf & He).
  destruct (N_toString_head m) as (c & r & E & Hc).
  destruct (digit_is_no_sign c Hc) as [Hm _].
  unfold scan_number. rewrite <- !app_assoc. destruct negative; cbn [app].
  - rewrite N.eqb_refl, Hi, Hf, He. reflexivity.
  - rewrite E at 1. cbn [app]. rewrite Hm, Hi, Hf, He. reflexivity.
Qed.

Lemma decimal_toString_denotes (x : decimal) :
  num_finite x = true -> num_ofLiteral (num_toString x) = x.
Proof.
  destruct x as [negative m e| |]; try discriminate. intros Hfin.
  cbn [num_finite DecimalNumber] in Hfin. apply negb_true_iff in Hfin.
  cbn [num_toString num_ofLiteral DecimalNumber decimal_toString].
  destruct (scan_unsigned m e [] eq_refl) as (Hi & Hf & He).
  rewrite !List.app_nil_r in Hi, Hf, He.
  destruct (N_toString_head m) as (c & r & E & Hc).
  destruct (digit_is_no_sign c Hc) as [Hm _].
  assert (Hexp : exponent_value (if (e =? 0)%Z then [] else 101%N :: Z_text e) = e).
  { destruct (e =? 0)%Z eqn:Ee.
    - apply Z.eqb_eq in Ee. subst e. reflexivity.
    - apply exponent_value_Z_text. }
  unfold decimal_ofLiteral. destruct negative; cbn [app].
  - rewrite N.eqb_refl, Hi, Hf, He. cbn [tl length].
    rewrite List.app_nil_r, digits_value_N_toString, Hexp.
    replace (e - Z.of_nat 0)%Z with e by lia.
    unfold decimal_of. rewrite Hfin. reflexivity.
  - rewrite E at 1. cbn [app]. rewrite Hm, Hi, Hf, He. cbn [tl length].
    rewrite List.app_nil_r, digits_value_N_toString, Hexp.
    replace (e - Z.of_nat 0)%Z with e by lia.
    unfold decimal_of. rewrite Hfin. reflexivity.
Qed.

#[export] Instance DecimalNumber_lawful : @LawfulNumber decimal DecimalNumber := {
  toString_scans := decimal_toString_scans;
  toString_denotes := decimal_toString_denotes
}.

(* ================================================================== *)
(** ** The theorems at concrete inputs *)
(* ================================================================== *)

Definition QUOTE : list N := [34%N].

(** [{"source": "discord", "sentiment": "angry", "text": "D1 queries are slow"}]
    as parsed. *)
Definition sample_candidate : json decimal :=
  JObj [(lit "source", JStr (lit "discord"));
        (lit "sentiment", JStr (lit "angry"));
        (lit "text", JStr (lit "D1 queries are slow"))].

Definition sample_uuid : list N := lit "3f2b6c1e-0000-4000-8000-000000000001".
Definition sample_now : list N := lit "2026-01-09T10:15:00.000Z".

Definition sample_feedback : Feedback decimal :=
  {| f_id := sample_uuid;
     f_created_at := sample_now;
     f_source := lit "discord";
     f_source_url := None;
     f_product_area := lit "other";
     f_title := None;
     f_author := None;
     f_thread_id := None;
     f_body_text := lit "D1 queries are slow";
     f_sentiment := lit "neutral";
     f_urgency := lit "medium";
     f_tags := [];
     f_confidence := None |}.

Lemma validateFeedback_closed_sets_witness :
  validateFeedback sample_uuid sample_now sample_candidate = Ok sample_feedback
  /\ In (f_source sample_feedback) validSources
  /\ f_sentiment sample_feedback = lit "neutral"
  /\ exists f, validateFeedback sample_uuid sample_now sample_candidate = Ok f.
Proof.
  destruct (@validateFeedback_closed_sets decimal DecimalNumber
              sample_uuid sample_now sample_candidate) as (Hsets & _ & Hret & _).
  destruct (Hsets sample_feedback eq_refl) as ((Hs & _) & _ & _ & Hsent & _).
  split; [reflexivity|]. split; [exact Hs|]. split.
  - apply Hsent. reflexivity.
  - apply Hret; try reflexivity. discriminate.
Defined.

(** The reply [{"id":{"toString":1}}]. *)
Definition unprintable_id_reply : list N :=
  lit "{" ++ QUOTE ++ lit "id" ++ QUOTE ++ lit ":{" ++ QUOTE ++ lit "toString"
    ++ QUOTE ++ lit ":1}}".

(** C1, the claim as stated: on the candidate [null], which [JSON.parse]
    returns for the text [null], the validator throws instead of returning a
    record, and so does [normalizeFeedback] on a reply with that text.  It
    throws as well on an object whose [id] is an object with an own
    [toString] property, which [String] cannot convert. *)
Lemma validateFeedback_not_total :
  validateFeedback sample_uuid sample_now (@JNull decimal) = Throw TypeError
  /\ ~ (exists f, validateFeedback sample_uuid sample_now (@JNull decimal) = Ok f)
  /\ normalizeFeedback sample_uuid sample_now
       (JObj [(lit "response", @JStr decimal (lit "null"))])
     = Throw TypeError
  /\ JSON_parse unprintable_id_reply
     = Some (JObj [(lit "id", JObj [(lit "toString", JNum (Dec false 1 0))])])
  /\ validateFeedback sample_uuid sample_now
       (JObj [(lit "id", JObj [(lit "toString", JNum (Dec false 1 0))])])
     = Throw TypeError
  /\ normalizeFeedback sample_uuid sample_now
       (JObj [(lit "response", JStr unprintable_id_reply)])
     = Throw TypeError.
Proof.
  split; [reflexivity|]. split; [intros [f H]; discriminate H|].
  repeat split; reflexivity.
Qed.

Definition unparseable_reply : list (list N * json decimal) :=
  [(lit "response", JStr (lit "I could not normalize this feedback."))].

Lemma normalizeFeedback_unparseable_throws_witness :
  obj_get (lit "response") unparseable_reply
  = Some (JStr (lit "I could not normalize this feedback."))
  /\ JSON_parse (number := decimal)
       (strip_fence (lit "I could not normalize this feedback.")) = None
  /\ normalizeFeedback sample_uuid sample_now (JObj unparseable_reply)
     = Throw SyntaxError.
Proof.
  split; [reflexivity|]. split; [reflexivity|].
  apply (proj1 (@normalizeFeedback_unparseable_throws decimal DecimalNumber
                  sample_uuid sample_now unparseable_reply
                  (lit "I could not normalize this feedback.") eq_refl)).
  reflexivity.
Defined.

(** The text [{"source":"github"}]. *)
Definition inner_json : list N :=
  lit "{" ++ QUOTE ++ lit "source" ++ QUOTE ++ lit ":" ++ QUOTE ++ lit "github"
    ++ QUOTE ++ lit "}".

Lemma strip_fence_json_or_untagged_witness :
  all_ws (lit " ") = true
  /\ all_ws [NL] = true
  /\ startsWith ([NL] ++ inner_json ++ [NL]) (lit "json") = false
  /\ strip_fence (lit " " ++ lit "```" ++ lit "json" ++ ([NL] ++ inner_json ++ [NL])
                    ++ lit "```" ++ [NL])
     = trim ([NL] ++ inner_json ++ [NL])
  /\ strip_fence (lit " " ++ lit "```" ++ ([NL] ++ inner_json ++ [NL])
                    ++ lit "```" ++ [NL])
     = trim ([NL] ++ inner_json ++ [NL])
  /\ trim ([NL] ++ inner_json ++ [NL]) = inner_json
  /\ strip_fence (lit " " ++ lit "```" ++ lit "json"
                    ++ (lit "c" ++ [NL] ++ inner_json ++ [NL]) ++ lit "```" ++ [NL])
     = lit "c" ++ [NL] ++ inner_json.
Proof.
  destruct (strip_fence_json_or_untagged (lit " ") [NL] ([NL] ++ inner_json ++ [NL])
              eq_refl eq_refl) as [Hj Hu].
  destruct (strip_fence_json_or_untagged (lit " ") [NL]
              (lit "c" ++ [NL] ++ inner_json ++ [NL]) eq_refl eq_refl) as [Hc _].
  split; [reflexivity|]. split; [reflexivity|]. split; [reflexivity|].
  split; [exact Hj|]. split; [apply Hu; reflexivity|]. split; [reflexivity|].
  rewrite Hc. reflexivity.
Defined.

(** C3, the claim as stated: with the language tag [js] the fence is not
    stripped to the inner text.  The tag stays in front of it, the text does
    not parse and the ingestion fails, while the same inner text under the
    tag [json] is recovered.  With the tag [jsonc] the letter [c] stays in
    front of the inner text, and the ingestion fails as well. *)
Lemma strip_fence_other_tag_kept :
  strip_fence (lit "```" ++ lit "js" ++ [NL] ++ inner_json ++ [NL] ++ lit "```")
  = lit "js" ++ [NL] ++ inner_json
  /\ strip_fence (lit "```" ++ lit "js" ++ [NL] ++ inner_json ++ [NL] ++ lit "```")
     <> inner_json
  /\ strip_fence (lit "```" ++ lit "json" ++ [NL] ++ inner_json ++ [NL] ++ lit "```")
     = inner_json
  /\ normalizeFeedback sample_uuid sample_now
       (JObj [(lit "response",
               @JStr decimal
                 (lit "```" ++ lit "js" ++ [NL] ++ inner_json ++ [NL] ++ lit "```"))])
     = Throw SyntaxError
  /\ strip_fence (lit "```" ++ lit "jsonc" ++ [NL] ++ inner_json ++ [NL] ++ lit "```")
     = lit "c" ++ [NL] ++ inner_json
  /\ normalizeFeedback sample_uuid sample_now
       (JObj [(lit "response",
               @JStr decimal
                 (lit "```" ++ lit "jsonc" ++ [NL] ++ inner_json ++ [NL] ++ lit "```"))])
     = Throw SyntaxError.
Proof.
  split; [reflexivity|]. split; [intros H; discriminate H|].
  repeat split; reflexivity.
Qed.

(** [{"source": "email"}] as parsed: no text field at all. *)
Definition bare_candidate : json decimal :=
  JObj [(lit "source", JStr (lit "email"))].

Lemma validateFeedback_body_text_witness :
  validateFeedback sample_uuid sample_now sample_candidate = Ok sample_feedback
  /\ forallb text_or_falsy (body_fields sample_candidate) = true
  /\ f_body_text sample_feedback = lit "D1 queries are slow"
  /\ body_fields bare_candidate = [None; None; None; None]
  /\ exists f,
       validateFeedback sample_uuid sample_now bare_candidate = Ok f
       /\ f_body_text f = [].
Proof.
  destruct (@validateFeedback_body_text decimal DecimalNumber
              sample_uuid sample_now sample_candidate) as [Hbody _].
  destruct (Hbody sample_feedback eq_refl) as (_ & _ & Htext).
  destruct (@validateFeedback_body_text decimal DecimalNumber
              sample_uuid sample_now bare_candidate) as [_ Habsent].
  destruct (Habsent eq_refl) as [Hempty Hreturns].
  split; [reflexivity|]. split; [reflexivity|].
  split; [rewrite (Htext eq_refl); reflexivity|]. split; [reflexivity|].
  destruct (proj2 Hreturns) as [f Hf].
  - split; [discriminate|]. split; reflexivity.
  - exists f. split; [exact Hf|exact (Hempty f Hf)].
Defined.

(** The reply [{"body_text":[],"content":"real text"}]. *)
Definition empty_array_reply : list N :=
  lit "{" ++ QUOTE ++ lit "body_text" ++ QUOTE ++ lit ":[]," ++ QUOTE
    ++ lit "content" ++ QUOTE ++ lit ":" ++ QUOTE ++ lit "real text" ++ QUOTE
    ++ lit "}".

Definition empty_array_candidate : json decimal :=
  JObj [(lit "body_text", JArr []); (lit "content", JStr (lit "real text"))].

(** C4, the claim as stated: a member that is truthy without being a text
    that is not empty ends the search.  For a candidate whose [body_text]
    is the empty array and whose [content] holds a text, the first text
    that is not empty is that of [content], but the validator takes the
    array, whose string is empty, and never reads [content]. *)
Lemma validateFeedback_body_text_stops_at_truthy :
  JSON_parse empty_array_reply = Some empty_array_candidate
  /\ spec_body_text empty_array_candidate = lit "real text"
  /\ (exists f,
         validateFeedback sample_uuid sample_now empty_array_candidate = Ok f
         /\ f_body_text f = []
         /\ normalizeFeedback sample_uuid sample_now
              (JObj [(lit "response", JStr empty_array_reply)]) = Ok f)
  /\ ~ (forall (data : json decimal) (f : Feedback decimal),
           validateFeedback sample_uuid sample_now data = Ok f ->
           f_body_text f = spec_body_text data).
Proof.
  split; [reflexivity|]. split; [reflexivity|]. split.
  - eexists. split; [reflexivity|]. split; reflexivity.
  - intros H. specialize (H empty_array_candidate _ eq_refl). discriminate H.
Qed.

(** Bindings of a day without feedback: the reads succeed and return
    nothing, the search service answers. *)
Definition quiet_env : Env decimal :=
  {| ai_search := fun _ _ =>
       Ok (Some {| resp_response := Some (lit "Nothing stands out.");
                   resp_data := None |});
     getDailyStats := fun _ => Ok [];
     getFeedbackCount := fun _ => Ok 0%N;
     getHighUrgencySample := fun _ => Ok [] |}.

Definition sample_date : list N := lit "2026-01-09".

Lemma digest_zero_count_short_circuits_witness :
  getDailyStats quiet_env sample_date = Ok []
  /\ getFeedbackCount quiet_env sample_date = Ok 0%N
  /\ getHighUrgencySample quiet_env 3 = Ok []
  /\ (length sample_date <= 1836)%nat
  /\ edit_content (run_task quiet_env (DigestTask (lit "app") (lit "token") sample_date))
     = lit "**" ++ BAR_CHART ++ lit " Feedback Digest for " ++ sample_date ++ lit "**"
         ++ [NL; NL] ++ lit "No feedback recorded for this date.".
Proof.
  assert (Hlen : (length sample_date <= 1836)%nat)
    by (apply Nat.leb_le; vm_compute; reflexivity).
  split; [reflexivity|]. split; [reflexivity|]. split; [reflexivity|].
  split; [exact Hlen|].
  apply (proj1 (proj2 (@digest_zero_count_short_circuits decimal quiet_env
                         (lit "app") (lit "token") sample_date [] []
                         eq_refl eq_refl eq_refl))).
  exact Hlen.
Defined.

Definition bare_ask : DiscordInteraction decimal :=
  {| i_id := lit "test-interaction-id";
     i_type := APPLICATION_COMMAND;
     i_application_id := lit "test-app-id";
     i_data :=
       Some {| idata_id := lit "cmd-id"; idata_name := lit "ask";
               idata_options := Some [] |};
     i_token := lit "test-token" |}.

Definition ask_option (value : list N) : InteractionDataOption decimal :=
  {| opt_name := lit "query"; opt_type := 3; opt_value := Some (VString value) |}.

Definition ask_with (value : list N) : DiscordInteraction decimal :=
  {| i_id := lit "test-interaction-id";
     i_type := APPLICATION_COMMAND;
     i_application_id := lit "test-app-id";
     i_data :=
       Some {| idata_id := lit "cmd-id"; idata_name := lit "ask";
               idata_options := Some [ask_option value] |};
     i_token := lit "test-token" |}.

Lemma handleAskCommand_validates_before_deferring_witness :
  find_option bare_ask (lit "query") = None
  /\ snd (handleAskCommand bare_ask []) = []
  /\ find_option (ask_with (lit "slow D1 queries")) (lit "query")
     = Some (ask_option (lit "slow D1 queries"))
  /\ handleAskCommand (ask_with (lit "slow D1 queries")) []
     = (Response_json (InteractionBody {| ir_type := 5; ir_data := None |}),
        [AskTask (lit "test-app-id") (lit "test-token") (lit "slow D1 queries")]).
Proof.
  destruct (@handleAskCommand_validates_before_deferring decimal DecimalNumber
              bare_ask []) as (Hmissing & _ & _).
  destruct (@handleAskCommand_validates_before_deferring decimal DecimalNumber
              (ask_with (lit "slow D1 queries")) []) as (_ & _ & Hpresent).
  split; [reflexivity|]. split; [rewrite (Hmissing eq_refl); reflexivity|].
  split; [reflexivity|].
  apply (Hpresent (ask_option (lit "slow D1 queries"))
           (VString (lit "slow D1 queries")) eq_refl eq_refl).
  discriminate.
Defined.

Lemma empty_query_is_a_missing_query_witness :
  JSON_parse (number := decimal) EMPTY_QUERY_BODY
  = Some (JObj [(lit "query", JStr [])])
  /\ handleAsk quiet_env EMPTY_QUERY_BODY
     = Ok {| status := 400; body := ErrorBody (lit "Missing required field: query") |}
  /\ find_option (ask_with []) (lit "query") = Some (ask_option [])
  /\ handleAskCommand (ask_with []) []
     = (Response_json (InteractionBody (createEphemeralResponse ASK_USAGE)), []).
Proof.
  destruct (@empty_query_is_a_missing_query decimal DecimalNumber)
    as (_ & Hhttp & Hcommand).
  split; [reflexivity|]. split.
  - apply (Hhttp quiet_env EMPTY_QUERY_BODY [(lit "query", JStr [])]); reflexivity.
  - split; [reflexivity|].
    apply (Hcommand (ask_with []) [] (ask_option [])); reflexivity.
Defined.

Definition long_answer : SearchResult :=
  {| answer := repeat 97%N 2500; citations := [] |}.

Lemma discord_rendering_within_ceiling_witness :
  (1900 < length (summary_content long_answer))%nat
  /\ (length (summarizeForDiscord long_answer) <= 2000)%nat
  /\ endsWith (summarizeForDiscord long_answer) (lit "...") = true.
Proof.
  assert (Hlong : (1900 < length (summary_content long_answer))%nat)
    by (apply Nat.ltb_lt; vm_compute; reflexivity).
  destruct (proj1 (@discord_rendering_within_ceiling decimal) long_answer)
    as [Hlen Hend].
  split; [exact Hlong|]. split; [exact Hlen|exact (Hend Hlong)].
Defined.

Lemma getFeedbackR2Key_format_witness :
  is_calendar_day (lit "2026-01-09") = true
  /\ f_created_at sample_feedback = lit "2026-01-09" ++ lit "T" ++ lit "10:15:00.000Z"
  /\ getFeedbackR2Key sample_feedback
     = lit "feedback/dt=2026-01-09/source=discord/3f2b6c1e-0000-4000-8000-000000000001.json".
Proof.
  destruct (@getFeedbackR2Key_format decimal sample_feedback) as (_ & _ & Hday).
  split; [reflexivity|]. split; [reflexivity|].
  rewrite (Hday (lit "2026-01-09") (lit "10:15:00.000Z") eq_refl eq_refl).
  reflexivity.
Defined.

(** [{"created_at": "2026-01-09 10:15:00"}] as parsed: a timestamp with a
    space where ISO 8601 has the [T]. *)
Definition spaced_candidate : json decimal :=
  JObj [(lit "created_at", JStr (lit "2026-01-09 10:15:00"))].

(** C9, the claim as stated: the timestamp of a record is not checked
    anywhere, and for a record whose [created_at] has the day and the time
    separated by a space the key has the whole timestamp after [dt=]: there
    is no calendar day for which it is the key of the convention. *)
Lemma getFeedbackR2Key_date_unchecked :
  exists feedback : Feedback decimal,
    validateFeedback sample_uuid sample_now spaced_candidate = Ok feedback
    /\ f_created_at feedback = lit "2026-01-09 10:15:00"
    /\ getFeedbackR2Key feedback
       = lit "feedback/dt=2026-01-09 10:15:00/source=email/3f2b6c1e-0000-4000-8000-000000000001.json"
    /\ is_calendar_day (date_portion (f_created_at feedback)) = false
    /\ ~ (exists day,
             is_calendar_day day = true
             /\ getFeedbackR2Key feedback
                = lit "feedback/dt=" ++ day ++ lit "/source=" ++ f_source feedback
                    ++ lit "/" ++ f_id feedback ++ lit ".json").
Proof.
  eexists. split; [reflexivity|]. split; [reflexivity|]. split; [reflexivity|].
  split; [reflexivity|].
  intros (day & Hd & Hk). unfold is_calendar_day in Hd.
  do 10 (destruct day as [|? day]; [discriminate Hd|]).
  destruct day; [|discriminate Hd].
  apply (f_equal (fun key => nth 22 key 0%N)) in Hk. vm_compute in Hk.
  discriminate Hk.
Qed.

(** A record with tags and finite scores. *)
Definition scored_feedback : Feedback decimal :=
  {| f_id := sample_uuid;
     f_created_at := sample_now;
     f_source := lit "github";
     f_source_url := Some (lit "https://github.com/cloudflare/workers-sdk/issues/1234");
     f_product_area := lit "d1";
     f_title := Some (lit "D1 query timeout on large result sets");
     f_author := Some (lit "developer_bob");
     f_thread_id := None;
     f_body_text := lit "D1 sometimes times out.";
     f_sentiment := lit "negative";
     f_urgency := lit "high";
     f_tags := [lit "bug"; lit "performance"];
     f_confidence :=
       Some {| c_product_area := Some (Dec false 9 (-1));
               c_sentiment := Some (Dec false 85 (-2));
               c_urgency := None |} |}.

Lemma rowToFeedback_feedbackToRow_witness :
  scores_finite scored_feedback = true
  /\ exists loaded,
       rowToFeedback (feedbackToRow scored_feedback (lit "feedback/key.json"))
       = Ok loaded
       /\ l_tags loaded = JArr [JStr (lit "bug"); JStr (lit "performance")]
       /\ l_confidence loaded
          = Some (JObj [(lit "product_area", JNum (Dec false 9 (-1)));
                        (lit "sentiment", JNum (Dec false 85 (-2)))]).
Proof.
  split; [reflexivity|].
  destruct (@rowToFeedback_feedbackToRow decimal DecimalNumber DecimalNumber_lawful
              scored_feedback (lit "feedback/key.json") eq_refl)
    as (loaded & Hrow & Htags & Hconf & _).
  exists loaded. split; [exact Hrow|]. split; [exact Htags|exact Hconf].
Defined.

(** The reply [{"tags":["bug"],"confidence":{"sentiment":1e999}}]: the
    literal [1e999] is beyond the doubles and denotes [Infinity]. *)
Definition overflowing_reply : list N :=
  lit "{" ++ QUOTE ++ lit "tags" ++ QUOTE ++ lit ":[" ++ QUOTE ++ lit "bug" ++ QUOTE
    ++ lit "]," ++ QUOTE ++ lit "confidence" ++ QUOTE ++ lit ":{" ++ QUOTE
    ++ lit "sentiment" ++ QUOTE ++ lit ":1e999}}".

(** The record the validator builds from that reply. *)
Definition overflowing_feedback : Feedback decimal :=
  {| f_id := sample_uuid;
     f_created_at := sample_now;
     f_source := lit "email";
     f_source_url := None;
     f_product_area := lit "other";
     f_title := None;
     f_author := None;
     f_thread_id := None;
     f_body_text := [];
     f_sentiment := lit "neutral";
     f_urgency := lit "medium";
     f_tags := [lit "bug"];
     f_confidence :=
       Some {| c_product_area := None;
               c_sentiment := Some (Infinite false);
               c_urgency := None |} |}.

(** C7, the claim as stated: a record with non-empty tags whose confidence
    holds a number that is not finite does not come back.  The score is
    written [null] and reads back as [null], not as the number. *)
Lemma rowToFeedback_feedbackToRow_not_finite :
  normalizeFeedback sample_uuid sample_now
    (JObj [(lit "response", JStr overflowing_reply)])
  = Ok overflowing_feedback
  /\ f_tags overflowing_feedback <> []
  /\ r_confidence_json (feedbackToRow overflowing_feedback (lit "feedback/key.json"))
     = Some (lit "{" ++ QUOTE ++ lit "sentiment" ++ QUOTE ++ lit ":null}")
  /\ exists loaded,
       rowToFeedback (feedbackToRow overflowing_feedback (lit "feedback/key.json"))
       = Ok loaded
       /\ l_confidence loaded = Some (JObj [(lit "sentiment", JNull)])
       /\ l_confidence loaded
          <> option_map confidence_value (f_confidence overflowing_feedback).
Proof.
  split; [vm_compute; reflexivity|].
  split; [discriminate|]. split; [reflexivity|].
  eexists. split; [reflexivity|]. split; [reflexivity|].
  intros H. discriminate H.
Qed.

(* ------------------------------------------------------------------ *)
(** *** Search results and renderings *)

(** A reply with two sources, the second without content or file name. *)
Definition sourced_reply : AiSearchResponse :=
  {| resp_response := Some (lit "Checkout is slow.");
     resp_data :=
       Some {| data_response := None;
               data_sources :=
                 Some [{| src_content := Some (lit "The checkout page takes ten seconds.");
                          src_filename :=
                            Some (lit "feedback/dt=2026-01-09/source=github/a.json") |};
                       {| src_content := None; src_filename := None |}] |} |}.

Lemma queryAiSearch_citations_bounded_witness :
  Forall (fun c => length (cit_text c) <= 200)
    (citations (queryAiSearch (Ok (Some sourced_reply))))
  /\ List.map cit_source_url (citations (queryAiSearch (Ok (Some sourced_reply))))
     = [Some (lit "feedback/dt=2026-01-09/source=github/a.json"); None]
  /\ queryAiSearch (Throw TypeError)
     = {| answer := lit "Unable to search feedback at this time."; citations := [] |}.
Proof.
  destruct (queryAiSearch_citations_bounded (Ok (Some sourced_reply)))
    as (Hbound & Hsources & _).
  destruct (queryAiSearch_citations_bounded (Throw TypeError)) as (_ & _ & Hfail).
  split; [exact Hbound|]. split.
  - exact (proj1 (Hsources sourced_reply _ _ eq_refl eq_refl eq_refl)).
  - exact (Hfail TypeError eq_refl).
Defined.

Lemma summarizeForDiscord_short_answer_kept_witness :
  length (answer (queryAiSearch (Ok (Some sourced_reply)))) <= 1565
  /\ summarizeForDiscord (queryAiSearch (Ok (Some sourced_reply)))
     = lit "Checkout is slow." ++ [NL; NL] ++ lit "**Sources:**" ++ [NL]
         ++ lit "1. The checkout page takes ten seconds....".
Proof.
  assert (Hshort : length (answer (queryAiSearch (Ok (Some sourced_reply)))) <= 1565)
    by (apply Nat.leb_le; vm_compute; reflexivity).
  split; [exact Hshort|].
  rewrite (proj1 (summarizeForDiscord_short_answer_kept _ Hshort)). reflexivity.
Defined.

(** A reply that names two sources without content. *)
Definition contentless_reply : AiSearchResponse :=
  {| resp_response := Some (lit "Checkout is slow.");
     resp_data :=
       Some {| data_response := None;
               data_sources :=
                 Some [{| src_content := None; src_filename := Some (lit "a.json") |};
                       {| src_content := Some []; src_filename := Some (lit "b.json") |}] |} |}.

Lemma summarizeForDiscord_heading_without_lines_witness :
  summary_content (queryAiSearch (Ok (Some contentless_reply)))
  = lit "Checkout is slow." ++ [NL; NL] ++ lit "**Sources:**".
Proof.
  apply (summarizeForDiscord_heading_without_lines contentless_reply _ _ eq_refl eq_refl).
  - discriminate.
  - constructor; [left; reflexivity|]. constructor; [right; reflexivity|]. constructor.
Defined.

(** Bindings whose search service is down, on a day with two items. *)
Definition offline_env : Env decimal :=
  {| ai_search := fun _ _ => Throw TypeError;
     getDailyStats := fun _ =>
       Ok [{| st_source := lit "github"; st_product_area := lit "d1";
              st_sentiment := lit "negative"; st_count := 2 |}];
     getFeedbackCount := fun _ => Ok 2%N;
     getHighUrgencySample := fun _ => Ok [] |}.

(** The body [{"query":"slow"}]. *)
Definition slow_query_body : list N :=
  lit "{" ++ QUOTE ++ lit "query" ++ QUOTE ++ lit ":" ++ QUOTE ++ lit "slow" ++ QUOTE
    ++ lit "}".

Lemma search_failure_degrades_to_a_line_witness :
  edit_content (run_task offline_env (AskTask (lit "app") (lit "token") (lit "slow")))
  = lit "Unable to search feedback at this time."
  /\ handleAsk offline_env slow_query_body
     = Ok {| status := 200;
             body := AskBody (JStr (lit "slow"))
                       (lit "Unable to search feedback at this time.") [] |}.
Proof.
  destruct (search_failure_degrades_to_a_line offline_env TypeError) as [Hcommand Hhttp].
  split.
  - rewrite (Hcommand (lit "app") (lit "token") (lit "slow") eq_refl). reflexivity.
  - apply (Hhttp slow_query_body [(lit "query", JStr (lit "slow"))] (JStr (lit "slow")));
      reflexivity.
Defined.

(** Bindings whose count query fails. *)
Definition broken_env : Env decimal :=
  {| ai_search := fun _ _ => Ok None;
     getDailyStats := fun _ => Ok [];
     getFeedbackCount := fun _ => Throw TypeError;
     getHighUrgencySample := fun _ => Ok [] |}.

Lemma digest_apology_iff_read_or_delivery_fails_witness :
  fst (run_continuation broken_env (DigestTask (lit "app") (lit "token") sample_date)
         (Replied true (Ok [])) (Replied true (Ok [])))
  = [{| edit_application_id := lit "app"; edit_token := lit "token";
        edit_content :=
          lit "Sorry, I encountered an error generating the digest. Please try again." |}]
  /\ In {| edit_application_id := lit "app"; edit_token := lit "token";
           edit_content :=
             lit "Sorry, I encountered an error generating the digest. Please try again." |}
        (fst (run_continuation quiet_env
                (DigestTask (lit "app") (lit "token") sample_date)
                (NoReply TypeError) (Replied true (Ok []))))
  /\ hd_error (fst (run_continuation offline_env
                      (DigestTask (lit "app") (lit "token") sample_date)
                      (Replied false (Ok (lit "Unknown Webhook"))) (NoReply TypeError)))
     = Some {| edit_application_id := lit "app"; edit_token := lit "token";
               edit_content :=
                 digest_rendering sample_date 2
                   [{| st_source := lit "github"; st_product_area := lit "d1";
                       st_sentiment := lit "negative"; st_count := 2 |}]
                   {| answer := lit "Unable to search feedback at this time.";
                      citations := [] |}
                   [] |}.
Proof.
  split; [reflexivity|]. split.
  - apply (proj1 (digest_apology_iff_read_or_delivery_fails quiet_env (lit "app")
                    (lit "token") sample_date (NoReply TypeError)
                    (Replied true (Ok [])))).
    right. exists TypeError. reflexivity.
  - apply (proj1 (proj2 (proj2 (proj2 (digest_apology_iff_read_or_delivery_fails offline_env
                                  (lit "app") (lit "token") sample_date
                                  (Replied false (Ok (lit "Unknown Webhook")))
                                  (NoReply TypeError)))))
             TypeError); reflexivity.
Defined.

(** The statistics of a day: two sources, [discord] in three rows. *)
Definition sample_stats : list DailyStat :=
  [{| st_source := lit "discord"; st_product_area := lit "workers";
      st_sentiment := lit "positive"; st_count := 3 |};
   {| st_source := lit "github"; st_product_area := lit "d1";
      st_sentiment := lit "negative"; st_count := 2 |};
   {| st_source := lit "discord"; st_product_area := lit "r2";
      st_sentiment := lit "neutral"; st_count := 1 |};
   {| st_source := lit "discord"; st_product_area := lit "d1";
      st_sentiment := lit "positive"; st_count := 4 |}].

Lemma group_stats_one_entry_per_source_witness :
  Forall (fun st => In (st_source st) validSources) sample_stats
  /\ group_stats sample_stats
     = [(lit "discord", {| pos := 7; neu := 1; neg := 0 |});
        (lit "github", {| pos := 0; neu := 0; neg := 2 |})]
  /\ NoDup (List.map fst (group_stats sample_stats))
  /\ tally (fun st => from_source (lit "discord") st && is_positive st) sample_stats
     = 7%N.
Proof.
  assert (Hvalid : Forall (fun st => In (st_source st) validSources) sample_stats)
    by (repeat constructor; simpl; tauto).
  destruct (group_stats_one_entry_per_source sample_stats Hvalid)
    as (Hnodup & _ & Hcounts).
  split; [exact Hvalid|]. split; [reflexivity|]. split; [exact Hnodup|].
  symmetry.
  apply (Hcounts (lit "discord") {| pos := 7; neu := 1; neg := 0 |}).
  left. reflexivity.
Defined.

Lemma ask_command_answers_as_the_request_witness :
  getStringOption (ask_with (lit "slow")) (lit "query") = Some (lit "slow")
  /\ JSON_parse (number := decimal) slow_query_body
     = Some (JObj [(lit "query", JStr (lit "slow"))])
  /\ ai_search quiet_env (JStr (lit "slow")) 5 <> ai_search offline_env (JStr (lit "slow")) 5
  /\ edit_content
       (run_task quiet_env (AskTask (lit "test-app-id") (lit "test-token") (lit "slow")))
     = lit "Nothing stands out."
  /\ handleAsk offline_env slow_query_body
     = Ok {| status := 200;
             body := AskBody (JStr (lit "slow"))
                       (lit "Unable to search feedback at this time.") [] |}
  /\ exists a cites,
       handleAsk quiet_env slow_query_body
       = Ok {| status := 200; body := AskBody (JStr (lit "slow")) a cites |}
       /\ edit_content
            (run_task quiet_env
               (AskTask (lit "test-app-id") (lit "test-token") (lit "slow"))) = a.
Proof.
  split; [reflexivity|]. split; [reflexivity|]. split; [discriminate|].
  split; [reflexivity|]. split; [reflexivity|].
  assert (Hne : lit "slow" <> []) by discriminate.
  destruct (ask_command_answers_as_the_request quiet_env quiet_env
              (ask_with (lit "slow")) [] slow_query_body
              [(lit "query", JStr (lit "slow"))] (lit "slow")
              eq_refl Hne eq_refl eq_refl)
    as (task & Htask & _ & _ & Hsame).
  injection Htask as <-. exact (Hsame eq_refl).
Defined.

(** A [digest] command without options. *)
Definition bare_digest : DiscordInteraction decimal :=
  {| i_id := lit "test-interaction-id";
     i_type := APPLICATION_COMMAND;
     i_application_id := lit "test-app-id";
     i_data :=
       Some {| idata_id := lit "cmd-id"; idata_name := lit "digest";
               idata_options := Some [] |};
     i_token := lit "test-token" |}.

Lemma handleDigestCommand_always_defers_witness :
  getStringOption bare_digest (lit "date") = None
  /\ handleDigestCommand bare_digest sample_date []
     = (Response_json (InteractionBody {| ir_type := 5; ir_data := None |}),
        [DigestTask (lit "test-app-id") (lit "test-token") sample_date]).
Proof.
  destruct (@handleDigestCommand_always_defers decimal DecimalNumber bare_digest
              sample_date []) as (Hreply & Hmissing & _).
  split; [reflexivity|].
  rewrite (surjective_pairing (handleDigestCommand bare_digest sample_date [])).
  rewrite Hreply, (Hmissing (or_introl eq_refl)). reflexivity.
Defined.

(* ------------------------------------------------------------------ *)
(** *** Canonicalization *)

Lemma strip_fence_without_fence_witness :
  startsWith (trim (lit " " ++ inner_json ++ [NL])) (lit "```") = false
  /\ endsWith (trim (lit " " ++ inner_json ++ [NL])) (lit "```") = false
  /\ strip_fence (lit " " ++ inner_json ++ [NL]) = inner_json.
Proof.
  split; [reflexivity|]. split; [reflexivity|].
  rewrite (proj1 (strip_fence_without_fence (lit " " ++ inner_json ++ [NL]))
             eq_refl eq_refl).
  reflexivity.
Defined.

(** The reply [[]]: JSON, but no object. *)
Lemma validateFeedback_without_properties_witness :
  JSON_parse (number := decimal) (lit "[]") = Some (JArr [])
  /\ validateFeedback sample_uuid sample_now (@JArr decimal [])
     = Ok {| f_id := sample_uuid;
             f_created_at := sample_now;
             f_source := lit "email";
             f_source_url := None;
             f_product_area := lit "other";
             f_title := None;
             f_author := None;
             f_thread_id := None;
             f_body_text := [];
             f_sentiment := lit "neutral";
             f_urgency := lit "medium";
             f_tags := [];
             f_confidence := None |}.
Proof.
  split; [reflexivity|].
  apply validateFeedback_without_properties; [discriminate|reflexivity].
Defined.

Lemma validateFeedback_idempotent_witness :
  validateFeedback sample_uuid sample_now sample_candidate = Ok sample_feedback
  /\ validateFeedback (lit "another-uuid") (lit "2027-01-01T00:00:00.000Z")
       (feedback_value sample_feedback)
     = Ok sample_feedback.
Proof.
  split; [reflexivity|].
  apply (validateFeedback_idempotent sample_uuid sample_now (lit "another-uuid")
           (lit "2027-01-01T00:00:00.000Z") sample_candidate sample_feedback eq_refl);
    discriminate.
Defined.

Lemma normalizeFeedback_errors_witness :
  normalizeFeedback sample_uuid sample_now (JObj unparseable_reply) = Throw SyntaxError
  /\ exists props text,
       JObj unparseable_reply = JObj props
       /\ obj_get (lit "response") props = Some (JStr text)
       /\ JSON_parse (strip_fence text) = None.
Proof.
  split; [reflexivity|].
  exact (normalizeFeedback_errors sample_uuid sample_now (JObj unparseable_reply)
           SyntaxError eq_refl).
Defined.

(** The reply is the serialization of [{"source":"github"}], in a fenced
    block tagged [json] with line breaks inside. *)
Lemma normalizeFeedback_reads_serialized_object_witness :
  JSON_stringify (JObj [(lit "source", @JStr decimal (lit "github"))]) = inner_json
  /\ normalizeFeedback sample_uuid sample_now
       (JObj [(lit "response",
               @JStr decimal
                 (lit " " ++ lit "```json"
                    ++ ([NL] ++ JSON_stringify
                                  (JObj [(lit "source", @JStr decimal (lit "github"))])
                          ++ [NL])
                    ++ lit "```" ++ []))])
     = validateFeedback sample_uuid sample_now
         (JObj [(lit "source", JStr (lit "github"))]).
Proof.
  split; [reflexivity|].
  apply (proj1 (proj2 (@normalizeFeedback_reads_serialized_object decimal DecimalNumber
                         DecimalNumber_lawful sample_uuid sample_now
                         [(lit "source", JStr (lit "github"))]
                         (lit " ") [NL] [NL] [] eq_refl eq_refl eq_refl eq_refl eq_refl))).
Defined.

(* ------------------------------------------------------------------ *)
(** *** Rows and stored objects *)

Lemma rowToFeedback_feedbackToRow_returns_witness :
  exists loaded,
    rowToFeedback (feedbackToRow overflowing_feedback (lit "feedback/key.json"))
    = Ok loaded
    /\ l_tags loaded = JArr [JStr (lit "bug")]
    /\ l_confidence loaded = Some (JObj [(lit "sentiment", JNull)])
    /\ l_urgency loaded = lit "medium".
Proof.
  eexists. split.
  - apply (@rowToFeedback_feedbackToRow_returns decimal DecimalNumber
             DecimalNumber_lawful overflowing_feedback (lit "feedback/key.json")).
  - repeat split; reflexivity.
Defined.

Lemma getFeedbackR2Key_injective_witness :
  slash_free (date_portion (f_created_at sample_feedback)) = true
  /\ In (f_source sample_feedback) validSources
  /\ In (f_source scored_feedback) validSources
  /\ f_id sample_feedback = f_id scored_feedback
  /\ getFeedbackR2Key sample_feedback <> getFeedbackR2Key scored_feedback.
Proof.
  assert (H1 : In (f_source sample_feedback) validSources) by (simpl; tauto).
  assert (H2 : In (f_source scored_feedback) validSources) by (simpl; tauto).
  split; [reflexivity|]. split; [exact H1|]. split; [exact H2|].
  split; [reflexivity|]. intros E.
  apply (proj1 (getFeedbackR2Key_injective sample_feedback scored_feedback
                  eq_refl eq_refl H1 H2)) in E.
  destruct E as (_ & Es & _). discriminate Es.
Defined.

Lemma getFeedbackR2Key_under_listing_prefix_witness :
  is_calendar_day sample_date = true
  /\ startsWith (getFeedbackR2Key sample_feedback)
       (lit "feedback/dt=2026-01-09/source=discord/") = true
  /\ startsWith (getFeedbackR2Key sample_feedback)
       (listing_prefix sample_date (Some (lit "github"))) = false.
Proof.
  assert (H1 : In (f_source sample_feedback) validSources) by (simpl; tauto).
  assert (Hd : In (lit "discord") validSources) by (simpl; tauto).
  assert (Hg : In (lit "github") validSources) by (simpl; tauto).
  destruct (getFeedbackR2Key_under_listing_prefix sample_feedback)
    as (_ & _ & _ & Hiff).
  split; [reflexivity|]. split.
  - apply (proj2 (proj2 (Hiff sample_date (lit "discord") eq_refl Hd eq_refl H1))).
    split; reflexivity.
  - destruct (startsWith (getFeedbackR2Key sample_feedback)
                (listing_prefix sample_date (Some (lit "github")))) eqn:E;
      [|reflexivity].
    apply (proj1 (proj2 (Hiff sample_date (lit "github") eq_refl Hg eq_refl H1))) in E.
    destruct E as [_ Es]. discriminate Es.
Defined.

(** A bucket that holds the object of [scored_feedback] under its key, with
    the text [storeFeedbackInR2] puts. *)
Definition holding_services : Services decimal :=
  {| ai_run := fun _ => Throw UnexpectedFormat;
     randomUUID := sample_uuid;
     toISOString := sample_now;
     bucket_put := fun _ => Ok tt;
     bucket_get := fun key =>
       if jsstring_eqb key (getFeedbackR2Key scored_feedback)
       then Ok (Some (stringify_indented [] (feedback_value scored_feedback)))
       else Ok None;
     bucket_list := fun _ => Ok [];
     db_run := fun _ => Ok tt |}.

Lemma getFeedbackFromR2_reads_what_was_stored_witness :
  scores_finite scored_feedback = true
  /\ storeFeedbackInR2 holding_services scored_feedback
     = ([BucketPut (feedback_put scored_feedback)],
        Ok (lit "feedback/dt=2026-01-09/source=github/3f2b6c1e-0000-4000-8000-000000000001.json"))
  /\ getFeedbackFromR2 holding_services (getFeedbackR2Key scored_feedback)
     = Ok (feedback_value scored_feedback)
  /\ getFeedbackFromR2 holding_services (lit "feedback/none.json") = Ok JNull.
Proof.
  destruct (@getFeedbackFromR2_reads_what_was_stored decimal DecimalNumber
              DecimalNumber_lawful holding_services scored_feedback)
    as (Hstore & _ & Hread & Hmissing).
  split; [reflexivity|]. split; [rewrite Hstore; reflexivity|]. split.
  - apply (proj2 (Hread holding_services eq_refl)). reflexivity.
  - apply Hmissing. reflexivity.
Defined.

(* ------------------------------------------------------------------ *)
(** *** Ingestion *)

(** The body [{"content":"D1 is slow"}]. *)
Definition ingest_body : list N :=
  lit "{" ++ QUOTE ++ lit "content" ++ QUOTE ++ lit ":" ++ QUOTE ++ lit "D1 is slow"
    ++ QUOTE ++ lit "}".

(** The reply of the model: [{"source":"github"}] in a fenced block. *)
Definition fenced_reply : json decimal :=
  JObj [(lit "response",
         JStr (lit "```json" ++ [NL] ++ inner_json ++ [NL] ++ lit "```"))].

(** The record the validator makes of it. *)
Definition github_feedback : Feedback decimal :=
  {| f_id := sample_uuid;
     f_created_at := sample_now;
     f_source := lit "github";
     f_source_url := None;
     f_product_area := lit "other";
     f_title := None;
     f_author := None;
     f_thread_id := None;
     f_body_text := [];
     f_sentiment := lit "neutral";
     f_urgency := lit "medium";
     f_tags := [];
     f_confidence := None |}.

(** Services that all answer. *)
Definition working_services : Services decimal :=
  {| ai_run := fun _ => Ok fenced_reply;
     randomUUID := sample_uuid;
     toISOString := sample_now;
     bucket_put := fun _ => Ok tt;
     bucket_get := fun _ => Ok None;
     bucket_list := fun _ => Ok [];
     db_run := fun _ => Ok tt |}.

(** The same, with a table that refuses the row. *)
Definition failing_table : Services decimal :=
  {| ai_run := fun _ => Ok fenced_reply;
     randomUUID := sample_uuid;
     toISOString := sample_now;
     bucket_put := fun _ => Ok tt;
     bucket_get := fun _ => Ok None;
     bucket_list := fun _ => Ok [];
     db_run := fun _ => Throw TypeError |}.

Lemma handleIngest_writes_in_order_witness :
  normalized failing_table ingest_body = Ok github_feedback
  /\ handleIngest failing_table ingest_body
     = ([BucketPut (feedback_put github_feedback);
         TableRun (feedbackToRow github_feedback (getFeedbackR2Key github_feedback))],
        Throw TypeError)
  /\ handleIngest failing_table (lit "not json") = ([], Throw SyntaxError).
Proof.
  assert (Hn : normalized failing_table ingest_body = Ok github_feedback)
    by (vm_compute; reflexivity).
  destruct (handleIngest_writes_in_order failing_table ingest_body) as [_ Hwrites].
  destruct (handleIngest_writes_in_order failing_table (lit "not json")) as [Hnone _].
  split; [exact Hn|]. split.
  - apply (proj1 (proj2 (Hwrites github_feedback Hn)) TypeError); reflexivity.
  - apply Hnone. reflexivity.
Defined.

Lemma handleIngest_reply_is_consistent_witness :
  snd (handleIngest working_services ingest_body)
  = Ok (ingest_reply github_feedback (getFeedbackR2Key github_feedback))
  /\ exists feedback,
       normalized working_services ingest_body = Ok feedback
       /\ put_key (feedback_put feedback)
          = lit "feedback/dt=2026-01-09/source=github/3f2b6c1e-0000-4000-8000-000000000001.json"
       /\ JSON_parse (put_body (feedback_put feedback))
          = Some (as_written (feedback_value feedback)).
Proof.
  assert (Hreply : snd (handleIngest working_services ingest_body)
                   = Ok (ingest_reply github_feedback (getFeedbackR2Key github_feedback)))
    by (vm_compute; reflexivity).
  split; [exact Hreply|].
  destruct (@handleIngest_reply_is_consistent decimal DecimalNumber DecimalNumber_lawful
              working_services ingest_body _ Hreply)
    as (feedback & Hn & _ & _ & Hkey & _ & Hparse & _).
  exists feedback. split; [exact Hn|]. split; [exact Hkey|exact Hparse].
Defined.

(* ------------------------------------------------------------------ *)
(** *** Interactions *)

(** [x === k] on exact decimals: the two zeros equal 0, and a positive
    decimal equals the integer it denotes. *)
Definition decimal_equals (x : decimal) (k : N) : bool :=
  match x with
  | Dec negative m e =>
      ((m =? 0) && (k =? 0))%N
      || (negb negative
          && (if (0 <=? e)%Z then (m * 10 ^ Z.to_N e =? k)%N
              else (m =? k * 10 ^ Z.to_N (- e))%N))
  | _ => false
  end.

(** Names that are already in lower case. *)
Definition unchanged (name : list N) : list N := name.

(** The body [{"type":1}]: a PING. *)
Definition ping_body : list N :=
  lit "{" ++ QUOTE ++ lit "type" ++ QUOTE ++ lit ":1}".

(** The body [{"type":1,"data":{"name":5}}]: a PING whose [data] has a
    number for a name. *)
Definition named_ping_body : list N :=
  lit "{" ++ QUOTE ++ lit "type" ++ QUOTE ++ lit ":1," ++ QUOTE ++ lit "data" ++ QUOTE
    ++ lit ":{" ++ QUOTE ++ lit "name" ++ QUOTE ++ lit ":5}}".

(** The body of the test suite that names an unknown command:
    [{"type":2,"data":{"id":"cmd-id","name":"unknown_command"}}]. *)
Definition unknown_body : list N :=
  lit "{" ++ QUOTE ++ lit "type" ++ QUOTE ++ lit ":2," ++ QUOTE ++ lit "data" ++ QUOTE
    ++ lit ":{" ++ QUOTE ++ lit "id" ++ QUOTE ++ lit ":" ++ QUOTE ++ lit "cmd-id" ++ QUOTE
    ++ lit "," ++ QUOTE ++ lit "name" ++ QUOTE ++ lit ":" ++ QUOTE
    ++ lit "unknown_command" ++ QUOTE ++ lit "}}".

(** The body [{"type":2,"data":{"name":"ask","options":[]}}]. *)
Definition ask_body : list N :=
  lit "{" ++ QUOTE ++ lit "type" ++ QUOTE ++ lit ":2," ++ QUOTE ++ lit "data" ++ QUOTE
    ++ lit ":{" ++ QUOTE ++ lit "name" ++ QUOTE ++ lit ":" ++ QUOTE ++ lit "ask" ++ QUOTE
    ++ lit "," ++ QUOTE ++ lit "options" ++ QUOTE ++ lit ":[]}}".

Definition ask_received : json decimal :=
  JObj [(lit "type", JNum (Dec false 2 0));
        (lit "data", JObj [(lit "name", JStr (lit "ask")); (lit "options", JArr [])])].

Lemma handleDiscordInteraction_immediate_replies_witness :
  handleDiscordInteraction unchanged decimal_equals ping_body
  = Ok (Answer
          (JsonResponse
             {| status := 200;
                body := InteractionBody {| ir_type := 1; ir_data := None |} |}))
  /\ handleDiscordInteraction unchanged decimal_equals named_ping_body = Throw TypeError
  /\ handleDiscordInteraction unchanged decimal_equals (lit "null") = Throw TypeError
  /\ handleDiscordInteraction unchanged decimal_equals unknown_body
     = Ok (Answer
             (JsonResponse
                {| status := 200;
                   body :=
                     InteractionBody
                       (createEphemeralResponse
                          (lit "Unknown command: unknown_command")) |}))
  /\ handleDiscordInteraction unchanged decimal_equals (lit "type=1")
     = Ok (Answer (TextResponse 400 (lit "Bad Request"))).
Proof.
  split.
  { destruct (@handleDiscordInteraction_immediate_replies decimal DecimalNumber
                unchanged decimal_equals ping_body) as (_ & _ & Hreplies).
    apply (proj1 (Hreplies (JObj [(lit "type", JNum (Dec false 1 0))]) None
                    eq_refl eq_refl)).
    reflexivity. }
  split.
  { apply (proj2 (proj1 (proj2 (@handleDiscordInteraction_immediate_replies
                                  decimal DecimalNumber unchanged decimal_equals
                                  named_ping_body)) TypeError)).
    split; [reflexivity|]. eexists. split; [reflexivity|]. right.
    eexists. split; reflexivity. }
  split.
  { apply (proj2 (proj1 (proj2 (@handleDiscordInteraction_immediate_replies
                                  decimal DecimalNumber unchanged decimal_equals
                                  (lit "null"))) TypeError)).
    split; [reflexivity|]. exists JNull. split; [reflexivity|]. left. reflexivity. }
  split.
  { destruct (@handleDiscordInteraction_immediate_replies decimal DecimalNumber
                unchanged decimal_equals unknown_body) as (_ & _ & Hreplies).
    apply (proj2 (proj2 (proj2 (Hreplies _ (Some (lit "unknown_command"))
                                  eq_refl eq_refl)))
             (lit "unknown_command"));
      try reflexivity; discriminate. }
  apply (proj1 (@handleDiscordInteraction_immediate_replies decimal DecimalNumber
                  unchanged decimal_equals (lit "type=1"))).
  reflexivity.
Defined.

Lemma handleDiscordInteraction_commands_only_witness :
  JSON_parse ask_body = Some ask_received
  /\ handleDiscordInteraction unchanged decimal_equals ask_body
     = Ok (ToAskCommand ask_received)
  /\ handleDiscordInteraction unchanged decimal_equals ask_body
     <> Ok (ToDigestCommand ask_received).
Proof.
  destruct (@handleDiscordInteraction_commands_only decimal DecimalNumber
              unchanged decimal_equals ask_body ask_received) as [Hask Hdigest].
  split; [reflexivity|]. split.
  - apply (proj2 Hask). split; [reflexivity|]. split; [reflexivity|].
    split; [eexists; split; reflexivity|].
    do 2 eexists. split; [reflexivity|]. split; reflexivity.
  - intros H. apply (proj1 Hdigest) in H.
    destruct H as (_ & _ & _ & data & name & Hd & Hn & Hlow).
    injection Hd as <-. injection Hn as <-. discriminate Hlow.
Defined.

(* ------------------------------------------------------------------ *)
(** *** Truncation and partitions *)

Lemma truncate_for_discord_keeps_the_head_witness :
  length (lit "Checkout is slow.") <= 1900
  /\ truncate_for_discord (lit "Checkout is slow.") = lit "Checkout is slow."
  /\ firstn 1897 (summarizeForDiscord long_answer) = repeat 97%N 1897.
Proof.
  assert (Hshort : length (lit "Checkout is slow.") <= 1900)
    by (apply Nat.leb_le; vm_compute; reflexivity).
  destruct (truncate_for_discord_keeps_the_head (lit "Checkout is slow."))
    as (_ & Hsame & _ & Hsummary & _).
  split; [exact Hshort|]. split; [exact (Hsame Hshort)|].
  rewrite (Hsummary long_answer). vm_compute. reflexivity.
Defined.

(** [{"created_at": "yesterday, late"}] as parsed: a timestamp that is no
    timestamp. *)
Definition undated_candidate : json decimal :=
  JObj [(lit "created_at", JStr (lit "yesterday, late"))].

Lemma validateFeedback_date_partition_witness :
  (exists feedback,
      validateFeedback sample_uuid sample_now undated_candidate = Ok feedback
      /\ getFeedbackR2Key feedback
         = lit "feedback/dt=yesterday, late/source=email/3f2b6c1e-0000-4000-8000-000000000001.json")
  /\ validateFeedback sample_uuid sample_now sample_candidate = Ok sample_feedback
  /\ getFeedbackR2Key sample_feedback
     = lit "feedback/dt=2026-01-09/source=discord/3f2b6c1e-0000-4000-8000-000000000001.json".
Proof.
  split.
  - eexists. split; [reflexivity|].
    destruct (validateFeedback_date_partition sample_uuid sample_now undated_candidate
                _ eq_refl) as [Hgiven _].
    rewrite (proj2 (Hgiven _ _ eq_refl)). reflexivity.
  - split; [reflexivity|].
    destruct (validateFeedback_date_partition sample_uuid sample_now sample_candidate
                sample_feedback eq_refl) as [_ Hdefault].
    rewrite (proj2 (Hdefault eq_refl) (lit "2026-01-09") (lit "10:15:00.000Z")
               eq_refl eq_refl).
    reflexivity.
Defined.
